(** * Sidereal birth-chart engine: shallow embedding and properties

    The engine under [services/astro-core-python/internal] is embedded
    function by function.  A Python [int] is a [Z].  A Python [float] is
    read in two ways.

    - Exact reading (modules [PyNum], [Signs], [Nakshatras], [Planetary],
      [Houses]): a float is an exact rational ([Q]), a decimal literal
      denotes its decimal value and every operation is exact.  Statements
      about rationals use the setoid equality [==] of [Q].
    - Binary64 reading (module [Binary64]): a float is a primitive
      binary64 value and every operation rounds as the hardware does.  It
      covers the sign and nakshatra lookups, where rounding decides the
      result.

    The [math] module and the ephemeris provider are libraries outside the
    repository; they enter as records of functions over which the
    definitions and theorems are parameterised.  Module [Planetary] takes
    the provider as total functions: the computation when every library
    call returns.  Module [Service] threads the module globals of
    planetary.py through the route and lets every library call raise. *)

From Stdlib Require Import QArith Qround Qabs Lqa ZArith Lia List String Bool Morphisms.
From Stdlib Require Floats.
Import ListNotations.

Local Open Scope Q_scope.

(* ================================================================= *)
(** ** Python numeric primitives over exact rationals *)

Module PyNum.

(** [int(x)] on a float: truncation toward zero. *)
Definition int_of_float (x : Q) : Z :=
  if Qle_bool 0 x then Qfloor x else Qceiling x.

(** [x % y] on floats for a positive divisor [y]: the result carries the
    sign of the divisor, i.e. [x - floor(x/y)*y].  Every use in the
    engine has a positive literal divisor.  The exact remainder is always
    below [y]; in binary64 the last addition rounds, and for a tiny
    negative [x] the result is [y] itself ([Binary64.float_mod]). *)
Definition float_mod (x y : Q) : Q :=
  x - inject_Z (Qfloor (x / y)) * y.

(** Nearest integer, ties to the even neighbour. *)
Definition round_half_even (x : Q) : Z :=
  let f := Qfloor x in
  match Qcompare (x - inject_Z f) (1 # 2) with
  | Lt => f
  | Gt => (f + 1)%Z
  | Eq => if Z.even f then f else (f + 1)%Z
  end.

(** [round(x, ndigits)] on a float. *)
Definition round_float (x : Q) (ndigits : Z) : Q :=
  inject_Z (round_half_even (x * inject_Z (10 ^ ndigits)))
  / inject_Z (10 ^ ndigits).

(** [a / b] on two ints (true division). *)
Definition int_truediv (a b : Z) : Q := inject_Z a / inject_Z b.

(** [x < y] on floats. *)
Definition Qlt_bool (x y : Q) : bool := negb (Qle_bool y x).

(** [range(a, b)]. *)
Definition range (a b : Z) : list Z :=
  map (fun i => (a + Z.of_nat i)%Z) (seq 0 (Z.to_nat (b - a))).

End PyNum.

Import PyNum.

(* ================================================================= *)
(** ** internal/signs.py *)

Module Signs.

Local Open Scope string_scope.

Definition SIGNS : list string :=
  [ "Aries"; "Taurus"; "Gemini"; "Cancer"; "Leo"; "Virgo";
    "Libra"; "Scorpio"; "Sagittarius"; "Capricorn"; "Aquarius"; "Pisces" ].

Definition SIGN_LORDS : list string :=
  [ "Mars"; "Venus"; "Mercury"; "Moon"; "Sun"; "Mercury";
    "Venus"; "Mars"; "Jupiter"; "Saturn"; "Saturn"; "Jupiter" ].

Definition SIGN_ELEMENTS : list string :=
  [ "Fire"; "Earth"; "Air"; "Water"; "Fire"; "Earth";
    "Air"; "Water"; "Fire"; "Earth"; "Air"; "Water" ].

Definition SIGN_QUALITIES : list string :=
  [ "Cardinal"; "Fixed"; "Mutable"; "Cardinal"; "Fixed"; "Mutable";
    "Cardinal"; "Fixed"; "Mutable"; "Cardinal"; "Fixed"; "Mutable" ].

(** [table[i]] for an index [0 <= i < len(table)].  The getters below
    index with [n % 12] (resp. [n % 27]) into tables of 12 (resp. 27)
    entries, so the index is always in range and the default of [nth]
    is never returned. *)
Definition table_get (table : list string) (i : Z) : string :=
  List.nth (Z.to_nat i) table "".

Definition get_sign_name (sign_num : Z) : string :=
  table_get SIGNS (sign_num mod 12).
Definition get_sign_lord (sign_num : Z) : string :=
  table_get SIGN_LORDS (sign_num mod 12).
Definition get_sign_element (sign_num : Z) : string :=
  table_get SIGN_ELEMENTS (sign_num mod 12).
Definition get_sign_quality (sign_num : Z) : string :=
  table_get SIGN_QUALITIES (sign_num mod 12).

Record sign_info := {
  sign_num : Z;
  sign_name : string;
  sign_lord : string;
  norm_degree : Q;
  element : string;
  quality : string
}.

(** In binary64 the quotient [longitude / 30] is rounded; the index is
    the same as here for every longitude from 0 up to 2^53
    ([Binary64.longitude_to_sign]). *)
Definition longitude_to_sign (longitude : Q) : sign_info :=
  let sign_num := (int_of_float (longitude / 30) mod 12)%Z in
  let norm_degree := float_mod longitude 30 in
  {| sign_num := sign_num;
     sign_name := get_sign_name sign_num;
     sign_lord := get_sign_lord sign_num;
     norm_degree := norm_degree;
     element := get_sign_element sign_num;
     quality := get_sign_quality sign_num |}.

End Signs.

(* ================================================================= *)
(** ** internal/nakshatras.py *)

Module Nakshatras.

Local Open Scope string_scope.

Definition NAKSHATRAS : list string :=
  [ "Ashwini"; "Bharani"; "Krittika"; "Rohini"; "Mrigashira"; "Ardra";
    "Punarvasu"; "Pushya"; "Ashlesha"; "Magha"; "Purva Phalguni";
    "Uttara Phalguni"; "Hasta"; "Chitra"; "Swati"; "Vishakha";
    "Anuradha"; "Jyeshtha"; "Mula"; "Purva Ashadha"; "Uttara Ashadha";
    "Shravana"; "Dhanishta"; "Shatabhisha"; "Purva Bhadrapada";
    "Uttara Bhadrapada"; "Revati" ].

Definition NAKSHATRA_LORDS : list string :=
  [ "Ketu"; "Venus"; "Sun"; "Moon"; "Mars"; "Rahu"; "Jupiter"; "Saturn"; "Mercury";
    "Ketu"; "Venus"; "Sun"; "Moon"; "Mars"; "Rahu"; "Jupiter"; "Saturn"; "Mercury";
    "Ketu"; "Venus"; "Sun"; "Moon"; "Mars"; "Rahu"; "Jupiter"; "Saturn"; "Mercury" ].

Definition NAKSHATRA_DEITIES : list string :=
  [ "Ashwini Kumaras"; "Yama"; "Agni"; "Brahma"; "Soma"; "Rudra"; "Aditi";
    "Brihaspati"; "Sarpa"; "Pitris"; "Bhaga"; "Aryaman"; "Savitar";
    "Tvashtar"; "Vayu"; "Indra-Agni"; "Mitra"; "Indra"; "Nirriti"; "Apas";
    "Vishve Devas"; "Vishnu"; "Vasus"; "Varuna"; "Aja Ekapada";
    "Ahir Budhnya"; "Pushan" ].

Definition get_nakshatra_name (nakshatra_num : Z) : string :=
  Signs.table_get NAKSHATRAS (nakshatra_num mod 27).
Definition get_nakshatra_lord (nakshatra_num : Z) : string :=
  Signs.table_get NAKSHATRA_LORDS (nakshatra_num mod 27).
Definition get_nakshatra_deity (nakshatra_num : Z) : string :=
  Signs.table_get NAKSHATRA_DEITIES (nakshatra_num mod 27).

Record nakshatra_info := {
  nakshatra_num : Z;
  nakshatra_name : string;
  nakshatra_lord : string;
  deity : string;
  pada : Z;
  degree_in_nakshatra : Q
}.

(** Exactly 40/3 here.  The binary64 value of [360.0 / 27.0] is
    13.333333333333334, a little more; what that changes is in
    [Binary64.longitude_to_nakshatra]. *)
Definition nakshatra_span : Q := 360 / 27.
Definition pada_span : Q := nakshatra_span / 4.

Definition longitude_to_nakshatra (longitude : Q) : nakshatra_info :=
  let nakshatra_num := (int_of_float (longitude / nakshatra_span) mod 27)%Z in
  let degree_in_nakshatra := float_mod longitude nakshatra_span in
  let pada := (int_of_float (degree_in_nakshatra / pada_span) + 1)%Z in
  {| nakshatra_num := nakshatra_num;
     nakshatra_name := get_nakshatra_name nakshatra_num;
     nakshatra_lord := get_nakshatra_lord nakshatra_num;
     deity := get_nakshatra_deity nakshatra_num;
     pada := pada;
     degree_in_nakshatra := degree_in_nakshatra |}.

End Nakshatras.

(* ================================================================= *)
(** ** The two lookups over binary64 floats

    [internal/signs.py] and [internal/nakshatras.py] once more, with
    Python's float operations as CPython performs them on binary64
    values: [/] rounds to nearest, [%] is [fmod] followed by the sign
    adjustment, [int()] truncates. *)

Module Binary64.

Import Floats.

Local Open Scope float_scope.

(** [int(x)]: truncation toward zero; [None] is the [ValueError] or
    [OverflowError] raised for a NaN or an infinity. *)
Definition int_of_float (x : float) : option Z :=
  match Prim2SF x with
  | S754_zero _ => Some 0%Z
  | S754_finite s m e =>
    let n := Z.shiftl (Z.pos m) e in
    Some (if s then (- n)%Z else n)
  | S754_infinity _ | S754_nan => None
  end.

(** C's [fmod]: the exact remainder of the division truncated toward
    zero, with the sign of [x].  The remainder of two binary64 values is
    a binary64 value, so no rounding takes place. *)
Definition fmod (x y : float) : float :=
  match Prim2SF x, Prim2SF y with
  | S754_finite sx mx ex, S754_finite _ my ey =>
    let e0 := Z.min ex ey in
    let X := Z.shiftl (Z.pos mx) (ex - e0) in
    let Y := Z.shiftl (Z.pos my) (ey - e0) in
    match (X mod Y)%Z with
    | Z.pos r => SF2Prim (S754_finite sx r e0)
    | _ => if sx then neg_zero else zero
    end
  | S754_zero _, S754_finite _ _ _ => x
  | S754_zero _, S754_infinity _ => x
  | S754_finite _ _ _, S754_infinity _ => x
  | _, _ => nan
  end.

(** [x % y] on floats, as [float_rem] of CPython computes it: [fmod],
    then the divisor is added when the remainder is not zero and its
    sign differs from the divisor's.  That addition rounds.  [None] is
    the [ZeroDivisionError]. *)
Definition float_mod (x y : float) : option float :=
  if is_zero y then None
  else
    let m := fmod x y in
    if is_zero m then Some (if get_sign y then neg_zero else zero)
    else if xorb (y <? 0) (m <? 0) then Some (m + y)
    else Some m.

(** An [int] converted to a float, for integers below 2^53. *)
Definition float_of_int (n : Z) : float :=
  if (n <? 0)%Z then - of_uint63 (Uint63.of_Z (- n)) else of_uint63 (Uint63.of_Z n).

Record sign_info := {
  sign_num : Z;
  sign_name : string;
  sign_lord : string;
  norm_degree : float;
  element : string;
  quality : string
}.

Definition longitude_to_sign (longitude : float) : option sign_info :=
  match int_of_float (longitude / 30) with
  | None => None
  | Some quotient =>
    let sign_num := (quotient mod 12)%Z in
    match float_mod longitude 30 with
    | None => None
    | Some norm_degree =>
      Some {| sign_num := sign_num;
              sign_name := Signs.get_sign_name sign_num;
              sign_lord := Signs.get_sign_lord sign_num;
              norm_degree := norm_degree;
              element := Signs.get_sign_element sign_num;
              quality := Signs.get_sign_quality sign_num |}
    end
  end.

Record nakshatra_info := {
  nakshatra_num : Z;
  nakshatra_name : string;
  nakshatra_lord : string;
  deity : string;
  pada : Z;
  degree_in_nakshatra : float
}.

Definition longitude_to_nakshatra (longitude : float) : option nakshatra_info :=
  let nakshatra_span := 360 / 27 in
  match int_of_float (longitude / nakshatra_span) with
  | None => None
  | Some quotient =>
    let nakshatra_num := (quotient mod 27)%Z in
    match float_mod longitude nakshatra_span with
    | None => None
    | Some degree_in_nakshatra =>
      let pada_span := nakshatra_span / 4 in
      match int_of_float (degree_in_nakshatra / pada_span) with
      | None => None
      | Some quarter =>
        let pada := (quarter + 1)%Z in
        Some {| nakshatra_num := nakshatra_num;
                nakshatra_name := Nakshatras.get_nakshatra_name nakshatra_num;
                nakshatra_lord := Nakshatras.get_nakshatra_lord nakshatra_num;
                deity := Nakshatras.get_nakshatra_deity nakshatra_num;
                pada := pada;
                degree_in_nakshatra := degree_in_nakshatra |}
      end
    end
  end.

End Binary64.

(* ================================================================= *)
(** ** Libraries outside the repository *)

Module Extern.

(** A naive [datetime]; the engine treats a naive value as UTC. *)
Record datetime := mk_datetime {
  year : Z; month : Z; day : Z;
  hour : Z; minute : Z; second : Z; microsecond : Z
}.

(** The functions of Python's [math] module that the engine calls.
    None of them raises on a finite argument. *)
Record math_module := {
  radians : Q -> Q;
  degrees : Q -> Q;
  sin : Q -> Q;
  cos : Q -> Q;
  tan : Q -> Q;
  atan2 : Q -> Q -> Q
}.

(** The bodies looked up in the ephemeris, as [_planets_map] names them. *)
Inductive body :=
| body_sun | body_moon | body_mars | body_mercury
| body_jupiter_barycenter | body_venus | body_saturn_barycenter.

(** [_earth] or [_earth + Topos(latitude, longitude)]. *)
Inductive observer :=
| Geocenter
| Topos (latitude_degrees longitude_degrees : Q).

(** The ephemeris provider: [from_datetime dt] is the TT Julian date
    [_ts.from_datetime(dt).tt], and [ecliptic_lon o b t] is
    [o.at(t).observe(b).apparent().ecliptic_latlon()[1].degrees].
    Here the provider is a total function: every call returns.  The
    provider whose calls may raise (a failed load, an instant outside the
    ephemeris file) is [Service.skyfield_objects]. *)
Record ephemeris := {
  from_datetime : datetime -> Q;
  ecliptic_lon : observer -> body -> Q -> Q
}.

End Extern.

Import Extern.

(* ================================================================= *)
(** ** The dictionaries exchanged between the modules *)

Module Dicts.

(** A planet dictionary (the fields of [PlanetPosition] in routes.py). *)
Record planet := {
  name : string;
  fullDegree : Q;
  normDegree : Q;
  speed : Q;
  isRetro : bool;
  sign : string;
  signLord : string;
  nakshatra : string;
  nakshatraLord : string;
  house : Z
}.

(** [planet['house'] = h]. *)
Definition set_house (p : planet) (h : Z) : planet :=
  {| name := name p; fullDegree := fullDegree p; normDegree := normDegree p;
     speed := speed p; isRetro := isRetro p; sign := sign p;
     signLord := signLord p; nakshatra := nakshatra p;
     nakshatraLord := nakshatraLord p; house := h |}.

(** A house dictionary (the fields of [HouseInfo] in routes.py). *)
Record house_cusp := {
  house_no : Z;        (* key 'house' *)
  cusp_sign : string;  (* key 'sign' *)
  degree : Q           (* key 'degree' *)
}.

End Dicts.

Import Dicts.

(* ================================================================= *)
(** ** internal/planetary.py *)

Module Planetary.

Import Signs Nakshatras.

Definition lower_ascii (c : Ascii.ascii) : Ascii.ascii :=
  let n := Ascii.nat_of_ascii c in
  if (65 <=? n)%nat && (n <=? 90)%nat then Ascii.ascii_of_nat (n + 32) else c.

(** [s.lower()] on ASCII text. *)
Fixpoint lower (s : string) : string :=
  match s with
  | EmptyString => EmptyString
  | String c rest => String (lower_ascii c) (lower rest)
  end.

(** [_planets_map], in insertion order. *)
Definition _planets_map : list (string * body) :=
  [ ("Sun", body_sun); ("Moon", body_moon); ("Mars", body_mars);
    ("Mercury", body_mercury); ("Jupiter", body_jupiter_barycenter);
    ("Venus", body_venus); ("Saturn", body_saturn_barycenter) ]%string.

Definition calculate_lahiri_ayanamsha (jd : Q) : Q :=
  let jd_1950 := 2433282.5 in
  let years_since_1950 := (jd - jd_1950) / 365.25 in
  let ayanamsha := 23.85 + (50.26 / 3600.0) * years_since_1950 in
  ayanamsha.

Section WithEphemeris.

Variable eph : ephemeris.

(** [time_tt] is [time_obj.tt]; [ts.tt_jd(time_obj.tt - interval_days)]
    is the time whose TT Julian date is the difference. *)
Definition calculate_planet_speed
           (planet_body : body) (time_tt : Q) (interval_days : Q) : Q :=
  let pos_now := ecliptic_lon eph Geocenter planet_body time_tt in
  let t_prev := time_tt - interval_days in
  let pos_prev := ecliptic_lon eph Geocenter planet_body t_prev in
  let speed := (pos_now - pos_prev) / interval_days in
  if Qlt_bool 180 speed then speed - 360
  else if Qlt_bool speed (-180) then speed + 360
  else speed.

Definition calculate_planet_positions
           (dt : datetime) (latitude longitude : Q) (ayanamsha : string)
  : list planet :=
  let observer := Topos latitude longitude in
  let t := from_datetime eph dt in
  let ayanamsha_value :=
    if String.eqb (lower ayanamsha) "lahiri"
    then calculate_lahiri_ayanamsha t
    else calculate_lahiri_ayanamsha t in
  map (fun entry : string * body =>
         let (planet_name, planet_body) := entry in
         let tropical_long := ecliptic_lon eph observer planet_body t in
         let sidereal_long := float_mod (tropical_long - ayanamsha_value) 360 in
         let sign_info := longitude_to_sign sidereal_long in
         let nakshatra_info := longitude_to_nakshatra sidereal_long in
         (* interval_days keeps its default, 1.0 *)
         let speed := calculate_planet_speed planet_body t 1 in
         {| name := planet_name;
            fullDegree := round_float sidereal_long 6;
            normDegree := round_float (norm_degree sign_info) 6;
            speed := round_float speed 6;
            isRetro := Qlt_bool speed 0;
            sign := sign_name sign_info;
            signLord := sign_lord sign_info;
            nakshatra := nakshatra_name nakshatra_info;
            nakshatraLord := nakshatra_lord nakshatra_info;
            house := 0 |})
      _planets_map.

End WithEphemeris.

Definition calculate_rahu_ketu (moon_position : planet) : planet * planet :=
  let moon_long := fullDegree moon_position in
  let rahu_long := float_mod (moon_long + 180) 360 in
  let ketu_long := moon_long in
  let rahu_sign := longitude_to_sign rahu_long in
  let rahu_nakshatra := longitude_to_nakshatra rahu_long in
  let ketu_sign := longitude_to_sign ketu_long in
  let ketu_nakshatra := longitude_to_nakshatra ketu_long in
  let rahu :=
    {| name := "Rahu";
       fullDegree := round_float rahu_long 6;
       normDegree := round_float (norm_degree rahu_sign) 6;
       speed := -0.053;
       isRetro := true;
       sign := sign_name rahu_sign;
       signLord := sign_lord rahu_sign;
       nakshatra := nakshatra_name rahu_nakshatra;
       nakshatraLord := nakshatra_lord rahu_nakshatra;
       house := 0 |} in
  let ketu :=
    {| name := "Ketu";
       fullDegree := round_float ketu_long 6;
       normDegree := round_float (norm_degree ketu_sign) 6;
       speed := -0.053;
       isRetro := true;
       sign := sign_name ketu_sign;
       signLord := sign_lord ketu_sign;
       nakshatra := nakshatra_name ketu_nakshatra;
       nakshatraLord := nakshatra_lord ketu_nakshatra;
       house := 0 |} in
  (rahu, ketu).

End Planetary.

(* ================================================================= *)
(** ** internal/houses.py *)

Module Houses.

Import Signs.

(** [dt] is naive or already UTC, as every caller in the repository
    passes it; the conversion of an aware value by the standard library
    is not modelled. *)
Definition datetime_to_julian_date (dt : datetime) : Q :=
  let year0 := year dt in
  let month0 := month dt in
  let day := day dt in
  let (year, month) :=
    if (month0 <=? 2)%Z then ((year0 - 1)%Z, (month0 + 12)%Z)
    else (year0, month0) in
  let a := int_of_float (int_truediv year 100) in
  let b := (2 - a + int_of_float (int_truediv a 4))%Z in
  let jd :=
    inject_Z (int_of_float (365.25 * inject_Z (year + 4716))
              + int_of_float (30.6001 * inject_Z (month + 1))
              + day + b)
    - 1524.5 in
  let time_fraction :=
    (inject_Z (hour dt) + inject_Z (minute dt) / 60.0
     + inject_Z (second dt) / 3600.0) / 24.0 in
  jd + time_fraction.

Definition calculate_greenwich_sidereal_time (dt : datetime) : Q :=
  let jd := datetime_to_julian_date dt in
  let jd2000 := 2451545.0 in
  let d := jd - jd2000 in
  let gst := 18.697374558 + 24.06570982441908 * d in
  float_mod gst 24.0.

Definition calculate_local_sidereal_time (dt : datetime) (longitude : Q) : Q :=
  let gst := calculate_greenwich_sidereal_time dt in
  let longitude_hours := longitude / 15.0 in
  float_mod (gst + longitude_hours) 24.0.

Section WithMath.

Variable math : math_module.

Definition calculate_ascendant
           (dt : datetime) (latitude longitude ayanamsha : Q) : Q :=
  let lst := calculate_local_sidereal_time dt longitude in
  let ramc := lst * 15.0 in
  let epsilon := 23.4397 in
  let ramc_rad := radians math ramc in
  let lat_rad := radians math latitude in
  let eps_rad := radians math epsilon in
  let numerator := - cos math ramc_rad in
  let denominator :=
    sin math ramc_rad * cos math eps_rad
    + tan math lat_rad * sin math eps_rad in
  let asc_tropical_rad := atan2 math numerator denominator in
  let asc_tropical := degrees math asc_tropical_rad in
  let asc_tropical := float_mod asc_tropical 360 in
  let asc_sidereal := float_mod (asc_tropical - ayanamsha) 360 in
  asc_sidereal.

Definition calculate_midheaven
           (dt : datetime) (longitude ayanamsha : Q) : Q :=
  let lst := calculate_local_sidereal_time dt longitude in
  let ramc := lst * 15.0 in
  let epsilon := 23.4397 in
  let ramc_rad := radians math ramc in
  let eps_rad := radians math epsilon in
  let mc_tropical_rad := atan2 math (tan math ramc_rad) (cos math eps_rad) in
  let mc_tropical := float_mod (degrees math mc_tropical_rad) 360 in
  let mc_sidereal := float_mod (mc_tropical - ayanamsha) 360 in
  mc_sidereal.

End WithMath.

(** [cusp_degree] is an [int] here, and [round(n, 6)] of an int is [n]. *)
Definition calculate_houses_whole_sign (ascendant : Q) : list house_cusp :=
  let asc_sign_num := int_of_float (ascendant / 30) in
  map (fun house_num =>
         let sign_num := ((asc_sign_num + house_num - 1) mod 12)%Z in
         let sign_name := get_sign_name sign_num in
         let cusp_degree := (sign_num * 30)%Z in
         {| house_no := house_num;
            cusp_sign := sign_name;
            degree := inject_Z cusp_degree |})
      (range 1 13).

(** The dictionary literal [house_cusps] has the keys 1..12 in order and
    the loop reads them in that order, so the loop is a map over the
    entries of the literal. *)
Definition calculate_houses_placidus
           (ascendant mc latitude : Q) : list house_cusp :=
  let house_1 := ascendant in
  let house_10 := mc in
  let house_7 := float_mod (ascendant + 180) 360 in
  let house_4 := float_mod (mc + 180) 360 in
  let house_cusps : list (Z * Q) :=
    [ (1, house_1);
      (2, float_mod (house_1 + (house_4 - house_1) / 3) 360);
      (3, float_mod (house_1 + 2 * (house_4 - house_1) / 3) 360);
      (4, house_4);
      (5, float_mod (house_4 + (house_7 - house_4) / 3) 360);
      (6, float_mod (house_4 + 2 * (house_7 - house_4) / 3) 360);
      (7, house_7);
      (8, float_mod (house_7 + (house_10 - house_7) / 3) 360);
      (9, float_mod (house_7 + 2 * (house_10 - house_7) / 3) 360);
      (10, house_10);
      (11, float_mod (house_10 + (house_1 - house_10) / 3) 360);
      (12, float_mod (house_10 + 2 * (house_1 - house_10) / 3) 360) ]%Z in
  map (fun entry : Z * Q =>
         let (house_num, cusp) := entry in
         let sign_num := (int_of_float (cusp / 30) mod 12)%Z in
         let sign_name := get_sign_name sign_num in
         {| house_no := house_num;
            cusp_sign := sign_name;
            degree := round_float cusp 6 |})
      house_cusps.

(** [houses[i]] for [i >= 0]; [None] is Python's [IndexError]. *)
Definition houses_get (houses : list house_cusp) (i : Z) : option house_cusp :=
  nth_error houses (Z.to_nat i).

(** The Placidus search loop over the remaining indices [idxs]: [Some h]
    is the value of [house] when the loop ends (by [break] or by
    exhaustion, where it still holds the initial 1). *)
Fixpoint placidus_search
         (houses : list house_cusp) (planet_long : Q) (idxs : list Z)
  : option Z :=
  match idxs with
  | [] => Some 1%Z
  | i :: rest =>
    match houses_get houses i with
    | None => None
    | Some this =>
      match houses_get houses ((i + 1) mod 12) with
      | None => None
      | Some next =>
        let cusp_this := degree this in
        let cusp_next := degree next in
        if Qlt_bool cusp_next cusp_this then
          if Qle_bool cusp_this planet_long || Qlt_bool planet_long cusp_next
          then Some (i + 1)%Z
          else placidus_search houses planet_long rest
        else
          if Qle_bool cusp_this planet_long && Qlt_bool planet_long cusp_next
          then Some (i + 1)%Z
          else placidus_search houses planet_long rest
      end
    end
  end.

(** The house computed for one planet. *)
Definition planet_house
           (houses : list house_cusp) (house_system : string) (p : planet)
  : option Z :=
  let planet_long := fullDegree p in
  if String.eqb house_system "whole_sign" then
    let planet_sign := int_of_float (planet_long / 30) in
    match houses_get houses 0 with
    | None => None
    | Some h0 =>
      let first_house_sign := int_of_float (degree h0 / 30) in
      Some (((planet_sign - first_house_sign) mod 12) + 1)%Z
    end
  else placidus_search houses planet_long (range 0 12).

(** The loop over [planets]; the dictionaries are updated in place and
    the same list is returned.  [None] is an [IndexError] escaping. *)
Fixpoint assign_planets_to_houses
         (planets : list planet) (houses : list house_cusp)
         (house_system : string) : option (list planet) :=
  match planets with
  | [] => Some []
  | p :: rest =>
    match planet_house houses house_system p with
    | None => None
    | Some h =>
      match assign_planets_to_houses rest houses house_system with
      | None => None
      | Some rest' => Some (set_house p h :: rest')
      end
    end
  end.

End Houses.

(* ================================================================= *)
(** ** The part of Python's [datetime] module used by the route *)

Module PyDatetime.

Local Open Scope Z_scope.

Definition is_leap (y : Z) : bool :=
  ((y mod 4 =? 0) && negb (y mod 100 =? 0)) || (y mod 400 =? 0).

Definition days_in_month (y m : Z) : Z :=
  if m =? 2 then (if is_leap y then 29 else 28)
  else if (m =? 4) || (m =? 6) || (m =? 9) || (m =? 11) then 30
  else 31.

(** [datetime(y, m, d, h, mi, s)]; [None] is the [ValueError] raised for
    a field out of range. *)
Definition datetime_new (y m d h mi s : Z) : option datetime :=
  if (1 <=? y) && (y <=? 9999) && (1 <=? m) && (m <=? 12)
     && (1 <=? d) && (d <=? days_in_month y m)
     && (0 <=? h) && (h <=? 23) && (0 <=? mi) && (mi <=? 59)
     && (0 <=? s) && (s <=? 59)
  then Some (mk_datetime y m d h mi s 0)
  else None.

(** Days from 1970-01-01 to the proleptic Gregorian date [y-m-d]. *)
Definition days_from_civil (y m d : Z) : Z :=
  let y' := if m <=? 2 then y - 1 else y in
  let era := y' / 400 in
  let yoe := y' - era * 400 in
  let mp := (m + 9) mod 12 in
  let doy := (153 * mp + 2) / 5 + d - 1 in
  let doe := yoe * 365 + yoe / 4 - yoe / 100 + doy in
  era * 146097 + doe - 719468.

(** The inverse: the date [(y, m, d)] of a day number. *)
Definition civil_from_days (z : Z) : Z * Z * Z :=
  let z' := z + 719468 in
  let era := z' / 146097 in
  let doe := z' - era * 146097 in
  let yoe := (doe - doe / 1460 + doe / 36524 - doe / 146096) / 365 in
  let doy := doe - (365 * yoe + yoe / 4 - yoe / 100) in
  let mp := (5 * doy + 2) / 153 in
  let d := doy - (153 * mp + 2) / 5 + 1 in
  let m := if mp <? 10 then mp + 3 else mp - 9 in
  let y := yoe + era * 400 in
  (if m <=? 2 then y + 1 else y, m, d).

Definition us_per_day : Z := 86400 * 1000000.

(** Microseconds from 1970-01-01T00:00:00 to [dt]. *)
Definition to_microseconds (dt : datetime) : Z :=
  (days_from_civil (year dt) (month dt) (day dt) * 86400
   + hour dt * 3600 + minute dt * 60 + second dt) * 1000000
  + microsecond dt.

Definition of_microseconds (us : Z) : datetime :=
  let days := us / us_per_day in
  let rest := us mod us_per_day in
  let '(y, m, d) := civil_from_days days in
  let secs := rest / 1000000 in
  mk_datetime y m d (secs / 3600) ((secs / 60) mod 60) (secs mod 60)
              (rest mod 1000000).

(** [timedelta(hours=h)] in microseconds: a timedelta has microsecond
    resolution, rounding to nearest with ties to even. *)
Definition timedelta_hours (h : Q) : Z :=
  round_half_even (h * 3600 * 1000000)%Q.

(** [dt - delta].  The [OverflowError] for a result outside the years
    1..9999 cannot arise from a validated request and is not modelled. *)
Definition datetime_sub (dt : datetime) (delta_us : Z) : datetime :=
  of_microseconds (to_microseconds dt - delta_us).

End PyDatetime.

(* ================================================================= *)
(** ** internal/routes.py *)

Module Routes.

Import Planetary Houses PyDatetime.

Record AstrologyRequest := {
  year : Z;
  month : Z;
  date : Z;
  hours : Z;
  minutes : Z;
  seconds : Z;
  latitude : Q;
  longitude : Q;
  timezone : Q;
  observation_point : string;
  ayanamsha : string
}.

Definition in_range_Z (lo hi v : Z) : bool := ((lo <=? v) && (v <=? hi))%Z.
Definition in_range_Q (lo hi v : Q) : bool := Qle_bool lo v && Qle_bool v hi.

(** The [Field] constraints of [AstrologyRequest]; the web framework
    answers a request that violates one before the handler runs. *)
Definition validate (r : AstrologyRequest) : bool :=
  in_range_Z 1800 2200 (year r)
  && in_range_Z 1 12 (month r)
  && in_range_Z 1 31 (date r)
  && in_range_Z 0 23 (hours r)
  && in_range_Z 0 59 (minutes r)
  && in_range_Z 0 59 (seconds r)
  && in_range_Q (-90) 90 (latitude r)
  && in_range_Q (-180) 180 (longitude r)
  && in_range_Q (-12) 14 (timezone r)
  && existsb (String.eqb (observation_point r))
             ["topocentric"; "geocentric"]%string
  && existsb (String.eqb (ayanamsha r))
             ["lahiri"; "raman"; "krishnamurti"; "thirukanitham"]%string.

Record BirthChartResponse := {
  input : AstrologyRequest;
  ascendant : Q;
  planets : list planet;
  houses : list house_cusp
}.

(** The answer of [POST /planets].  The handler itself is
    [Service.get_birth_chart]. *)
Inductive http_result :=
| Http200 (response : BirthChartResponse)
| Http422                                  (* request validation failed *)
| Http500.                                 (* an exception in the handler *)


End Routes.

(* ================================================================= *)
(** ** internal/planetary.py: the lazily loaded ephemeris *)

Module Loader.

(** An exception, as far as the handler of [_ensure_ephemeris] tells
    exceptions apart. *)
Inductive raised := ImportError | OtherError.

(** The outcome of a call that may raise. *)
Inductive result (A : Type) :=
| Ok (value : A)
| Raise (e : raised).

Arguments Ok {A} value.
Arguments Raise {A} e.

Section WithSkyfield.

Variables Eph Ts Body : Type.

(** The part of [skyfield.api] that the loader calls. *)
Record skyfield_api := {
  import_load : result unit;               (* from skyfield.api import load *)
  load : string -> result Eph;             (* load(filename) *)
  load_timescale : result Ts;              (* load.timescale() *)
  getitem : Eph -> string -> result Body   (* eph[key] *)
}.

(** The four module globals; [None] is Python's [None]. *)
Record globals := {
  _eph : option Eph;
  _ts : option Ts;
  _earth : option Body;
  _planets_map : option (list (string * Body))
}.

(** The state of a fresh process. *)
Definition unloaded : globals :=
  {| _eph := None; _ts := None; _earth := None; _planets_map := None |}.

(** The names of the dictionary display and the keys looked up for
    them, in source order. *)
Definition planet_keys : list (string * string) :=
  [ ("Sun", "sun"); ("Moon", "moon"); ("Mars", "mars");
    ("Mercury", "mercury"); ("Jupiter", "jupiter barycenter");
    ("Venus", "venus"); ("Saturn", "saturn barycenter") ]%string.

(** Evaluation of the dictionary display: the values are looked up in
    order and the first lookup that raises ends the evaluation. *)
Fixpoint build_planets_map (api : skyfield_api) (eph : Eph)
         (keys : list (string * string)) : result (list (string * Body)) :=
  match keys with
  | [] => Ok []
  | (planet_name, key) :: rest =>
    match getitem api eph key with
    | Raise e => Raise e
    | Ok b =>
      match build_planets_map api eph rest with
      | Raise e => Raise e
      | Ok entries => Ok ((planet_name, b) :: entries)
      end
    end
  end.

(** [_ensure_ephemeris()]: the outcome and the globals afterwards.  Each
    global is assigned as soon as its statement has run.  The handler
    replaces an [ImportError] by another [ImportError]; any other
    exception propagates unchanged. *)
Definition _ensure_ephemeris (api : skyfield_api) (g : globals)
  : result unit * globals :=
  match _eph g with
  | Some _ => (Ok tt, g)
  | None =>
    match import_load api with
    | Raise e => (Raise e, g)
    | Ok _ =>
      match load api "de421.bsp" with
      | Raise e => (Raise e, g)
      | Ok eph =>
        let g1 := {| _eph := Some eph; _ts := _ts g; _earth := _earth g;
                     _planets_map := _planets_map g |} in
        match load_timescale api with
        | Raise e => (Raise e, g1)
        | Ok ts =>
          let g2 := {| _eph := Some eph; _ts := Some ts; _earth := _earth g;
                       _planets_map := _planets_map g |} in
          match getitem api eph "earth" with
          | Raise e => (Raise e, g2)
          | Ok earth =>
            let g3 := {| _eph := Some eph; _ts := Some ts; _earth := Some earth;
                         _planets_map := _planets_map g |} in
            match build_planets_map api eph planet_keys with
            | Raise e => (Raise e, g3)
            | Ok entries =>
              (Ok tt,
               {| _eph := Some eph; _ts := Some ts; _earth := Some earth;
                  _planets_map := Some entries |})
            end
          end
        end
      end
    end
  end.

End WithSkyfield.

Arguments import_load {Eph Ts Body} _.
Arguments load {Eph Ts Body} _ _.
Arguments load_timescale {Eph Ts Body} _.
Arguments getitem {Eph Ts Body} _ _ _.
Arguments _eph {Eph Ts Body} _.
Arguments _ts {Eph Ts Body} _.
Arguments _earth {Eph Ts Body} _.
Arguments _planets_map {Eph Ts Body} _.
Arguments unloaded {Eph Ts Body}.
Arguments build_planets_map {Eph Ts Body} _ _ _.
Arguments _ensure_ephemeris {Eph Ts Body} _ _.

End Loader.

(* ================================================================= *)
(** ** internal/planetary.py and internal/routes.py with their failures

    [calculate_planet_speed], [calculate_planet_positions] and the route
    once more, as computations over the module globals: each begins with
    [_ensure_ephemeris()], uses the globals that it sets, and any library
    call may raise.  The arithmetic is that of module [Planetary]. *)

Module Service.

Import Signs Nakshatras Planetary Houses PyDatetime Routes Loader.

Section WithLibraries.

Variables Eph Ts Body : Type.

(** What the loaded Skyfield objects compute.  [sky_from_datetime ts dt]
    is the TT Julian date [ts.from_datetime(dt).tt], and
    [sky_ecliptic_lon earth o b t] is
    [o.at(t).observe(b).apparent().ecliptic_latlon()[1].degrees] for the
    observer [o] built on [earth], with [t] given by its TT Julian date;
    [Raise] is an exception of the library, such as the one for an instant
    that the ephemeris file does not cover. *)
Record skyfield_objects := {
  sky_from_datetime : Ts -> datetime -> Q;
  sky_ecliptic_lon : Body -> observer -> Body -> Q -> result Q
}.

Variable math : math_module.
Variable api : skyfield_api Eph Ts Body.
Variable sky : skyfield_objects.

(** A computation that reads and writes the module globals of
    planetary.py and may raise. *)
Definition M (A : Type) : Type :=
  globals Eph Ts Body -> result A * globals Eph Ts Body.

Definition ret {A : Type} (a : A) : M A := fun g => (Ok a, g).

Definition bind {A B : Type} (m : M A) (f : A -> M B) : M B :=
  fun g =>
    match m g with
    | (Ok a, g') => f a g'
    | (Raise e, g') => (Raise e, g')
    end.

Local Notation "x <- m ;; f" := (bind m (fun x => f))
  (at level 61, m at next level, right associativity).

(** A library call, which leaves the globals alone. *)
Definition lift {A : Type} (r : result A) : M A := fun g => (r, g).

(** The use of a global as an object: a global that is still [None]
    raises ([TypeError] or [AttributeError]). *)
Definition global {A : Type} (read : globals Eph Ts Body -> option A) : M A :=
  fun g =>
    match read g with
    | Some a => (Ok a, g)
    | None => (Raise OtherError, g)
    end.

(** A step of this repository that may raise ([ValueError],
    [IndexError]). *)
Definition or_raise {A : Type} (o : option A) : M A :=
  lift (match o with Some a => Ok a | None => Raise OtherError end).

(** A [for] loop that appends one result per element. *)
Fixpoint for_each {A B : Type} (l : list A) (body : A -> M B) : M (list B) :=
  match l with
  | [] => ret []
  | a :: rest =>
    b <- body a ;;
    bs <- for_each rest body ;;
    ret (b :: bs)
  end.

(** [calculate_planet_speed(planet_body, time_obj, ts, interval_days)];
    [time_tt] is [time_obj.tt], and [ts] only turns the Julian date
    [time_obj.tt - interval_days] back into a time. *)
Definition calculate_planet_speed
           (planet_body : Body) (time_tt : Q) (interval_days : Q) : M Q :=
  _ <- _ensure_ephemeris api ;;
  earth <- global _earth ;;
  pos_now <- lift (sky_ecliptic_lon sky earth Geocenter planet_body time_tt) ;;
  let t_prev := time_tt - interval_days in
  pos_prev <- lift (sky_ecliptic_lon sky earth Geocenter planet_body t_prev) ;;
  let speed := (pos_now - pos_prev) / interval_days in
  ret (if Qlt_bool 180 speed then speed - 360
       else if Qlt_bool speed (-180) then speed + 360
       else speed).

(** The body of the loop of [calculate_planet_positions], for one entry
    of the planet map. *)
Definition planet_position
           (earth : Body) (observer : observer) (t ayanamsha_value : Q)
           (entry : string * Body) : M planet :=
  let (planet_name, planet_body) := entry in
  tropical_long <- lift (sky_ecliptic_lon sky earth observer planet_body t) ;;
  let sidereal_long := float_mod (tropical_long - ayanamsha_value) 360 in
  let sign_info := longitude_to_sign sidereal_long in
  let nakshatra_info := longitude_to_nakshatra sidereal_long in
  speed <- calculate_planet_speed planet_body t 1 ;;
  ret {| name := planet_name;
         fullDegree := round_float sidereal_long 6;
         normDegree := round_float (norm_degree sign_info) 6;
         speed := round_float speed 6;
         isRetro := Qlt_bool speed 0;
         sign := sign_name sign_info;
         signLord := sign_lord sign_info;
         nakshatra := nakshatra_name nakshatra_info;
         nakshatraLord := nakshatra_lord nakshatra_info;
         house := 0 |}.

Definition calculate_planet_positions
           (dt : datetime) (latitude longitude : Q) (ayanamsha : string)
  : M (list planet) :=
  _ <- _ensure_ephemeris api ;;
  earth <- global _earth ;;
  let observer := Topos latitude longitude in
  ts <- global _ts ;;
  let t := sky_from_datetime sky ts dt in
  let ayanamsha_value :=
    if String.eqb (lower ayanamsha) "lahiri"
    then calculate_lahiri_ayanamsha t
    else calculate_lahiri_ayanamsha t in
  planets_map <- global Loader._planets_map ;;
  for_each planets_map (planet_position earth observer t ayanamsha_value).

(** The body of the [try] block of [get_birth_chart]. *)
Definition birth_chart_body (request : AstrologyRequest) : M BirthChartResponse :=
  local_dt <- or_raise (datetime_new (year request) (month request) (date request)
                                     (hours request) (minutes request)
                                     (seconds request)) ;;
  let utc_dt := datetime_sub local_dt (timedelta_hours (timezone request)) in
  let jd := datetime_to_julian_date utc_dt in
  let ayanamsha_value := calculate_lahiri_ayanamsha jd in
  planets <- calculate_planet_positions utc_dt (latitude request)
                                        (longitude request) (ayanamsha request) ;;
  let ascendant :=
    calculate_ascendant math utc_dt (latitude request)
                        (longitude request) ayanamsha_value in
  let houses := calculate_houses_whole_sign ascendant in
  planets <- or_raise (assign_planets_to_houses planets houses "whole_sign") ;;
  let moon := find (fun p => String.eqb (name p) "Moon") planets in
  match moon with
  | Some moon =>
    let (rahu, ketu) := calculate_rahu_ketu moon in
    let rahu_ketu_list := [rahu; ketu] in
    rahu_ketu_list <- or_raise (assign_planets_to_houses rahu_ketu_list houses
                                                         "whole_sign") ;;
    ret {| input := request; ascendant := ascendant;
           planets := planets ++ rahu_ketu_list; houses := houses |}
  | None =>
    ret {| input := request; ascendant := ascendant;
           planets := planets; houses := houses |}
  end.

(** [get_birth_chart]: any exception of the body becomes status 500. *)
Definition get_birth_chart (request : AstrologyRequest)
  : globals Eph Ts Body -> http_result * globals Eph Ts Body :=
  fun g =>
    match birth_chart_body request g with
    | (Ok response, g') => (Http200 response, g')
    | (Raise _, g') => (Http500, g')
    end.

(** [POST /planets]: validation by the framework, then the handler. *)
Definition post_planets (request : AstrologyRequest)
  : globals Eph Ts Body -> http_result * globals Eph Ts Body :=
  fun g => if validate request then get_birth_chart request g else (Http422, g).

End WithLibraries.

Arguments ret {Eph Ts Body A} a _.
Arguments bind {Eph Ts Body A B} m f _.
Arguments lift {Eph Ts Body A} r _.
Arguments global {Eph Ts Body A} read _.
Arguments or_raise {Eph Ts Body A} o _.
Arguments for_each {Eph Ts Body A B} l body _.
Arguments sky_from_datetime {Ts Body} _ _ _.
Arguments sky_ecliptic_lon {Ts Body} _ _ _ _ _.
Arguments calculate_planet_speed {Eph Ts Body} api sky _ _ _ _.
Arguments planet_position {Eph Ts Body} api sky _ _ _ _ _ _.
Arguments calculate_planet_positions {Eph Ts Body} api sky _ _ _ _ _.
Arguments birth_chart_body {Eph Ts Body} math api sky request _.
Arguments get_birth_chart {Eph Ts Body} math api sky request _.
Arguments post_planets {Eph Ts Body} math api sky request _.

End Service.

(* ================================================================= *)
(** ** Quantities used to state the properties *)

Module Observe.

(** The sidereal longitude of a body before it is rounded: the local
    [sidereal_long] of [calculate_planet_positions]. *)
Definition sidereal_longitude
           (eph : ephemeris) (dt : datetime) (latitude longitude : Q) (b : body)
  : Q :=
  let t := from_datetime eph dt in
  float_mod (ecliptic_lon eph (Topos latitude longitude) b t
             - Planetary.calculate_lahiri_ayanamsha t) 360.

(** The ['degree'] of house [n] (1-based) in a list of house
    dictionaries. *)
Definition cusp_at (houses : list house_cusp) (n : Z) : Q :=
  match nth_error houses (Z.to_nat (n - 1)) with
  | Some h => degree h
  | None => 0
  end.

(** The test of the Placidus loop body on one pair of cusps: the
    interval from [cusp_this] up to [cusp_next], passing through 0 when
    [cusp_next] is the smaller of the two. *)
Definition in_cusp_interval (cusp_this cusp_next planet_long : Q) : Prop :=
  (cusp_next < cusp_this /\ (cusp_this <= planet_long \/ planet_long < cusp_next))
  \/ (cusp_this <= cusp_next /\ cusp_this <= planet_long < cusp_next).

(** The longitude [planet_long] passes the test of house [n] (1-based):
    its cusp against the cusp of the following house, house 1 following
    house 12. *)
Definition in_house (houses : list house_cusp) (n : Z) (planet_long : Q) : Prop :=
  in_cusp_interval (cusp_at houses n) (cusp_at houses (n mod 12 + 1)) planet_long.

(** The first day of the month that follows month [m] of year [y]. *)
Definition next_month_start (y m : Z) : datetime :=
  if (m =? 12)%Z then mk_datetime (y + 1) 1 1 0 0 0 0
  else mk_datetime y (m + 1) 1 0 0 0 0.

(** The last day of month [m] of year [y] in the Gregorian calendar. *)
Definition month_end (y m : Z) : datetime :=
  mk_datetime y m (PyDatetime.days_in_month y m) 0 0 0 0.

(** The integer part of the Julian date formula, with the truncations of
    floats written as integer divisions. *)
Definition jd_days (y m d : Z) : Z :=
  let y' := if (m <=? 2)%Z then (y - 1)%Z else y in
  let m' := if (m <=? 2)%Z then (m + 12)%Z else m in
  (1461 * (y' + 4716) / 4 + 306001 * (m' + 1) / 10000 + d
   + (2 - y' / 100 + y' / 100 / 4))%Z.

(** The three formulas of the lookups as the specification words them,
    in exact arithmetic. *)
Definition spec_sign_index (L : Q) : Z := (Qfloor (L / 30) mod 12)%Z.
Definition spec_nakshatra_index (L : Q) : Z := (Qfloor (L / (360 / 27)) mod 27)%Z.
Definition spec_pada (L : Q) : Z :=
  (Qfloor (float_mod L (360 / 27) / (360 / 108)) + 1)%Z.

(** The pada that the binary64 lookup returns at the integer longitude
    [L]. *)
Definition pada_at (L : Z) : option Z :=
  option_map Binary64.pada (Binary64.longitude_to_nakshatra (Binary64.float_of_int L)).

(** The binary64 lookup returns the specified pada at [L]. *)
Definition pada_agrees (L : Z) : bool :=
  match pada_at L with
  | Some p => (p =? spec_pada (inject_Z L))%Z
  | None => false
  end.

(** The binary64 lookups return the specified sign and nakshatra indices
    at [L]. *)
Definition names_agree (L : Z) : bool :=
  match Binary64.longitude_to_sign (Binary64.float_of_int L),
        Binary64.longitude_to_nakshatra (Binary64.float_of_int L) with
  | Some s, Some n =>
    (Binary64.sign_num s =? spec_sign_index (inject_Z L))%Z
    && (Binary64.nakshatra_num n =? spec_nakshatra_index (inject_Z L))%Z
  | _, _ => false
  end.

Import Loader Routes PyDatetime.

(** The request with another latitude. *)
Definition with_latitude (request : AstrologyRequest) (lat : Q) : AstrologyRequest :=
  {| year := year request; month := month request; date := date request;
     hours := hours request; minutes := minutes request;
     seconds := seconds request; latitude := lat;
     longitude := longitude request; timezone := timezone request;
     observation_point := observation_point request;
     ayanamsha := ayanamsha request |}.

(** The instant of the request in UTC, when its calendar date exists. *)
Definition utc_of_request (request : AstrologyRequest) : option datetime :=
  match datetime_new (year request) (month request) (date request)
                     (hours request) (minutes request) (seconds request) with
  | Some local_dt =>
    Some (datetime_sub local_dt (timedelta_hours (timezone request)))
  | None => None
  end.

Definition seven_names : list string :=
  ["Sun"; "Moon"; "Mars"; "Mercury"; "Jupiter"; "Venus"; "Saturn"]%string.

Section WithSkyfield.

Variables Eph Ts Body : Type.
Variable api : skyfield_api Eph Ts Body.
Variable sky : Service.skyfield_objects Ts Body.

(** The four globals are set and the planet map holds the seven names. *)
Definition well_loaded (g : globals Eph Ts Body) : Prop :=
  exists eph ts earth entries,
    g = {| _eph := Some eph; _ts := Some ts; _earth := Some earth;
           _planets_map := Some entries |}
    /\ map fst entries = seven_names.

(** The three positions that the engine reads for one body. *)
Definition body_available
           (earth : Body) (latitude longitude : Q) (t : Q) (b : Body) : Prop :=
  (exists x, Service.sky_ecliptic_lon sky earth (Topos latitude longitude) b t = Ok x)
  /\ (exists x, Service.sky_ecliptic_lon sky earth Geocenter b t = Ok x)
  /\ (exists x, Service.sky_ecliptic_lon sky earth Geocenter b (t - 1) = Ok x).

(** The ephemeris can serve a chart for the instant [dt] and the place:
    loading returns, it leaves the three handles set, and the library
    returns the positions of every body of the planet map at the instant
    and one day before. *)
Definition provider_ready
           (g : globals Eph Ts Body) (dt : datetime) (latitude longitude : Q) : Prop :=
  exists g1 earth ts planets_map,
    _ensure_ephemeris api g = (Ok tt, g1)
    /\ _earth g1 = Some earth
    /\ _ts g1 = Some ts
    /\ _planets_map g1 = Some planets_map
    /\ Forall (fun entry : string * Body =>
                 body_available earth latitude longitude
                                (Service.sky_from_datetime sky ts dt) (snd entry))
              planets_map.

End WithSkyfield.

Arguments well_loaded {Eph Ts Body} g.
Arguments body_available {Ts Body} sky earth latitude longitude t b.
Arguments provider_ready {Eph Ts Body} api sky g dt latitude longitude.

End Observe.

(* ================================================================= *)
(** ** Concrete libraries for evaluating the model

    The theorems below hold for every [math_module] and every
    [ephemeris].  To run the model on concrete inputs, this module supplies
    one instance of each: rational approximations of the trigonometric
    functions and a mean-motion ephemeris. *)

Module Samples.

Definition pi_q : Q := 355 / 113.

(** Bhaskara's rational approximation of the sine on [0, pi]. *)
Definition sin_half_turn (x : Q) : Q :=
  16 * x * (pi_q - x) / (5 * pi_q * pi_q - 4 * x * (pi_q - x)).

Definition sin_q (x : Q) : Q :=
  let r := float_mod x (2 * pi_q) in
  if Qle_bool r pi_q then sin_half_turn r else - sin_half_turn (r - pi_q).

Definition cos_q (x : Q) : Q := sin_q (x + pi_q / 2).

Definition tan_q (x : Q) : Q := sin_q x / cos_q x.

(** A rational approximation of the arctangent on [-1, 1]. *)
Definition atan_unit (z : Q) : Q := z / (1 + 0.28 * z * z).

Definition atan_q (z : Q) : Q :=
  if Qle_bool (Qabs z) 1 then atan_unit z
  else if Qle_bool 0 z then pi_q / 2 - atan_unit (1 / z)
  else - (pi_q / 2) - atan_unit (1 / z).

Definition atan2_q (y x : Q) : Q :=
  if Qlt_bool 0 x then atan_q (y / x)
  else if Qlt_bool x 0 then
    (if Qle_bool 0 y then atan_q (y / x) + pi_q else atan_q (y / x) - pi_q)
  else if Qlt_bool 0 y then pi_q / 2
  else if Qlt_bool y 0 then - (pi_q / 2)
  else 0.

(** The conversion factor of [radians] and [degrees] is a decimal
    expansion of pi, not [pi_q]: as in binary64, [radians 90] is then not
    exactly a pole of the tangent, and [tan] is finite there. *)
Definition pi_literal : Q := 3.141592653589793.

Definition math_q : math_module :=
  {| radians := fun x => x * pi_literal / 180;
     degrees := fun x => x * 180 / pi_literal;
     sin := sin_q;
     cos := cos_q;
     tan := tan_q;
     atan2 := atan2_q |}.

(** Mean longitude at J2000.0 and mean daily motion, in degrees. *)
Definition mean_elements (b : body) : Q * Q :=
  match b with
  | body_sun => (280.460, 0.9856474)
  | body_moon => (218.316, 13.1763966)
  | body_mars => (355.433, 0.5240208)
  | body_mercury => (252.251, 4.0923344)
  | body_jupiter_barycenter => (34.351, 0.0830853)
  | body_venus => (181.980, 1.6021302)
  | body_saturn_barycenter => (50.077, 0.0334442)
  end.

(** Every body moves uniformly along the ecliptic, the same for every
    observer; TT runs 64.184 seconds ahead of UTC. *)
Definition mean_motion : ephemeris :=
  {| from_datetime := fun dt =>
       Houses.datetime_to_julian_date dt + 64.184 / 86400;
     ecliptic_lon := fun _ b t =>
       let (l0, rate) := mean_elements b in
       float_mod (l0 + rate * (t - 2451545.0)) 360 |}.

(** An ephemeris in which every body stands, at every instant, at the
    tropical longitude whose sidereal counterpart is [sidereal]. *)
Definition fixed_sidereal (sidereal : Q) : ephemeris :=
  {| from_datetime := fun dt => Houses.datetime_to_julian_date dt;
     ecliptic_lon := fun _ _ t =>
       float_mod (sidereal + Planetary.calculate_lahiri_ayanamsha t) 360 |}.

(** 2000-01-01 12:00 at Delhi, UTC offset 0. *)
Definition delhi_request : Routes.AstrologyRequest :=
  {| Routes.year := 2000; Routes.month := 1; Routes.date := 1;
     Routes.hours := 12; Routes.minutes := 0; Routes.seconds := 0;
     Routes.latitude := 28.6139; Routes.longitude := 77.2090;
     Routes.timezone := 0;
     Routes.observation_point := "topocentric";
     Routes.ayanamsha := "lahiri" |}.

(** The instant of that request, already in UTC. *)
Definition noon_2000 : datetime := mk_datetime 2000 1 1 12 0 0 0.

(** The seven planet dictionaries of that chart under [mean_motion]. *)
Definition delhi_planets : list planet :=
  Planetary.calculate_planet_positions mean_motion noon_2000 28.6139 77.2090 "lahiri".

(** A Moon dictionary whose [fullDegree] is [L]. *)
Definition moon_at (L : Q) : planet :=
  {| name := "Moon";
     fullDegree := L;
     normDegree := Signs.norm_degree (Signs.longitude_to_sign L);
     speed := 13.176397;
     isRetro := false;
     sign := Signs.sign_name (Signs.longitude_to_sign L);
     signLord := Signs.sign_lord (Signs.longitude_to_sign L);
     nakshatra := Nakshatras.nakshatra_name (Nakshatras.longitude_to_nakshatra L);
     nakshatraLord := Nakshatras.nakshatra_lord (Nakshatras.longitude_to_nakshatra L);
     house := 0 |}.

(** A library in which every call succeeds; a body is its key. *)
Definition skyfield_ok : Loader.skyfield_api unit unit string :=
  {| Loader.import_load := Loader.Ok tt;
     Loader.load := fun _ => Loader.Ok tt;
     Loader.load_timescale := Loader.Ok tt;
     Loader.getitem := fun _ key => Loader.Ok key |}.

(** A library whose time scale cannot be built. *)
Definition skyfield_no_timescale : Loader.skyfield_api unit unit string :=
  {| Loader.import_load := Loader.Ok tt;
     Loader.load := fun _ => Loader.Ok tt;
     Loader.load_timescale := Loader.Raise Loader.OtherError;
     Loader.getitem := fun _ key => Loader.Ok key |}.


(** The body that a key of the sample library stands for. *)
Definition body_of_key (key : string) : body :=
  if String.eqb key "sun" then body_sun
  else if String.eqb key "moon" then body_moon
  else if String.eqb key "mars" then body_mars
  else if String.eqb key "mercury" then body_mercury
  else if String.eqb key "jupiter barycenter" then body_jupiter_barycenter
  else if String.eqb key "venus" then body_venus
  else body_saturn_barycenter.

(** The mean-motion positions behind the interface of the loaded
    objects; every call returns. *)
Definition sky_mean : Service.skyfield_objects unit string :=
  {| Service.sky_from_datetime := fun _ dt => from_datetime mean_motion dt;
     Service.sky_ecliptic_lon := fun _ o key t =>
       Loader.Ok (ecliptic_lon mean_motion o (body_of_key key) t) |}.

(** The same positions, served only for the instants that the file
    de421.bsp covers, the TT Julian dates 2414864.5 (1899-07-29) to
    2471184.5 (2053-10-09); for any other instant the library raises. *)
Definition sky_covered : Service.skyfield_objects unit string :=
  {| Service.sky_from_datetime := fun _ dt => from_datetime mean_motion dt;
     Service.sky_ecliptic_lon := fun _ o key t =>
       if Qle_bool 2414864.5 t && Qle_bool t 2471184.5
       then Loader.Ok (ecliptic_lon mean_motion o (body_of_key key) t)
       else Loader.Raise Loader.OtherError |}.

(** Noon of 1850-01-01 at Delhi: a request that satisfies every field
    constraint. *)
Definition request_1850 : Routes.AstrologyRequest :=
  {| Routes.year := 1850; Routes.month := 1; Routes.date := 1;
     Routes.hours := 12; Routes.minutes := 0; Routes.seconds := 0;
     Routes.latitude := 28.6139; Routes.longitude := 77.2090;
     Routes.timezone := 0;
     Routes.observation_point := "topocentric";
     Routes.ayanamsha := "lahiri" |}.

(** The same moment at the north pole. *)
Definition north_pole_request : Routes.AstrologyRequest :=
  {| Routes.year := 2000; Routes.month := 1; Routes.date := 1;
     Routes.hours := 12; Routes.minutes := 0; Routes.seconds := 0;
     Routes.latitude := 90; Routes.longitude := 0;
     Routes.timezone := 0;
     Routes.observation_point := "topocentric";
     Routes.ayanamsha := "lahiri" |}.

End Samples.

(* ================================================================= *)
(** * Properties *)

(** ** Facts about the numeric primitives *)

(** A closed range [lo <= q < hi] between rational literals, by
    evaluation of the two comparisons. *)
Ltac closed_range := split; [discriminate | reflexivity].

Section NumericFacts.

Lemma inject_Z_succ z : inject_Z (z + 1) == inject_Z z + 1.
Proof. rewrite inject_Z_plus. reflexivity. Qed.

Lemma Qfloor_bounds x : inject_Z (Qfloor x) <= x < inject_Z (Qfloor x) + 1.
Proof.
split; [apply Qfloor_le|]. rewrite <- inject_Z_succ. apply Qlt_floor.
Qed.

Lemma Qfloor_unique z x : inject_Z z <= x < inject_Z z + 1 -> Qfloor x = z.
Proof.
intros [Hlo Hhi]. destruct (Qfloor_bounds x) as [Flo Fhi].
assert (A : inject_Z z < inject_Z (Qfloor x + 1)) by (rewrite inject_Z_succ; lra).
assert (B : inject_Z (Qfloor x) < inject_Z (z + 1)) by (rewrite inject_Z_succ; lra).
rewrite <- Zlt_Qlt in A, B. lia.
Qed.

Lemma Qfloor_add_Z x k : Qfloor (x + inject_Z k) = (Qfloor x + k)%Z.
Proof.
apply Qfloor_unique. rewrite inject_Z_plus.
destruct (Qfloor_bounds x). lra.
Qed.

Lemma div_bounds x y z : 0 < y -> (inject_Z z <= x / y < inject_Z z + 1 <-> inject_Z z * y <= x < (inject_Z z + 1) * y).
Proof.
intros Hy. assert (E : x == (x / y) * y) by (field; lra).
set (q := x / y) in *. split; intros [A B]. 
- split; nra.
- split; nra.
Qed.

Lemma float_mod_bounds x y : 0 < y -> 0 <= float_mod x y < y.
Proof.
intros Hy. unfold float_mod.
destruct (proj1 (div_bounds x y (Qfloor (x / y)) Hy) (Qfloor_bounds _)). lra.
Qed.
Lemma float_mod_unique x y k : 0 < y -> 0 <= x - inject_Z k * y < y -> float_mod x y == x - inject_Z k * y.
Proof.
intros Hy H. unfold float_mod.
rewrite (Qfloor_unique k (x / y)); [reflexivity|].
apply div_bounds; auto. lra.
Qed.
Lemma float_mod_small x y : 0 <= x < y -> float_mod x y == x.
Proof.
intros H. pose proof (float_mod_unique x y 0) as U.
change (inject_Z 0) with 0 in U. rewrite U; lra.
Qed.
#[export] Instance float_mod_comp : Proper (Qeq ==> Qeq ==> Qeq) float_mod.
Proof.
intros x x' Hx y y' Hy. unfold float_mod.
assert (F : Qfloor (x / y) = Qfloor (x' / y'))
  by (apply Qfloor_comp; rewrite Hx, Hy; reflexivity).
rewrite F, Hx, Hy. reflexivity.
Qed.

#[export] Instance int_of_float_comp : Proper (Qeq ==> eq) int_of_float.
Proof.
intros x y E. unfold int_of_float. rewrite E.
destruct (Qle_bool 0 y); [apply Qfloor_comp | apply Qceiling_comp]; exact E.
Qed.
Lemma int_of_float_floor x : 0 <= x -> int_of_float x = Qfloor x.
Proof.
intros H. unfold int_of_float. apply Qle_bool_iff in H. rewrite H. reflexivity.
Qed.
Lemma Qlt_bool_iff x y : Qlt_bool x y = true <-> x < y.
Proof.
unfold Qlt_bool. rewrite negb_true_iff. split; intros H.
- apply Qnot_le_lt. intros C. apply Qle_bool_iff in C. congruence.
- destruct (Qle_bool y x) eqn:E; auto. apply Qle_bool_iff in E. lra.
Qed.
Lemma Qlt_bool_false_iff x y : Qlt_bool x y = false <-> y <= x.
Proof.
unfold Qlt_bool. rewrite negb_false_iff. apply Qle_bool_iff.
Qed.
Lemma Qle_bool_false_iff x y : Qle_bool x y = false <-> y < x.
Proof.
split; intros H.
- apply Qnot_le_lt. intros C. apply Qle_bool_iff in C. congruence.
- destruct (Qle_bool x y) eqn:E; auto. apply Qle_bool_iff in E. lra.
Qed.

#[export] Instance round_half_even_comp : Proper (Qeq ==> eq) round_half_even.
Proof.
intros x y E. unfold round_half_even. rewrite (Qfloor_comp _ _ E).
assert (E' : x - inject_Z (Qfloor y) == y - inject_Z (Qfloor y)) by (rewrite E; reflexivity).
rewrite E'. reflexivity.
Qed.

Lemma round_half_even_bounds x :
x - (1#2) <= inject_Z (round_half_even x) <= x + (1#2).
Proof.
unfold round_half_even. destruct (Qfloor_bounds x) as [A B].
destruct (Qcompare_spec (x - inject_Z (Qfloor x)) (1#2)) as [E|E|E].
- destruct (Z.even (Qfloor x)); rewrite ?inject_Z_succ; lra.
- lra.
- rewrite inject_Z_succ. lra.
Qed.

Lemma round_half_even_Z z : round_half_even (inject_Z z) = z.
Proof.
unfold round_half_even. rewrite Qfloor_Z.
destruct (Qcompare_spec (inject_Z z - inject_Z z) (1#2)) as [E|E|E]; try lra. reflexivity.
Qed.

Lemma round_half_even_add_even x k :
Z.even k = true -> round_half_even (x + inject_Z k) = (round_half_even x + k)%Z.
Proof.
intros Hk. unfold round_half_even. rewrite Qfloor_add_Z.
assert (E : x + inject_Z k - inject_Z (Qfloor x + k) == x - inject_Z (Qfloor x))
  by (rewrite inject_Z_plus; ring).
rewrite E. rewrite Z.even_add, Hk.
destruct (Qcompare (x - inject_Z (Qfloor x)) (1#2)); try lia.
destruct (Z.even (Qfloor x)); simpl; lia.
Qed.

Lemma Qfloor_range (a b : Z) x :
inject_Z a <= x < inject_Z b -> (a <= Qfloor x < b)%Z.
Proof.
intros [Hlo Hhi]. destruct (Qfloor_bounds x) as [Flo Fhi].
assert (A : inject_Z a < inject_Z (Qfloor x + 1)) by (rewrite inject_Z_succ; lra).
assert (B : inject_Z (Qfloor x) < inject_Z b) by lra.
rewrite <- Zlt_Qlt in A, B. lia.
Qed.

Lemma round_float_6 x :
round_float x 6 == inject_Z (round_half_even (x * 1000000)) / 1000000.
Proof. reflexivity. Qed.

(** Rounding to six decimals moves a value by at most half a unit of the
  sixth decimal. *)
Lemma round_float_6_error x :
x - (1 # 2000000) <= round_float x 6 <= x + (1 # 2000000).
Proof.
rewrite round_float_6.
pose proof (round_half_even_bounds (x * 1000000)) as [A B].
set (r := inject_Z (round_half_even (x * 1000000))) in *.
assert (E : r / 1000000 == r * (1 # 1000000)) by field.
rewrite E. lra.
Qed.

(** A value of [0, 360) rounds into the closed interval [0, 360]. *)
Lemma round_float_6_range x :
0 <= x < 360 -> 0 <= round_float x 6 <= 360.
Proof.
intros [Hlo Hhi]. rewrite round_float_6.
pose proof (round_half_even_bounds (x * 1000000)) as [A B].
assert (R : (0 <= round_half_even (x * 1000000) < 360000001)%Z).
{ assert (A' : inject_Z (-1) < inject_Z (round_half_even (x * 1000000)))
    by (change (inject_Z (-1)) with (-1); lra).
  assert (B' : inject_Z (round_half_even (x * 1000000)) < inject_Z 360000001)
    by (change (inject_Z 360000001) with 360000001; lra).
  rewrite <- Zlt_Qlt in A', B'. lia. }
destruct R as [R1 R2].
assert (R1' : inject_Z 0 <= inject_Z (round_half_even (x * 1000000)))
  by (rewrite <- Zle_Qle; lia).
assert (R2' : inject_Z (round_half_even (x * 1000000)) <= inject_Z 360000000)
  by (rewrite <- Zle_Qle; lia).
change (inject_Z 0) with 0 in R1'.
change (inject_Z 360000000) with 360000000 in R2'.
set (r := inject_Z (round_half_even (x * 1000000))) in *.
assert (E : r / 1000000 == r * (1 # 1000000)) by field.
rewrite E. lra.
Qed.

(** A value already on the six-decimal grid is left unchanged. *)
Lemma round_float_6_grid x k :
x == inject_Z k / 1000000 -> round_float x 6 == x.
Proof.
intros E. rewrite round_float_6.
assert (E' : x * 1000000 == inject_Z k) by (rewrite E; field).
rewrite E', round_half_even_Z. symmetry. exact E.
Qed.

Lemma round_float_6_idem x :
round_float (round_float x 6) 6 == round_float x 6.
Proof.
apply (round_float_6_grid _ (round_half_even (x * 1000000))).
apply round_float_6.
Qed.

(** Rounding commutes with a shift by a whole number of degrees [k]: the
  shift is an even number of units of the sixth decimal, so neither the
  fractional part nor the parity used for ties changes. *)
Lemma round_float_6_shift x (k : Z) :
round_float (x + inject_Z k) 6 == round_float x 6 + inject_Z k.
Proof.
rewrite !round_float_6.
assert (E : (x + inject_Z k) * 1000000 == x * 1000000 + inject_Z (k * 1000000))
  by (rewrite inject_Z_mult; change (inject_Z 1000000) with 1000000; ring).
rewrite E, round_half_even_add_even.
- rewrite inject_Z_plus, inject_Z_mult.
  change (inject_Z 1000000) with 1000000. field.
- rewrite Z.even_mul. apply orb_true_r.
Qed.

End NumericFacts.

(* ================================================================= *)
(** ** Sign, nakshatra and pada lookup *)

Section LookupProps.

Import Signs Nakshatras.

Lemma nakshatra_quotient L : L / nakshatra_span == L * (27 # 360).
Proof. unfold nakshatra_span. field. Qed.

Lemma pada_quotient d : d / pada_span == d * (108 # 360).
Proof. unfold pada_span, nakshatra_span. field. Qed.

Lemma degree_in_nakshatra_bounds L :
  0 <= float_mod L nakshatra_span < 40 # 3.
Proof.
  assert (E : nakshatra_span == 40 # 3) by reflexivity.
  destruct (float_mod_bounds L nakshatra_span) as [B1 B2]; [reflexivity|].
  split; [exact B1|]. apply (Qlt_le_trans _ _ _ B2). rewrite E. apply Qle_refl.
Qed.

(** The pada index is one of 1, 2, 3, 4 for every longitude. *)
Lemma pada_range L : (1 <= pada (longitude_to_nakshatra L) <= 4)%Z.
Proof.
  unfold longitude_to_nakshatra; cbn [pada].
  pose proof (degree_in_nakshatra_bounds L) as [Hlo Hhi].
  set (d := float_mod L nakshatra_span) in *.
  assert (Hq : 0 <= d / pada_span) by (rewrite pada_quotient; lra).
  rewrite (int_of_float_floor _ Hq).
  assert (R : (0 <= Qfloor (d / pada_span) < 4)%Z).
  { apply Qfloor_range. rewrite pada_quotient.
    change (inject_Z 0) with 0. change (inject_Z 4) with 4. lra. }
  lia.
Qed.

(** In exact arithmetic the lookups compute the three formulas: for
    every longitude L in [0,360) the sign index is floor(L/30) mod 12, the
    nakshatra index is floor(L/(360/27)) mod 27 and the pada is
    floor((L mod (360/27)) / (360/108)) + 1, a value in {1,2,3,4}.
    Longitude 0 is Aries, Ashwini, pada 1; 30 is Taurus and Krittika; 120
    is Leo and Magha; 270 is Capricorn and Uttara Ashadha. *)
Lemma lookup_formulas_in_exact_arithmetic :
  (forall L : Q, 0 <= L < 360 ->
     sign_num (longitude_to_sign L) = (Qfloor (L / 30) mod 12)%Z
     /\ nakshatra_num (longitude_to_nakshatra L)
        = (Qfloor (L / (360 / 27)) mod 27)%Z
     /\ pada (longitude_to_nakshatra L)
        = (Qfloor ((L - inject_Z (Qfloor (L / (360 / 27))) * (360 / 27))
                   / (360 / 108)) + 1)%Z
     /\ (1 <= pada (longitude_to_nakshatra L) <= 4)%Z)
  /\ (sign_name (longitude_to_sign 0) = "Aries"%string
      /\ nakshatra_name (longitude_to_nakshatra 0) = "Ashwini"%string
      /\ pada (longitude_to_nakshatra 0) = 1%Z)
  /\ (sign_name (longitude_to_sign 30) = "Taurus"%string
      /\ nakshatra_name (longitude_to_nakshatra 30) = "Krittika"%string)
  /\ (sign_name (longitude_to_sign 120) = "Leo"%string
      /\ nakshatra_name (longitude_to_nakshatra 120) = "Magha"%string)
  /\ (sign_name (longitude_to_sign 270) = "Capricorn"%string
      /\ nakshatra_name (longitude_to_nakshatra 270) = "Uttara Ashadha"%string).
Proof.
  split; [| repeat split; vm_compute; reflexivity].
  intros L [Hlo Hhi]. repeat split.
  - unfold longitude_to_sign; cbn [sign_num].
    rewrite int_of_float_floor; [reflexivity|].
    assert (E : L / 30 == L * (1 # 30)) by field. rewrite E. lra.
  - unfold longitude_to_nakshatra; cbn [nakshatra_num].
    rewrite int_of_float_floor; [reflexivity|].
    rewrite nakshatra_quotient. lra.
  - unfold longitude_to_nakshatra; cbn [pada].
    pose proof (degree_in_nakshatra_bounds L) as [Dlo Dhi].
    rewrite int_of_float_floor by (rewrite pada_quotient; lra).
    apply (f_equal (fun z => (z + 1)%Z)). apply Qfloor_comp. unfold float_mod.
    change nakshatra_span with (360 / 27).
    rewrite pada_quotient. field.
  - apply pada_range.
  - apply pada_range.
Qed.

End LookupProps.

Section LookupRounding.

Import Floats Observe.

(** C1, the code at the failing inputs.  In binary64 the span 360.0/27.0
    is 13.333333333333334, a little more than 40/3, and the pada comes out
    wrong at the start of a pada.  At the longitude 120, which the test
    suite of the repository passes, the lookup returns nakshatra 9, Magha,
    as specified, but 13.333333333333329 as the degree within Magha and
    pada 4 where the formula of the specification gives 0 and pada 1; at
    100 it returns pada 2 where the formula gives 3.  Among the integer
    longitudes 0..359 the pada differs from the formula at 34: every
    multiple of 10 from 20 to 350.  The sign and nakshatra indices agree
    with their formulas at all 360. *)
Theorem pada_wrong_at_pada_starts :
  (exists r,
      Binary64.longitude_to_nakshatra 120 = Some r
      /\ Binary64.nakshatra_num r = 9%Z
      /\ Binary64.nakshatra_name r = "Magha"%string
      /\ Binary64.degree_in_nakshatra r = 0x1.aaaaaaaaaaaa8p+3%float
      /\ Binary64.pada r = 4%Z)
  /\ (spec_nakshatra_index 120 = 9%Z /\ spec_pada 120 = 1%Z)
  /\ (exists r,
         Binary64.longitude_to_nakshatra 100 = Some r
         /\ Binary64.nakshatra_name r = "Pushya"%string
         /\ Binary64.pada r = 2%Z)
  /\ spec_pada 100 = 3%Z
  /\ filter (fun L => negb (pada_agrees L)) (range 0 360)
     = map (fun k => (10 * k)%Z) (range 2 36)
  /\ forallb names_agree (range 0 360) = true.
Proof.
  split; [eexists; split; [vm_compute; reflexivity | repeat split]|].
  split; [split; vm_compute; reflexivity|].
  split; [eexists; split; [vm_compute; reflexivity | repeat split]|].
  split; [vm_compute; reflexivity|].
  split; vm_compute; reflexivity.
Qed.

(** In binary64 [%] returns the divisor itself for a tiny negative
    operand: the remainder of [fmod] is negative and adding the divisor
    rounds up to it.  [-0x1p-50 % 24.0] is 24.0 and [-0x1p-60 % 360] is
    360.0, while the exact remainders are below 24 and below 360. *)
Lemma float_mod_reaches_divisor :
  Binary64.float_mod (-0x1p-50) 24 = Some 24%float
  /\ Binary64.float_mod (-0x1p-60) 360 = Some 360%float
  /\ float_mod (- (1 # 2 ^ 50)) 24 < 24
  /\ float_mod (- (1 # 2 ^ 60)) 360 < 360.
Proof. repeat split; vm_compute; reflexivity. Qed.

End LookupRounding.

(* ================================================================= *)
(** ** Lahiri ayanamsha *)

Section AyanamshaProps.

Import Planetary Houses.

(** The formula is affine in the Julian date with a positive slope. *)
Lemma lahiri_affine jd :
  calculate_lahiri_ayanamsha jd
  == 23.85 + (5026 # 131490000) * (jd - 2433282.5).
Proof. unfold calculate_lahiri_ayanamsha. field. Qed.

(** C7.  The Lahiri ayanamsha is strictly increasing in the Julian date;
    it is 23.85 degrees at JD 2433282.5, which is the Julian date of
    1950-01-01 00:00 UT, and its value for 2000-01-01 00:00 UTC lies in
    [24.0, 25.0]. *)
Theorem lahiri_monotone_and_anchored :
  (forall t1 t2 : Q,
      t1 < t2 -> calculate_lahiri_ayanamsha t1 < calculate_lahiri_ayanamsha t2)
  /\ calculate_lahiri_ayanamsha 2433282.5 == 23.85
  /\ datetime_to_julian_date (mk_datetime 1950 1 1 0 0 0 0) == 2433282.5
  /\ 24.0 <= calculate_lahiri_ayanamsha
               (datetime_to_julian_date (mk_datetime 2000 1 1 0 0 0 0))
          <= 25.0.
Proof.
  split; [| split; [| split; [| split]]].
  - intros t1 t2 H. rewrite !lahiri_affine. lra.
  - reflexivity.
  - reflexivity.
  - discriminate.
  - discriminate.
Qed.

(** The hypothesis of C7 at two consecutive days. *)
Lemma lahiri_monotone_and_anchored_witness :
  2451544.5 < 2451545.5
  /\ calculate_lahiri_ayanamsha 2451544.5 < calculate_lahiri_ayanamsha 2451545.5.
Proof.
  assert (H : 2451544.5 < 2451545.5) by reflexivity.
  split; [exact H|].
  exact (proj1 lahiri_monotone_and_anchored 2451544.5 2451545.5 H).
Defined.

End AyanamshaProps.

(* ================================================================= *)
(** ** House assignment *)

Section AssignmentProps.

Import Signs Houses.

Lemma int_of_float_inject_Z k : int_of_float (inject_Z k) = k.
Proof.
  unfold int_of_float.
  destruct (Qle_bool 0 (inject_Z k)); [apply Qfloor_Z | apply Qceiling_Z].
Qed.

(** The sign index of a longitude of [0, 360) needs no reduction mod 12. *)
Lemma sign_index_range L :
  0 <= L < 360 -> (0 <= int_of_float (L / 30) < 12)%Z.
Proof.
  intros [Hlo Hhi].
  assert (E : L / 30 == L * (1 # 30)) by field.
  rewrite int_of_float_floor by (rewrite E; lra).
  apply Qfloor_range. rewrite E.
  change (inject_Z 0) with 0. change (inject_Z 12) with 12. lra.
Qed.

Lemma sign_num_unreduced L :
  0 <= L < 360 -> sign_num (longitude_to_sign L) = int_of_float (L / 30).
Proof.
  intros H. unfold longitude_to_sign; cbn [sign_num].
  apply Z.mod_small. apply sign_index_range. exact H.
Qed.

(** The sign index read back from a cusp at the start of sign [k]. *)
Lemma sign_of_cusp_start k : int_of_float (inject_Z (k * 30) / 30) = k.
Proof.
  assert (E : inject_Z (k * 30) / 30 == inject_Z k).
  { rewrite inject_Z_mult. change (inject_Z 30) with 30. field. }
  rewrite E. apply int_of_float_inject_Z.
Qed.

Lemma houses_get_in_range (houses : list house_cusp) i :
  List.length houses = 12%nat -> (0 <= i < 12)%Z ->
  exists h, houses_get houses i = Some h.
Proof.
  intros Hlen Hi. unfold houses_get.
  destruct (nth_error houses (Z.to_nat i)) as [h|] eqn:E.
  - exists h. reflexivity.
  - apply nth_error_None in E. lia.
Qed.

(** The Placidus search always ends with a house number between 1 and 12
    when the cusp list has its 12 entries. *)
Lemma placidus_search_range houses planet_long idxs :
  List.length houses = 12%nat ->
  Forall (fun i => (0 <= i < 12)%Z) idxs ->
  exists h, placidus_search houses planet_long idxs = Some h /\ (1 <= h <= 12)%Z.
Proof.
  intros Hlen Hidx. induction Hidx as [| i rest Hi Hrest IH].
  - exists 1%Z. split; [reflexivity | lia].
  - cbn [placidus_search].
    destruct (houses_get_in_range houses i Hlen Hi) as [this ->].
    assert (Hn : (0 <= (i + 1) mod 12 < 12)%Z) by (apply Z.mod_pos_bound; lia).
    destruct (houses_get_in_range houses _ Hlen Hn) as [next ->].
    cbv zeta.
    destruct (Qlt_bool (degree next) (degree this)).
    + destruct (Qle_bool (degree this) planet_long || Qlt_bool planet_long (degree next)).
      * exists (i + 1)%Z. split; [reflexivity | lia].
      * exact IH.
    + destruct (Qle_bool (degree this) planet_long && Qlt_bool planet_long (degree next)).
      * exists (i + 1)%Z. split; [reflexivity | lia].
      * exact IH.
Qed.

Lemma range_0_12_bounds : Forall (fun i => (0 <= i < 12)%Z) (range 0 12).
Proof. repeat constructor; lia. Qed.

(** Whatever the house system, one planet gets a house number in 1..12. *)
Lemma planet_house_range houses house_system p :
  List.length houses = 12%nat ->
  exists h, planet_house houses house_system p = Some h /\ (1 <= h <= 12)%Z.
Proof.
  intros Hlen. unfold planet_house.
  destruct (String.eqb house_system "whole_sign").
  - destruct (houses_get_in_range houses 0 Hlen) as [h0 ->]; [lia|].
    eexists. split; [reflexivity|].
    pose proof (Z.mod_pos_bound
                  (int_of_float (fullDegree p / 30) - int_of_float (degree h0 / 30)) 12).
    lia.
  - apply placidus_search_range; [exact Hlen | exact range_0_12_bounds].
Qed.

(** C10.  For every list of planet records and every cusp list of 12
    entries, in either mode, house assignment returns the same planets in
    the same order; every field other than [house] is unchanged and the
    assigned [house] is an integer in 1..12. *)
Theorem assign_planets_frame :
  forall (planets : list planet) (houses : list house_cusp)
         (house_system : string),
    List.length houses = 12%nat ->
    exists planets',
      assign_planets_to_houses planets houses house_system = Some planets'
      /\ List.length planets' = List.length planets
      /\ Forall2
           (fun p p' =>
              name p' = name p
              /\ fullDegree p' = fullDegree p
              /\ normDegree p' = normDegree p
              /\ speed p' = speed p
              /\ isRetro p' = isRetro p
              /\ sign p' = sign p
              /\ signLord p' = signLord p
              /\ nakshatra p' = nakshatra p
              /\ nakshatraLord p' = nakshatraLord p
              /\ (1 <= house p' <= 12)%Z)
           planets planets'.
Proof.
  intros planets houses house_system Hlen.
  induction planets as [| p rest IH].
  - exists []. repeat split. constructor.
  - destruct IH as (rest' & Hrest & Hl & Hall).
    destruct (planet_house_range houses house_system p Hlen) as (h & Hh & Hr).
    exists (set_house p h :: rest'). cbn [assign_planets_to_houses].
    rewrite Hh, Hrest. split; [reflexivity|]. split.
    + cbn [List.length]. congruence.
    + constructor; [| exact Hall]. cbn. repeat split; lia.
Qed.

(** The hypothesis of C10 on the seven planets of a chart and the
    Placidus cusps for ascendant 10 and midheaven 280. *)
Lemma assign_planets_frame_witness :
  List.length (calculate_houses_placidus 10 280 28) = 12%nat
  /\ exists planets',
      assign_planets_to_houses Samples.delhi_planets
                               (calculate_houses_placidus 10 280 28) "placidus"
      = Some planets'
      /\ List.length planets' = List.length Samples.delhi_planets
      /\ Forall2
           (fun p p' =>
              name p' = name p
              /\ fullDegree p' = fullDegree p
              /\ normDegree p' = normDegree p
              /\ speed p' = speed p
              /\ isRetro p' = isRetro p
              /\ sign p' = sign p
              /\ signLord p' = signLord p
              /\ nakshatra p' = nakshatra p
              /\ nakshatraLord p' = nakshatraLord p
              /\ (1 <= house p' <= 12)%Z)
           Samples.delhi_planets planets'.
Proof.
  split; [reflexivity|].
  apply (assign_planets_frame Samples.delhi_planets
                              (calculate_houses_placidus 10 280 28) "placidus").
  reflexivity.
Defined.

(** The twelve whole-sign records, with the sign index of the ascendant
    left symbolic. *)
Lemma whole_sign_unfold ascendant :
  calculate_houses_whole_sign ascendant
  = map (fun house_num =>
           let sign_num := ((int_of_float (ascendant / 30) + house_num - 1) mod 12)%Z in
           {| house_no := house_num;
              cusp_sign := get_sign_name sign_num;
              degree := inject_Z (sign_num * 30) |})
        [1; 2; 3; 4; 5; 6; 7; 8; 9; 10; 11; 12]%Z.
Proof. reflexivity. Qed.

(** The twelve sign names are distinct. *)
Lemma get_sign_name_inj (j k : Z) :
  (0 <= j < 12)%Z -> (0 <= k < 12)%Z ->
  get_sign_name j = get_sign_name k -> j = k.
Proof.
  intros Hj Hk.
  assert (Cj : (j = 0 \/ j = 1 \/ j = 2 \/ j = 3 \/ j = 4 \/ j = 5 \/ j = 6
                \/ j = 7 \/ j = 8 \/ j = 9 \/ j = 10 \/ j = 11)%Z) by lia.
  assert (Ck : (k = 0 \/ k = 1 \/ k = 2 \/ k = 3 \/ k = 4 \/ k = 5 \/ k = 6
                \/ k = 7 \/ k = 8 \/ k = 9 \/ k = 10 \/ k = 11)%Z) by lia.
  repeat (destruct Cj as [-> | Cj]); [.. | subst j];
    (repeat (destruct Ck as [-> | Ck]); [.. | subst k];
     (reflexivity || (intros H; vm_compute in H; discriminate H))).
Qed.

(** The house whose number [n] lies in 1..12 carries the sign
    [(asc_sign + n - 1) mod 12]. *)
Lemma whole_sign_nth ascendant (n : Z) :
  (1 <= n <= 12)%Z ->
  nth_error (calculate_houses_whole_sign ascendant) (Z.to_nat (n - 1))
  = Some {| house_no := n;
            cusp_sign := get_sign_name ((int_of_float (ascendant / 30) + n - 1) mod 12);
            degree := inject_Z ((int_of_float (ascendant / 30) + n - 1) mod 12 * 30) |}.
Proof.
  intros Hn. rewrite whole_sign_unfold.
  assert (Cases : (n = 1 \/ n = 2 \/ n = 3 \/ n = 4 \/ n = 5 \/ n = 6 \/ n = 7
                   \/ n = 8 \/ n = 9 \/ n = 10 \/ n = 11 \/ n = 12)%Z) by lia.
  repeat (destruct Cases as [-> | Cases]); [.. | subst n]; reflexivity.
Qed.

(** C3.  For every ascendant in [0,360) the Whole Sign strategy returns
    exactly 12 records numbered 1..12 in order; the cusp of house n is the
    start, a multiple of 30 degrees, of the sign (n-1) signs after the
    ascendant's sign, so the sign on the cusp of house 1 is the sign that
    contains the ascendant; and each body whose longitude lies in [0,360)
    keeps its name, longitude and sign and gets, in its [house] field, the
    value ((bodySignIndex - firstHouseSignIndex) mod 12) + 1.  The index
    of the body is the one the code reads, that of the record's
    [fullDegree]; whenever the record's [sign] is the sign of that
    longitude, it is the index of the record's sign, and the house assigned
    is the house whose cusp carries that sign. *)
Theorem whole_sign_houses_and_assignment :
  forall ascendant : Q,
    0 <= ascendant < 360 ->
    let houses := calculate_houses_whole_sign ascendant in
    let asc_sign := sign_num (longitude_to_sign ascendant) in
    List.length houses = 12%nat
    /\ map house_no houses = [1; 2; 3; 4; 5; 6; 7; 8; 9; 10; 11; 12]%Z
    /\ (forall n : Z,
           (1 <= n <= 12)%Z ->
           exists h,
             nth_error houses (Z.to_nat (n - 1)) = Some h
             /\ house_no h = n
             /\ degree h == 30 * inject_Z ((asc_sign + (n - 1)) mod 12)
             /\ cusp_sign h = get_sign_name ((asc_sign + (n - 1)) mod 12)
             /\ sign_num (longitude_to_sign (degree h))
                = ((asc_sign + (n - 1)) mod 12)%Z)
    /\ (exists h1,
           nth_error houses 0 = Some h1
           /\ cusp_sign h1 = sign_name (longitude_to_sign ascendant)
           /\ sign_num (longitude_to_sign (degree h1)) = asc_sign)
    /\ (forall planets : list planet,
           Forall (fun p => 0 <= fullDegree p < 360) planets ->
           exists planets',
             assign_planets_to_houses planets houses "whole_sign" = Some planets'
             /\ Forall2
                  (fun p p' =>
                     name p' = name p
                     /\ fullDegree p' = fullDegree p
                     /\ sign p' = sign p
                     /\ house p'
                        = ((sign_num (longitude_to_sign (fullDegree p))
                            - asc_sign) mod 12 + 1)%Z
                     /\ (forall k : Z,
                            (0 <= k < 12)%Z ->
                            sign p = get_sign_name k ->
                            sign p = sign_name (longitude_to_sign (fullDegree p)) ->
                            house p' = ((k - asc_sign) mod 12 + 1)%Z
                            /\ exists h,
                                nth_error houses (Z.to_nat (house p' - 1)) = Some h
                                /\ house_no h = house p'
                                /\ cusp_sign h = sign p))
                  planets planets').
Proof.
  intros ascendant Hasc houses asc_sign.
  pose proof (sign_index_range ascendant Hasc) as Ha.
  assert (Esign : asc_sign = int_of_float (ascendant / 30))
    by (apply sign_num_unreduced; exact Hasc).
  assert (Hcusp : forall k : Z,
             (0 <= k < 12)%Z ->
             sign_num (longitude_to_sign (inject_Z (k * 30))) = k).
  { intros k Hk. unfold longitude_to_sign; cbn [sign_num].
    rewrite sign_of_cusp_start. apply Z.mod_small. exact Hk. }
  assert (Hnth : forall n : Z,
             (1 <= n <= 12)%Z ->
             nth_error houses (Z.to_nat (n - 1))
             = Some {| house_no := n;
                       cusp_sign := get_sign_name ((asc_sign + (n - 1)) mod 12);
                       degree := inject_Z ((asc_sign + (n - 1)) mod 12 * 30) |}).
  { intros n Hn. subst houses. rewrite (whole_sign_nth ascendant n Hn).
    rewrite Esign, <- Z.add_sub_assoc. reflexivity. }
  split; [reflexivity|]. split; [reflexivity|]. split; [| split].
  - intros n Hn.
    assert (Hm : (0 <= (asc_sign + (n - 1)) mod 12 < 12)%Z)
      by (apply Z.mod_pos_bound; lia).
    eexists. split; [apply Hnth; exact Hn|]. cbn [house_no degree cusp_sign].
    split; [reflexivity|].
    split; [rewrite inject_Z_mult; change (inject_Z 30) with 30; ring|].
    split; [reflexivity | apply Hcusp; exact Hm].
  - eexists. split; [apply (Hnth 1%Z); lia|]. cbn [cusp_sign degree].
    replace (asc_sign + (1 - 1))%Z with asc_sign by lia.
    assert (Hs : (asc_sign mod 12 = asc_sign)%Z) by (apply Z.mod_small; lia).
    rewrite Hs. split.
    + unfold longitude_to_sign; cbn [sign_name]. rewrite <- Esign.
      unfold get_sign_name. rewrite Z.mod_mod by lia. rewrite Hs. reflexivity.
    + apply Hcusp. lia.
  - intros planets Hall.
    assert (H0 : houses_get houses 0
                 = Some {| house_no := 1;
                           cusp_sign := get_sign_name (asc_sign mod 12);
                           degree := inject_Z (asc_sign mod 12 * 30) |}).
    { unfold houses_get. change (Z.to_nat 0) with (Z.to_nat (1 - 1)).
      rewrite (Hnth 1%Z) by lia.
      replace (asc_sign + (1 - 1))%Z with asc_sign by lia. reflexivity. }
    induction Hall as [| p rest Hp Hrest IH].
    + exists []. split; [reflexivity | constructor].
    + destruct IH as (rest' & Hrest' & Hall').
      set (s := sign_num (longitude_to_sign (fullDegree p))).
      assert (Hs : (0 <= s < 12)%Z)
        by (subst s; rewrite (sign_num_unreduced _ Hp);
            apply sign_index_range; exact Hp).
      assert (Hh : planet_house houses "whole_sign" p
                   = Some ((s - asc_sign) mod 12 + 1)%Z).
      { unfold planet_house. cbn [String.eqb Ascii.eqb Bool.eqb].
        rewrite H0. cbn [degree].
        rewrite sign_of_cusp_start, (Z.mod_small asc_sign 12) by lia.
        subst s. rewrite (sign_num_unreduced _ Hp). reflexivity. }
      eexists. cbn [assign_planets_to_houses]. rewrite Hh, Hrest'.
      split; [reflexivity|]. constructor; [| exact Hall'].
      cbn [set_house name fullDegree sign house].
      split; [reflexivity|]. split; [reflexivity|]. split; [reflexivity|].
      split; [reflexivity|].
      intros k Hk Hname Hcons.
      assert (Ek : k = s).
      { apply get_sign_name_inj; [exact Hk | exact Hs |].
        rewrite <- Hname, Hcons. unfold longitude_to_sign; cbn [sign_name sign_num].
        subst s. unfold longitude_to_sign; cbn [sign_num].
        unfold get_sign_name. rewrite Z.mod_mod by lia. reflexivity. }
      subst k. split; [reflexivity|].
      pose proof (Z.mod_pos_bound (s - asc_sign) 12) as Hm.
      eexists. split; [apply Hnth; lia|]. cbn [house_no cusp_sign].
      split; [reflexivity|].
      rewrite Hcons. unfold longitude_to_sign; cbn [sign_name]. fold s.
      replace ((s - asc_sign) mod 12 + 1 - 1)%Z with ((s - asc_sign) mod 12)%Z by lia.
      rewrite Z.add_mod_idemp_r by lia.
      replace (asc_sign + (s - asc_sign))%Z with s by lia.
      unfold get_sign_name. rewrite Z.mod_mod by lia.
      subst s. unfold longitude_to_sign; cbn [sign_num].
      rewrite Z.mod_mod by lia. reflexivity.
Qed.

(** The hypotheses of C3 on the seven planets of a chart, with the
    ascendant 95.5 (in Cancer): the Sun, in Sagittarius, gets house 6. *)
Lemma whole_sign_houses_and_assignment_witness :
  0 <= 95.5 < 360
  /\ Forall (fun p => 0 <= fullDegree p < 360) Samples.delhi_planets
  /\ exists planets',
      assign_planets_to_houses Samples.delhi_planets
                               (calculate_houses_whole_sign 95.5) "whole_sign"
      = Some planets'
      /\ map house planets' = [6; 4; 9; 5; 10; 3; 10]%Z
      /\ Forall2
           (fun p p' =>
              house p'
              = ((sign_num (longitude_to_sign (fullDegree p))
                  - sign_num (longitude_to_sign 95.5)) mod 12 + 1)%Z)
           Samples.delhi_planets planets'.
Proof.
  assert (H : 0 <= 95.5 < 360) by closed_range.
  assert (Hp : Forall (fun p => 0 <= fullDegree p < 360) Samples.delhi_planets)
    by (repeat constructor; vm_compute; discriminate || reflexivity).
  split; [exact H|]. split; [exact Hp|].
  destruct (proj2 (proj2 (proj2 (proj2
              (whole_sign_houses_and_assignment 95.5 H)))) Samples.delhi_planets Hp)
    as (planets' & Hassign & Hall).
  exists planets'. split; [exact Hassign|]. split.
  - assert (C : assign_planets_to_houses Samples.delhi_planets
                  (calculate_houses_whole_sign 95.5) "whole_sign"
                = Some planets') by exact Hassign.
    vm_compute in C. injection C as <-. reflexivity.
  - eapply Forall2_impl; [| exact Hall].
    intros p p' (_ & _ & _ & Hh & _). exact Hh.
Defined.

End AssignmentProps.

(* ================================================================= *)
(** ** Planetary positions, speed and retrograde flag *)

Section PlanetaryProps.

Import Signs Nakshatras Planetary.

Variable eph : ephemeris.

Lemma Forall2_map_r {A B : Type} (f : A -> B) (P : A -> B -> Prop) (l : list A) :
  (forall x, In x l -> P x (f x)) -> Forall2 P l (map f l).
Proof.
  induction l as [| a l IH]; intros H; cbn [map]; constructor.
  - apply H. left. reflexivity.
  - apply IH. intros x Hx. apply H. right. exact Hx.
Qed.


(** Each entry of [_planets_map] yields one dictionary, in order, built
    from the body's sidereal longitude and its speed. *)
Lemma planet_positions_entries dt latitude longitude ayanamsha :
  Forall2
    (fun (entry : string * body) (p : planet) =>
       let sidereal :=
         Observe.sidereal_longitude eph dt latitude longitude (snd entry) in
       let v := calculate_planet_speed eph (snd entry) (from_datetime eph dt) 1 in
       name p = fst entry
       /\ fullDegree p = round_float sidereal 6
       /\ speed p = round_float v 6
       /\ isRetro p = Qlt_bool v 0
       /\ sign p = sign_name (longitude_to_sign sidereal)
       /\ nakshatra p = nakshatra_name (longitude_to_nakshatra sidereal)
       /\ house p = 0%Z)
    _planets_map
    (calculate_planet_positions eph dt latitude longitude ayanamsha).
Proof.
  unfold calculate_planet_positions.
  apply Forall2_map_r. intros [planet_name planet_body] _.
  unfold Observe.sidereal_longitude.
  destruct (String.eqb (lower ayanamsha) "lahiri");
    cbn [name fullDegree speed isRetro sign nakshatra house fst snd];
    repeat split; reflexivity.
Qed.

(** The three cases of the wrap-around correction. *)
Lemma planet_speed_cases b t :
  let delta := ecliptic_lon eph Geocenter b t - ecliptic_lon eph Geocenter b (t - 1) in
  (180 < delta -> calculate_planet_speed eph b t 1 == delta - 360)
  /\ (delta < -180 -> calculate_planet_speed eph b t 1 == delta + 360)
  /\ (-180 <= delta <= 180 -> calculate_planet_speed eph b t 1 == delta).
Proof.
  intros delta. unfold calculate_planet_speed.
  assert (E : (ecliptic_lon eph Geocenter b t
               - ecliptic_lon eph Geocenter b (t - 1)) / 1 == delta)
    by (subst delta; field).
  set (speed0 := (_ - _) / 1) in *. clearbody speed0.
  destruct (Qlt_bool 180 speed0) eqn:Hi;
    [apply Qlt_bool_iff in Hi | apply Qlt_bool_false_iff in Hi];
    (destruct (Qlt_bool speed0 (-180)) eqn:Lo;
     [apply Qlt_bool_iff in Lo | apply Qlt_bool_false_iff in Lo]);
    repeat split; intros; rewrite <- ?E in *; lra.
Qed.

(** C4.  For every tracked body the speed is the signed difference
    between its tropical longitude at the instant and exactly one day
    earlier, divided by one day, with 360 degrees subtracted when the raw
    delta exceeds 180 and added when it is below -180; the reported
    [speed] is that value rounded to six decimals, and [isRetro] holds
    if and only if the computed speed is negative. *)
Theorem speed_and_retrograde_flag :
  forall (dt : datetime) (latitude longitude : Q) (ayanamsha : string),
    let t := from_datetime eph dt in
    Forall2
      (fun (entry : string * body) (p : planet) =>
         let b := snd entry in
         let delta :=
           (ecliptic_lon eph Geocenter b t - ecliptic_lon eph Geocenter b (t - 1))
           / 1 in
         let v := calculate_planet_speed eph b t 1 in
         name p = fst entry
         /\ (180 < delta -> v == delta - 360)
         /\ (delta < -180 -> v == delta + 360)
         /\ (-180 <= delta <= 180 -> v == delta)
         /\ speed p == round_float v 6
         /\ (isRetro p = true <-> v < 0))
      _planets_map
      (calculate_planet_positions eph dt latitude longitude ayanamsha).
Proof.
  intros dt latitude longitude ayanamsha t.
  pose proof (planet_positions_entries dt latitude longitude ayanamsha) as H.
  eapply Forall2_impl; [| exact H].
  intros [planet_name b] p (Hname & _ & Hspeed & Hretro & _).
  cbn [fst snd] in *. fold t in Hspeed, Hretro.
  destruct (planet_speed_cases b t) as (C1 & C2 & C3).
  assert (E : (ecliptic_lon eph Geocenter b t
               - ecliptic_lon eph Geocenter b (t - 1)) / 1
              == ecliptic_lon eph Geocenter b t
                 - ecliptic_lon eph Geocenter b (t - 1)) by field.
  split; [exact Hname|]. rewrite E.
  split; [exact C1|]. split; [exact C2|]. split; [exact C3|].
  split; [rewrite Hspeed; reflexivity|].
  rewrite Hretro. apply Qlt_bool_iff.
Qed.



End PlanetaryProps.

Section PlanetaryWitnesses.

Import Planetary Samples.

(** The Sun under the mean-motion ephemeris at noon of 2000-01-01: the
    raw delta lies within [-180, 180], so the speed is the delta itself. *)
Lemma speed_and_retrograde_flag_witness :
  exists p rest,
    calculate_planet_positions mean_motion noon_2000 28.6139 77.2090 "lahiri"
    = p :: rest
    /\ name p = "Sun"%string
    /\ -180 <= (ecliptic_lon mean_motion Geocenter body_sun
                             (from_datetime mean_motion noon_2000)
                - ecliptic_lon mean_motion Geocenter body_sun
                               (from_datetime mean_motion noon_2000 - 1)) / 1
       <= 180
    /\ calculate_planet_speed mean_motion body_sun
                              (from_datetime mean_motion noon_2000) 1
       == (ecliptic_lon mean_motion Geocenter body_sun
                        (from_datetime mean_motion noon_2000)
           - ecliptic_lon mean_motion Geocenter body_sun
                          (from_datetime mean_motion noon_2000 - 1)) / 1.
Proof.
  pose proof (speed_and_retrograde_flag mean_motion noon_2000
                                        28.6139 77.2090 "lahiri") as H.
  apply Forall2_cons_iff in H. destruct H as [(Hname & _ & _ & Hmid & _) _].
  cbn [fst snd] in Hname, Hmid.
  assert (Hd : -180 <= (ecliptic_lon mean_motion Geocenter body_sun
                                     (from_datetime mean_motion noon_2000)
                        - ecliptic_lon mean_motion Geocenter body_sun
                                       (from_datetime mean_motion noon_2000 - 1)) / 1
               <= 180)
    by (split; vm_compute; discriminate).
  eexists. eexists. split; [reflexivity|].
  split; [exact Hname|]. split; [exact Hd|]. exact (Hmid Hd).
Defined.



End PlanetaryWitnesses.


(* ================================================================= *)
(** ** Lunar nodes *)

Section NodeProps.

Import Planetary.

(** Adding half a turn and reducing mod 360 moves a longitude of
    [0, 360) by +180 or by -180. *)
Lemma opposite_longitude L :
  0 <= L < 360 ->
  (L < 180 /\ float_mod (L + 180) 360 == L + 180)
  \/ (180 <= L /\ float_mod (L + 180) 360 == L - 180).
Proof.
  intros [Hlo Hhi]. destruct (Qlt_le_dec L 180) as [Lt | Ge].
  - left. split; [exact Lt|]. apply float_mod_small. lra.
  - right. split; [exact Ge|].
    pose proof (float_mod_unique (L + 180) 360 1) as U.
    change (inject_Z 1) with 1 in U. rewrite U; [ring | reflexivity | lra].
Qed.

#[export] Instance round_float_comp : Proper (Qeq ==> eq ==> Qeq) round_float.
Proof.
  intros x y E n n' <-. unfold round_float.
  assert (R : round_half_even (x * inject_Z (10 ^ n))
              = round_half_even (y * inject_Z (10 ^ n)))
    by (apply round_half_even_comp; rewrite E; reflexivity).
  rewrite R. reflexivity.
Qed.

Lemma round_float_6_plus_180 x : round_float (x + 180) 6 == round_float x 6 + 180.
Proof. apply (round_float_6_shift x 180). Qed.

Lemma round_float_6_minus_180 x : round_float (x - 180) 6 == round_float x 6 - 180.
Proof.
  pose proof (round_float_6_shift x (-180)) as H.
  change (inject_Z (-180)) with (-180) in H.
  assert (E : x - 180 == x + -180) by ring. rewrite E, H. ring.
Qed.

(** Every longitude that [calculate_planet_positions] reports is a
    six-decimal value; the route passes the Moon's to
    [calculate_rahu_ketu]. *)
Lemma reported_longitudes_have_six_decimals
      (eph : ephemeris) dt latitude longitude ayanamsha :
  Forall (fun p => round_float (fullDegree p) 6 == fullDegree p)
         (calculate_planet_positions eph dt latitude longitude ayanamsha).
Proof.
  pose proof (planet_positions_entries eph dt latitude longitude ayanamsha) as H.
  induction H as [| entry p entries ps Hp _ IH]; constructor; [| exact IH].
  destruct Hp as (_ & Hfull & _). rewrite Hfull. apply round_float_6_idem.
Qed.

(** C6.  For every Moon dictionary whose [fullDegree] L lies in [0,360)
    and is a six-decimal value, as the route passes it: Ketu's longitude
    is exactly L, Rahu's is exactly (L + 180) mod 360, the two differ by
    exactly 180 degrees mod 360, and both nodes are flagged retrograde
    with the fixed speed -0.053. *)
Theorem rahu_ketu_opposition :
  forall moon_position : planet,
    0 <= fullDegree moon_position < 360 ->
    round_float (fullDegree moon_position) 6 == fullDegree moon_position ->
    let L := fullDegree moon_position in
    let rahu := fst (calculate_rahu_ketu moon_position) in
    let ketu := snd (calculate_rahu_ketu moon_position) in
    fullDegree ketu == L
    /\ fullDegree rahu == float_mod (L + 180) 360
    /\ float_mod (fullDegree rahu - fullDegree ketu) 360 == 180
    /\ isRetro rahu = true /\ isRetro ketu = true
    /\ speed rahu == -0.053 /\ speed ketu == -0.053
    /\ name rahu = "Rahu"%string /\ name ketu = "Ketu"%string.
Proof.
  intros moon_position HL Grid L rahu ketu.
  assert (Ek : fullDegree ketu == L) by exact Grid.
  assert (Er : fullDegree rahu == float_mod (L + 180) 360).
  { change (fullDegree rahu) with (round_float (float_mod (L + 180) 360) 6).
    destruct (opposite_longitude L HL) as [[_ M] | [_ M]]; rewrite M.
    - rewrite round_float_6_plus_180. fold L in Grid. rewrite Grid. reflexivity.
    - rewrite round_float_6_minus_180. fold L in Grid. rewrite Grid. reflexivity. }
  split; [exact Ek|]. split; [exact Er|].
  split; [| repeat split; reflexivity].
  rewrite Er, Ek.
  destruct (opposite_longitude L HL) as [[_ M] | [_ M]]; rewrite M.
  - assert (E : L + 180 - L == 180) by ring. rewrite E. reflexivity.
  - assert (E : L - 180 - L == -180) by ring. rewrite E. reflexivity.
Qed.

(** The hypotheses of C6 at the Moon longitude 193.777733. *)
Lemma rahu_ketu_opposition_witness :
  0 <= fullDegree (Samples.moon_at 193.777733) < 360
  /\ round_float (fullDegree (Samples.moon_at 193.777733)) 6
     == fullDegree (Samples.moon_at 193.777733)
  /\ fullDegree (snd (calculate_rahu_ketu (Samples.moon_at 193.777733)))
     == 193.777733
  /\ fullDegree (fst (calculate_rahu_ketu (Samples.moon_at 193.777733)))
     == 13.777733.
Proof.
  assert (H : 0 <= fullDegree (Samples.moon_at 193.777733) < 360)
    by closed_range.
  assert (G : round_float (fullDegree (Samples.moon_at 193.777733)) 6
              == fullDegree (Samples.moon_at 193.777733)) by reflexivity.
  split; [exact H|]. split; [exact G|].
  destruct (rahu_ketu_opposition (Samples.moon_at 193.777733) H G)
    as (Hk & Hr & _).
  split; [exact Hk|]. rewrite Hr. reflexivity.
Defined.

End NodeProps.

(* ================================================================= *)
(** ** Approximate Placidus cusps *)

Section PlacidusProps.

Import Houses Observe.

(** Between two cusps in numeric order, the first interpolated point
    stays inside [0, 360) and is not changed by the reduction mod 360. *)
Lemma first_third_in_range lo hi :
  0 <= lo -> hi < 360 -> lo <= hi ->
  float_mod (lo + (hi - lo) / 3) 360 == lo + (hi - lo) / 3.
Proof.
  intros Hlo Hhi Hord. apply float_mod_small.
  assert (E : (hi - lo) / 3 == (hi - lo) * (1 # 3)) by field.
  rewrite E. lra.
Qed.

Lemma second_third_in_range lo hi :
  0 <= lo -> hi < 360 -> lo <= hi ->
  float_mod (lo + 2 * (hi - lo) / 3) 360 == lo + 2 * (hi - lo) / 3.
Proof.
  intros Hlo Hhi Hord. apply float_mod_small.
  assert (E : 2 * (hi - lo) / 3 == (hi - lo) * (2 # 3)) by field.
  rewrite E. lra.
Qed.

(** C8, as the code has it.  For every ascendant and midheaven in
    [0,360) the reported cusps of houses 1, 4, 7, 10 are the ascendant,
    (midheaven + 180) mod 360, (ascendant + 180) mod 360 and the
    midheaven, each rounded to six decimals; and in each quadrant whose
    lower bounding cusp does not exceed its upper bounding cusp, the two
    intermediate cusps are lower + (upper - lower)/3 and
    lower + 2 (upper - lower)/3, rounded to six decimals. *)
Theorem placidus_cusps_rounded_trisection :
  forall ascendant mc latitude : Q,
    0 <= ascendant < 360 ->
    0 <= mc < 360 ->
    let houses := calculate_houses_placidus ascendant mc latitude in
    let ic := float_mod (mc + 180) 360 in
    let descendant := float_mod (ascendant + 180) 360 in
    map house_no houses = [1; 2; 3; 4; 5; 6; 7; 8; 9; 10; 11; 12]%Z
    /\ cusp_at houses 1 == round_float ascendant 6
    /\ cusp_at houses 4 == round_float ic 6
    /\ cusp_at houses 7 == round_float descendant 6
    /\ cusp_at houses 10 == round_float mc 6
    /\ (ascendant <= ic ->
        cusp_at houses 2 == round_float (ascendant + (ic - ascendant) / 3) 6
        /\ cusp_at houses 3
           == round_float (ascendant + 2 * (ic - ascendant) / 3) 6)
    /\ (ic <= descendant ->
        cusp_at houses 5 == round_float (ic + (descendant - ic) / 3) 6
        /\ cusp_at houses 6 == round_float (ic + 2 * (descendant - ic) / 3) 6)
    /\ (descendant <= mc ->
        cusp_at houses 8 == round_float (descendant + (mc - descendant) / 3) 6
        /\ cusp_at houses 9
           == round_float (descendant + 2 * (mc - descendant) / 3) 6)
    /\ (mc <= ascendant ->
        cusp_at houses 11 == round_float (mc + (ascendant - mc) / 3) 6
        /\ cusp_at houses 12 == round_float (mc + 2 * (ascendant - mc) / 3) 6).
Proof.
  intros ascendant mc latitude [Alo Ahi] [Mlo Mhi] houses ic descendant.
  destruct (float_mod_bounds (mc + 180) 360) as [Ilo Ihi]; [reflexivity|].
  destruct (float_mod_bounds (ascendant + 180) 360) as [Dlo Dhi]; [reflexivity|].
  fold ic in Ilo, Ihi. fold descendant in Dlo, Dhi.
  split; [reflexivity|].
  repeat (split; [reflexivity|]).
  assert (Quadrant : forall lo hi : Q,
             0 <= lo -> hi < 360 -> lo <= hi ->
             round_float (float_mod (lo + (hi - lo) / 3) 360) 6
             == round_float (lo + (hi - lo) / 3) 6
             /\ round_float (float_mod (lo + 2 * (hi - lo) / 3) 360) 6
                == round_float (lo + 2 * (hi - lo) / 3) 6).
  { intros lo hi H0 H360 Hord.
    rewrite first_third_in_range, second_third_in_range by assumption.
    split; reflexivity. }
  split; [| split; [| split]]; intros Hord.
  - exact (Quadrant ascendant ic Alo Ihi Hord).
  - exact (Quadrant ic descendant Ilo Dhi Hord).
  - exact (Quadrant descendant mc Dlo Mhi Hord).
  - exact (Quadrant mc ascendant Mlo Ahi Hord).
Qed.

(** The hypotheses of C8 at ascendant 10 and midheaven 280. *)
Lemma placidus_cusps_rounded_trisection_witness :
  0 <= 10 < 360
  /\ 0 <= 280 < 360
  /\ cusp_at (calculate_houses_placidus 10 280 28.6139) 4
     == round_float (float_mod (280 + 180) 360) 6.
Proof.
  assert (H1 : 0 <= 10 < 360) by closed_range.
  assert (H2 : 0 <= 280 < 360) by closed_range.
  split; [exact H1|]. split; [exact H2|].
  exact (proj1 (proj2 (proj2
           (placidus_cusps_rounded_trisection 10 280 28.6139 H1 H2)))).
Defined.

(** C8 as stated fails at an ascendant with more than six decimals: for
    ascendant 0.1234567 the cusp of house 1 is 0.123457. *)
Lemma placidus_first_cusp_is_rounded :
  0 <= 0.1234567 < 360
  /\ 0 <= 100 < 360
  /\ cusp_at (calculate_houses_placidus 0.1234567 100 28.6139) 1 == 0.123457
  /\ ~ cusp_at (calculate_houses_placidus 0.1234567 100 28.6139) 1 == 0.1234567.
Proof.
  split; [closed_range|].
  split; [closed_range|].
  split; [reflexivity | discriminate].
Qed.

(** In the quadrant whose bounding cusps straddle 0/360 the interpolation
    uses the negative numeric difference: for ascendant 10 and midheaven
    280 the cusps of houses 11 and 12 come out as 190 and 100, the cusps
    of houses 7 and 4. *)
Lemma placidus_wrapping_quadrant :
  map (cusp_at (calculate_houses_placidus 10 280 28.6139)) [10; 11; 12; 1]%Z
  = map (fun q => round_float q 6) [280; 190; 100; 10]
  /\ cusp_at (calculate_houses_placidus 10 280 28.6139) 11
     == cusp_at (calculate_houses_placidus 10 280 28.6139) 7
  /\ cusp_at (calculate_houses_placidus 10 280 28.6139) 12
     == cusp_at (calculate_houses_placidus 10 280 28.6139) 4.
Proof.
  split; [vm_compute; reflexivity|]. split; reflexivity.
Qed.

End PlacidusProps.

(* ================================================================= *)
(** ** Range of the computed longitudes *)

Section RangeProps.

Import Planetary Houses Observe.

Variable math : math_module.
Variable eph : ephemeris.

Lemma ascendant_range dt latitude longitude ayanamsha :
  0 <= calculate_ascendant math dt latitude longitude ayanamsha < 360.
Proof. unfold calculate_ascendant. apply float_mod_bounds. reflexivity. Qed.

Lemma midheaven_range dt longitude ayanamsha :
  0 <= calculate_midheaven math dt longitude ayanamsha < 360.
Proof. unfold calculate_midheaven. apply float_mod_bounds. reflexivity. Qed.

Lemma sidereal_longitude_range dt latitude longitude b :
  0 <= sidereal_longitude eph dt latitude longitude b < 360.
Proof. unfold sidereal_longitude. apply float_mod_bounds. reflexivity. Qed.

(** Every whole-sign cusp is one of 0, 30, ..., 330. *)
Lemma whole_sign_cusp_range ascendant :
  Forall (fun h => 0 <= degree h < 360
                   /\ exists k : Z, (0 <= k < 12)%Z /\ degree h = inject_Z (k * 30))
         (calculate_houses_whole_sign ascendant).
Proof.
  unfold calculate_houses_whole_sign. apply Forall_map.
  apply Forall_forall. intros house_num _. cbn [degree].
  set (k := ((int_of_float (ascendant / 30) + house_num - 1) mod 12)%Z).
  assert (Hk : (0 <= k < 12)%Z) by (apply Z.mod_pos_bound; lia).
  split; [| exists k; split; [exact Hk | reflexivity]].
  assert (L : inject_Z 0 <= inject_Z (k * 30)) by (rewrite <- Zle_Qle; lia).
  assert (U : inject_Z (k * 30) < inject_Z 360) by (rewrite <- Zlt_Qlt; lia).
  split; [exact L | exact U].
Qed.

(** The reported longitude of a planet lies in the closed interval
    [0, 360]. *)
Lemma full_degree_closed_range dt latitude longitude ayanamsha :
  Forall (fun p => 0 <= fullDegree p <= 360)
         (calculate_planet_positions eph dt latitude longitude ayanamsha).
Proof.
  pose proof (planet_positions_entries eph dt latitude longitude ayanamsha) as H.
  induction H as [| entry p entries ps Hp _ IH]; constructor; [| exact IH].
  destruct Hp as (_ & Hfull & _). rewrite Hfull.
  apply round_float_6_range. apply sidereal_longitude_range.
Qed.

(** A value in the last half unit of the sixth decimal below 360 is
    rounded to 360. *)
Lemma round_float_6_reaches_360 x :
  359.9999995 < x < 360 -> round_float x 6 == 360.
Proof.
  intros [Hlo Hhi]. rewrite round_float_6.
  assert (R : round_half_even (x * 1000000) = 360000000%Z).
  { unfold round_half_even.
    assert (F : Qfloor (x * 1000000) = 359999999%Z).
    { apply Qfloor_unique. change (inject_Z 359999999) with 359999999. lra. }
    rewrite F. change (inject_Z 359999999) with 359999999.
    destruct (Qcompare_spec (x * 1000000 - 359999999) (1 # 2)) as [E | E | E];
      [lra | lra | reflexivity]. }
  rewrite R. reflexivity.
Qed.

(** Whenever a body's sidereal longitude falls in that window, its
    reported [fullDegree] is 360. *)
Lemma full_degree_reaches_360 dt latitude longitude ayanamsha :
  Forall2
    (fun (entry : string * body) (p : planet) =>
       359.9999995 < sidereal_longitude eph dt latitude longitude (snd entry) ->
       fullDegree p == 360)
    _planets_map
    (calculate_planet_positions eph dt latitude longitude ayanamsha).
Proof.
  pose proof (planet_positions_entries eph dt latitude longitude ayanamsha) as H.
  eapply Forall2_impl; [| exact H].
  intros entry p (_ & Hfull & _) Hwin. rewrite Hfull.
  apply round_float_6_reaches_360. split; [exact Hwin|].
  apply sidereal_longitude_range.
Qed.

End RangeProps.

Section RangeFailure.

Import Planetary Houses Observe Samples.

(** C2, the code at the failing inputs.  The Placidus cusp of house 1 for
    the ascendant 359.9999997, a value of [0,360), is reported as 360; and
    when the bodies stand at the sidereal longitude 359.9999997 every
    planet is reported with [fullDegree] 360 and sign Pisces, and Whole
    Sign assignment with an Aries ascendant then puts it in house 1, the
    house of Aries. *)
Theorem rounded_longitude_reaches_360 :
  (0 <= 359.9999997 < 360
   /\ cusp_at (calculate_houses_placidus 359.9999997 100 28.6139) 1 == 360)
  /\ Forall (fun p => fullDegree p == 360 /\ sign p = "Pisces"%string)
            (calculate_planet_positions (fixed_sidereal 359.9999997)
                                        noon_2000 28.6139 77.2090 "lahiri")
  /\ Forall (fun b => sidereal_longitude (fixed_sidereal 359.9999997)
                                         noon_2000 28.6139 77.2090 b
                      == 359.9999997)
            (map snd _planets_map)
  /\ exists planets',
      assign_planets_to_houses
        (calculate_planet_positions (fixed_sidereal 359.9999997)
                                    noon_2000 28.6139 77.2090 "lahiri")
        (calculate_houses_whole_sign 10) "whole_sign"
      = Some planets'
      /\ Forall (fun p => sign p = "Pisces"%string /\ house p = 1%Z) planets'.
Proof.
  split; [split; [closed_range | reflexivity]|].
  split; [repeat constructor; vm_compute; reflexivity|].
  split; [repeat constructor; vm_compute; reflexivity|].
  eexists. split; [vm_compute; reflexivity|].
  repeat constructor.
Qed.

End RangeFailure.

(* ================================================================= *)
(** ** Steps of the route that cannot fail *)

Section RouteProps.

Import Planetary Houses Routes.

Variable math : math_module.
Variable eph : ephemeris.

Lemma whole_sign_length ascendant :
  List.length (calculate_houses_whole_sign ascendant) = 12%nat.
Proof. reflexivity. Qed.

(** With 12 cusps, assignment never raises. *)
Lemma assign_planets_total planets houses house_system :
  List.length houses = 12%nat ->
  exists planets', assign_planets_to_houses planets houses house_system = Some planets'.
Proof.
  intros Hlen. induction planets as [| p rest [rest' IH]].
  - exists []. reflexivity.
  - destruct (planet_house_range houses house_system p Hlen) as (h & Hh & _).
    exists (set_house p h :: rest'). cbn [assign_planets_to_houses].
    rewrite Hh, IH. reflexivity.
Qed.

(** The pole latitudes pass the [latitude] constraint. *)
Lemma pole_latitude_in_range lat :
  lat == 90 \/ lat == -90 -> in_range_Q (-90) 90 lat = true.
Proof.
  intros H. unfold in_range_Q. apply andb_true_iff.
  split; apply Qle_bool_iff; destruct H as [-> | ->]; discriminate.
Qed.

End RouteProps.


(* ================================================================= *)
(** * Further properties of the engine *)

(** ** Decomposition of a longitude by the lookup tables *)

Section DecompositionProps.

Import Signs Nakshatras.

(** Reduction modulo [y] absorbs whole multiples of [y]. *)
Lemma float_mod_add_multiple x y (k : Z) :
  0 < y -> float_mod (x + inject_Z k * y) y == float_mod x y.
Proof.
  intros Hy. unfold float_mod.
  assert (E : (x + inject_Z k * y) / y == x / y + inject_Z k) by (field; lra).
  rewrite (Qfloor_comp _ _ E), Qfloor_add_Z, inject_Z_plus. ring.
Qed.

(** The sign index and the degree within the sign rebuild the longitude,
    reduced to one turn. *)
Lemma sign_parts (L : Q) :
    0 <= L ->
    (0 <= sign_num (longitude_to_sign L) < 12)%Z
    /\ 0 <= norm_degree (longitude_to_sign L) < 30
    /\ float_mod L 360
       == 30 * inject_Z (sign_num (longitude_to_sign L))
          + norm_degree (longitude_to_sign L).
Proof.
  intros HL. unfold longitude_to_sign; cbn [sign_num norm_degree].
  assert (E30 : L / 30 == L * (1 # 30)) by field.
  rewrite int_of_float_floor by (rewrite E30; lra).
  set (f := Qfloor (L / 30)).
  split; [apply Z.mod_pos_bound; lia|].
  split; [apply float_mod_bounds; reflexivity|].
  destruct (Qfloor_bounds (L / 30)) as [Flo Fhi]. fold f in Flo, Fhi.
  rewrite E30 in Flo, Fhi.
  assert (T : Qfloor (L / 360) = (f / 12)%Z).
  { apply Qfloor_unique.
    assert (E360 : L / 360 == L * (1 # 360)) by field. rewrite E360.
    assert (D1 : inject_Z (12 * (f / 12)) <= inject_Z f)
      by (rewrite <- Zle_Qle; pose proof (Z.div_mod f 12);
          pose proof (Z.mod_pos_bound f 12); lia).
    assert (D2 : inject_Z f + 1 <= inject_Z (12 * (f / 12) + 12)).
    { rewrite <- inject_Z_succ. rewrite <- Zle_Qle.
      pose proof (Z.div_mod f 12). pose proof (Z.mod_pos_bound f 12). lia. }
    rewrite inject_Z_plus, inject_Z_mult in D2. rewrite inject_Z_mult in D1.
    change (inject_Z 12) with 12 in D1, D2. lra. }
  unfold float_mod. rewrite T. fold f.
  assert (M : inject_Z (f mod 12) == inject_Z f - 12 * inject_Z (f / 12)).
  { rewrite Z.mod_eq by lia. unfold Z.sub.
    rewrite inject_Z_plus, inject_Z_opp, inject_Z_mult. reflexivity. }
  rewrite M. ring.
Qed.

(** For every longitude from 0 up to 2^53, through any number of turns,
    the sign index and the degree within the sign rebuild the longitude
    reduced to one turn.  (Beyond 2^53 the quotient L/30 is no longer
    resolved by a binary64 float.) *)
Theorem sign_decomposition :
  forall L : Q,
    0 <= L < inject_Z (2 ^ 53) ->
    (0 <= sign_num (longitude_to_sign L) < 12)%Z
    /\ 0 <= norm_degree (longitude_to_sign L) < 30
    /\ float_mod L 360
       == 30 * inject_Z (sign_num (longitude_to_sign L))
          + norm_degree (longitude_to_sign L).
Proof. intros L [HL _]. exact (sign_parts L HL). Qed.

(** The hypothesis of [sign_decomposition] at two turns and 5.5 degrees. *)
Lemma sign_decomposition_witness :
  0 <= 725.5 < inject_Z (2 ^ 53)
  /\ float_mod 725.5 360
     == 30 * inject_Z (sign_num (longitude_to_sign 725.5))
        + norm_degree (longitude_to_sign 725.5).
Proof.
  assert (H : 0 <= 725.5 < inject_Z (2 ^ 53)) by closed_range.
  split; [exact H|].
  exact (proj2 (proj2 (sign_decomposition 725.5 H))).
Defined.

(** [int()] truncates toward zero while [%] floors: just below zero the
    lookup answers Aries, with the degree within the sign counted from
    the start of Pisces. *)
Theorem sign_lookup_below_zero :
  forall L : Q,
    -30 < L < 0 ->
    sign_num (longitude_to_sign L) = 0%Z
    /\ sign_name (longitude_to_sign L) = "Aries"%string
    /\ norm_degree (longitude_to_sign L) == L + 30.
Proof.
  intros L [Hlo Hhi].
  assert (E30 : L / 30 == L * (1 # 30)) by field.
  assert (T : int_of_float (L / 30) = 0%Z).
  { unfold int_of_float.
    assert (N : Qle_bool 0 (L / 30) = false)
      by (apply Qle_bool_false_iff; rewrite E30; lra).
    rewrite N. unfold Qceiling.
    assert (F : Qfloor (- (L / 30)) = 0%Z).
    { apply Qfloor_unique. change (inject_Z 0) with 0. rewrite E30. lra. }
    rewrite F. reflexivity. }
  unfold longitude_to_sign; cbn [sign_num sign_name norm_degree]. rewrite T.
  split; [reflexivity|]. split; [reflexivity|].
  pose proof (float_mod_unique L 30 (-1)) as U.
  change (inject_Z (-1)) with (-1) in U. rewrite U; [ring | reflexivity | lra].
Qed.

Lemma sign_lookup_below_zero_witness :
  -30 < -10 < 0 /\ sign_name (longitude_to_sign (-10)) = "Aries"%string.
Proof.
  assert (H : -30 < -10 < 0) by (split; reflexivity).
  split; [exact H|].
  exact (proj1 (proj2 (sign_lookup_below_zero (-10) H))).
Defined.

End DecompositionProps.

(* ================================================================= *)
(** ** Lookup tables *)

Section TableProps.

Import Signs Nakshatras.

Lemma residue_27 n :
  (n mod 27 = 0 \/ n mod 27 = 1 \/ n mod 27 = 2 \/ n mod 27 = 3
   \/ n mod 27 = 4 \/ n mod 27 = 5 \/ n mod 27 = 6 \/ n mod 27 = 7
   \/ n mod 27 = 8 \/ n mod 27 = 9 \/ n mod 27 = 10 \/ n mod 27 = 11
   \/ n mod 27 = 12 \/ n mod 27 = 13 \/ n mod 27 = 14 \/ n mod 27 = 15
   \/ n mod 27 = 16 \/ n mod 27 = 17 \/ n mod 27 = 18 \/ n mod 27 = 19
   \/ n mod 27 = 20 \/ n mod 27 = 21 \/ n mod 27 = 22 \/ n mod 27 = 23
   \/ n mod 27 = 24 \/ n mod 27 = 25 \/ n mod 27 = 26)%Z.
Proof. pose proof (Z.mod_pos_bound n 27). lia. Qed.

(** Destructs a disjunction of residues and closes each case with [tac]. *)
Ltac by_residue H tac :=
  repeat (destruct H as [H | H]; [rewrite H; tac |]); rewrite H; tac.

(** An index reduced modulo the size of the table selects an entry. *)
Lemma table_get_in (table : list string) (n : Z) :
  table <> [] ->
  In (table_get table (n mod Z.of_nat (List.length table))) table.
Proof.
  intros Hne. unfold table_get. apply nth_In.
  assert (L : (0 < Z.of_nat (List.length table))%Z)
    by (destruct table; [congruence | cbn [List.length]; lia]).
  pose proof (Z.mod_pos_bound n _ L). lia.
Qed.

(** For every integer, negative ones included, the getters return an
    entry of their table (the index never leaves the table), and they
    are periodic with the size of the table. *)
Theorem table_getters_wrap :
  forall n : Z,
    In (get_sign_name n) SIGNS
    /\ In (get_sign_lord n) SIGN_LORDS
    /\ In (get_sign_element n) SIGN_ELEMENTS
    /\ In (get_sign_quality n) SIGN_QUALITIES
    /\ In (get_nakshatra_name n) NAKSHATRAS
    /\ In (get_nakshatra_lord n) NAKSHATRA_LORDS
    /\ In (get_nakshatra_deity n) NAKSHATRA_DEITIES
    /\ get_sign_name (n + 12) = get_sign_name n
    /\ get_sign_lord (n + 12) = get_sign_lord n
    /\ get_nakshatra_name (n + 27) = get_nakshatra_name n
    /\ get_nakshatra_lord (n + 27) = get_nakshatra_lord n.
Proof.
  intros n.
  assert (P12 : ((n + 12) mod 12 = n mod 12)%Z)
    by (rewrite <- (Z_mod_plus_full n 1 12); f_equal; lia).
  assert (P27 : ((n + 27) mod 27 = n mod 27)%Z)
    by (rewrite <- (Z_mod_plus_full n 1 27); f_equal; lia).
  split; [apply (table_get_in SIGNS n); discriminate|].
  split; [apply (table_get_in SIGN_LORDS n); discriminate|].
  split; [apply (table_get_in SIGN_ELEMENTS n); discriminate|].
  split; [apply (table_get_in SIGN_QUALITIES n); discriminate|].
  split; [apply (table_get_in NAKSHATRAS n); discriminate|].
  split; [apply (table_get_in NAKSHATRA_LORDS n); discriminate|].
  split; [apply (table_get_in NAKSHATRA_DEITIES n); discriminate|].
  unfold get_sign_name, get_sign_lord, get_nakshatra_name, get_nakshatra_lord.
  rewrite P12, P27. repeat split; reflexivity.
Qed.

(** The lords of the nakshatras repeat with period nine: three runs of
    the same nine planets. *)
Theorem nakshatra_lords_cycle :
  forall n : Z, get_nakshatra_lord (n + 9) = get_nakshatra_lord n.
Proof.
  intros n. unfold get_nakshatra_lord.
  rewrite Z.add_mod by lia.
  pose proof (residue_27 n) as R.
  by_residue R ltac:(vm_compute; reflexivity).
Qed.

End TableProps.

(* ================================================================= *)
(** ** Julian date *)

Section TimeProps.

Import Houses PyDatetime Observe.

Lemma int_of_float_ratio (a b : Z) :
  (0 <= a)%Z -> (0 < b)%Z -> int_of_float (inject_Z a / inject_Z b) = (a / b)%Z.
Proof.
  intros Ha Hb.
  assert (N : 0 <= inject_Z a / inject_Z b).
  { apply Qle_shift_div_l.
    - change 0 with (inject_Z 0). rewrite <- Zlt_Qlt. exact Hb.
    - rewrite Qmult_0_l. change 0 with (inject_Z 0). rewrite <- Zle_Qle. exact Ha. }
  rewrite (int_of_float_floor _ N). symmetry. apply Zdiv_Qdiv.
Qed.

Lemma year_days_as_Z n :
  (0 <= n)%Z -> int_of_float (365.25 * inject_Z n) = (1461 * n / 4)%Z.
Proof.
  intros Hn. rewrite <- (int_of_float_ratio (1461 * n) 4) by lia.
  apply int_of_float_comp. rewrite inject_Z_mult.
  change (inject_Z 1461) with 1461. change (inject_Z 4) with 4. field.
Qed.

Lemma month_days_as_Z k :
  (0 <= k)%Z -> int_of_float (30.6001 * inject_Z k) = (306001 * k / 10000)%Z.
Proof.
  intros Hk. rewrite <- (int_of_float_ratio (306001 * k) 10000) by lia.
  apply int_of_float_comp. rewrite inject_Z_mult.
  change (inject_Z 306001) with 306001. change (inject_Z 10000) with 10000.
  field.
Qed.

(** From year 1 on, every truncation in the formula is a floor. *)
Lemma julian_date_as_Z y m d h mi s us :
  (1 <= y)%Z -> (1 <= m)%Z ->
  datetime_to_julian_date (mk_datetime y m d h mi s us)
  == inject_Z (jd_days y m d) - 1524.5
     + (inject_Z h + inject_Z mi / 60.0 + inject_Z s / 3600.0) / 24.0.
Proof.
  intros Hy Hm. unfold datetime_to_julian_date, jd_days.
  cbn [year month day hour minute second].
  destruct (m <=? 2)%Z.
  - rewrite year_days_as_Z, month_days_as_Z by lia.
    unfold int_truediv.
    rewrite (int_of_float_ratio (y - 1) 100) by lia.
    rewrite (int_of_float_ratio ((y - 1) / 100) 4)
      by (try apply Z.div_pos; lia).
    reflexivity.
  - rewrite year_days_as_Z, month_days_as_Z by lia.
    unfold int_truediv.
    rewrite (int_of_float_ratio y 100) by lia.
    rewrite (int_of_float_ratio (y / 100) 4) by (try apply Z.div_pos; lia).
    reflexivity.
Qed.

(** Evaluates the month term of [jd_days] once the month is a literal. *)
Ltac month_constants :=
  repeat match goal with
         | |- context [(306001 * ?k / 10000)%Z] =>
           let v := eval vm_compute in (306001 * k / 10000)%Z in
           change (306001 * k / 10000)%Z with v
         end.

(** The day count steps by one from the end of a month to the start of
    the next, for each of the twelve months and the leap-year rule. *)
Lemma jd_days_month_end y m :
  (1 <= y)%Z -> (1 <= m <= 12)%Z ->
  (jd_days (if m =? 12 then y + 1 else y) (if m =? 12 then 1 else m + 1) 1
   = jd_days y m (days_in_month y m) + 1)%Z.
Proof.
  intros Hy Hm.
  assert (C : (m = 1 \/ m = 2 \/ m = 3 \/ m = 4 \/ m = 5 \/ m = 6 \/ m = 7
               \/ m = 8 \/ m = 9 \/ m = 10 \/ m = 11 \/ m = 12)%Z) by lia.
  unfold jd_days, days_in_month, is_leap.
  repeat (destruct C as [-> | C]); [.. | subst m];
    cbn [Z.eqb Z.leb Z.compare Pos.compare Pos.compare_cont Pos.eqb orb andb
         negb Z.add Pos.add Pos.succ Pos.add_carry];
    month_constants;
    try (Z.div_mod_to_equations; lia).
  destruct (y mod 4 =? 0)%Z eqn:E4; destruct (y mod 100 =? 0)%Z eqn:E100;
    destruct (y mod 400 =? 0)%Z eqn:E400; cbn [orb andb negb];
    rewrite ?Z.eqb_eq, ?Z.eqb_neq in *; Z.div_mod_to_equations; lia.
Qed.

(** The Julian date is a continuous day count from year 1 on: a step of
    [k] days inside a month adds [k]; the first day of a month is one
    more than the last day of the month before, leap years and year ends
    included; the time of day adds its fraction of a day, and
    microseconds are ignored. *)
Theorem julian_date_continuity :
  (forall y m d h mi s us k,
      datetime_to_julian_date (mk_datetime y m (d + k) h mi s us)
      == datetime_to_julian_date (mk_datetime y m d h mi s us) + inject_Z k)
  /\ (forall y m : Z,
         (1 <= y)%Z -> (1 <= m <= 12)%Z ->
         datetime_to_julian_date (Observe.next_month_start y m)
         == datetime_to_julian_date (Observe.month_end y m) + 1)
  /\ (forall y m d h mi s us,
         datetime_to_julian_date (mk_datetime y m d h mi s us)
         == datetime_to_julian_date (mk_datetime y m d 0 0 0 0)
            + inject_Z (3600 * h + 60 * mi + s) / 86400).
Proof.
  split; [| split].
  - intros y m d h mi s us k. unfold datetime_to_julian_date.
    cbn [year month day hour minute second].
    destruct (m <=? 2)%Z; rewrite !inject_Z_plus; ring.
  - intros y m Hy Hm.
    pose proof (jd_days_month_end y m Hy Hm) as D.
    unfold Observe.next_month_start, Observe.month_end.
    destruct (m =? 12)%Z eqn:E12.
    + rewrite !julian_date_as_Z by lia. rewrite D, inject_Z_plus. ring.
    + rewrite !julian_date_as_Z by lia. rewrite D, inject_Z_plus. ring.
  - intros y m d h mi s us. unfold datetime_to_julian_date.
    cbn [year month day hour minute second].
    destruct (m <=? 2)%Z;
      rewrite !inject_Z_plus, !inject_Z_mult;
      change (inject_Z 3600) with 3600; change (inject_Z 60) with 60;
      change (inject_Z 0) with 0; field.
Qed.

(** The hypotheses of [julian_date_continuity] at February of a leap
    year: 2000-02-29 is followed by 2000-03-01. *)
Lemma julian_date_continuity_witness :
  (1 <= 2000)%Z /\ (1 <= 2 <= 12)%Z
  /\ datetime_to_julian_date (mk_datetime 2000 3 1 0 0 0 0)
     == datetime_to_julian_date (mk_datetime 2000 2 29 0 0 0 0) + 1.
Proof.
  assert (Hy : (1 <= 2000)%Z) by lia.
  assert (Hm : (1 <= 2 <= 12)%Z) by lia.
  split; [exact Hy|]. split; [exact Hm|].
  exact (proj1 (proj2 julian_date_continuity) 2000%Z 2%Z Hy Hm).
Defined.

(** Reducing twice modulo the same period changes nothing. *)
Lemma float_mod_idem x y : 0 < y -> float_mod (float_mod x y) y == float_mod x y.
Proof.
  intros Hy. apply float_mod_small. apply float_mod_bounds. exact Hy.
Qed.

End TimeProps.


(* ================================================================= *)
(** ** The Placidus search *)

Section PlacidusSearchProps.

Import Signs Houses Observe.

Lemma interval_test_iff cusp_this cusp_next planet_long :
  (if Qlt_bool cusp_next cusp_this
   then Qle_bool cusp_this planet_long || Qlt_bool planet_long cusp_next
   else Qle_bool cusp_this planet_long && Qlt_bool planet_long cusp_next) = true
  <-> in_cusp_interval cusp_this cusp_next planet_long.
Proof.
  unfold in_cusp_interval.
  destruct (Qlt_bool cusp_next cusp_this) eqn:W;
    [apply Qlt_bool_iff in W | apply Qlt_bool_false_iff in W].
  - rewrite orb_true_iff, Qle_bool_iff, Qlt_bool_iff.
    split; [intros H; left; split; assumption|].
    intros [[_ H] | [C _]]; [exact H | lra].
  - rewrite andb_true_iff, Qle_bool_iff, Qlt_bool_iff.
    split; [intros H; right; split; assumption|].
    intros [[C _] | [_ H]]; [lra | exact H].
Qed.

Lemma cusp_at_get houses (i : Z) h :
  (0 <= i)%Z -> houses_get houses i = Some h -> cusp_at houses (i + 1) = degree h.
Proof.
  intros Hi Hg. unfold cusp_at. replace (i + 1 - 1)%Z with i by lia.
  unfold houses_get in Hg. rewrite Hg. reflexivity.
Qed.

(** The loop from index [k] on: it stops at the first index whose test
    succeeds, and ends with house 1 when none does. *)
Lemma placidus_search_from houses planet_long (n k : nat) :
  List.length houses = 12%nat ->
  (k + n = 12)%nat ->
  exists h,
    placidus_search houses planet_long (map Z.of_nat (seq k n)) = Some h
    /\ ((exists i : nat,
           (k <= i < 12)%nat /\ h = (Z.of_nat i + 1)%Z
           /\ in_house houses (Z.of_nat i + 1) planet_long
           /\ forall j : nat,
               (k <= j < i)%nat -> ~ in_house houses (Z.of_nat j + 1) planet_long)
        \/ (h = 1%Z
            /\ forall j : nat,
                (k <= j < 12)%nat -> ~ in_house houses (Z.of_nat j + 1) planet_long)).
Proof.
  intros Hlen. revert k. induction n as [| n IH]; intros k Hk.
  - exists 1%Z. split; [reflexivity|]. right. split; [reflexivity|]. intros j Hj. lia.
  - cbn [seq map placidus_search].
    assert (Hi : (0 <= Z.of_nat k < 12)%Z) by lia.
    destruct (houses_get_in_range houses _ Hlen Hi) as [this Hthis].
    assert (Hn : (0 <= (Z.of_nat k + 1) mod 12 < 12)%Z)
      by (apply Z.mod_pos_bound; lia).
    destruct (houses_get_in_range houses _ Hlen Hn) as [next Hnext].
    rewrite Hthis, Hnext. cbv zeta.
    pose proof (interval_test_iff (degree this) (degree next) planet_long) as T.
    assert (Hit : in_house houses (Z.of_nat k + 1) planet_long
                  <-> in_cusp_interval (degree this) (degree next) planet_long).
    { unfold in_house.
      rewrite (cusp_at_get houses (Z.of_nat k) this) by (try exact Hthis; lia).
      rewrite (cusp_at_get houses ((Z.of_nat k + 1) mod 12) next)
        by (try exact Hnext; lia).
      reflexivity. }
    destruct (IH (S k) ltac:(lia)) as (h & Hsearch & Hspec).
    destruct (Qlt_bool (degree next) (degree this)).
    + destruct (Qle_bool (degree this) planet_long
                || Qlt_bool planet_long (degree next)) eqn:B.
      * exists (Z.of_nat k + 1)%Z. split; [reflexivity|]. left. exists k.
        split; [lia|]. split; [reflexivity|].
        split; [apply Hit, T; reflexivity | intros j Hj; lia].
      * exists h. split; [exact Hsearch|].
        assert (Miss : ~ in_house houses (Z.of_nat k + 1) planet_long)
          by (intros C; apply Hit, T in C; congruence).
        destruct Hspec as [(i & Hi' & Hh & Hhit & Hfirst) | (Hh & Hnone)].
        -- left. exists i. split; [lia|]. split; [exact Hh|].
           split; [exact Hhit|]. intros j Hj.
           destruct (Nat.eq_dec j k) as [-> | Hne]; [exact Miss | apply Hfirst; lia].
        -- right. split; [exact Hh|]. intros j Hj.
           destruct (Nat.eq_dec j k) as [-> | Hne]; [exact Miss | apply Hnone; lia].
    + destruct (Qle_bool (degree this) planet_long
                && Qlt_bool planet_long (degree next)) eqn:B.
      * exists (Z.of_nat k + 1)%Z. split; [reflexivity|]. left. exists k.
        split; [lia|]. split; [reflexivity|].
        split; [apply Hit, T; reflexivity | intros j Hj; lia].
      * exists h. split; [exact Hsearch|].
        assert (Miss : ~ in_house houses (Z.of_nat k + 1) planet_long)
          by (intros C; apply Hit, T in C; congruence).
        destruct Hspec as [(i & Hi' & Hh & Hhit & Hfirst) | (Hh & Hnone)].
        -- left. exists i. split; [lia|]. split; [exact Hh|].
           split; [exact Hhit|]. intros j Hj.
           destruct (Nat.eq_dec j k) as [-> | Hne]; [exact Miss | apply Hfirst; lia].
        -- right. split; [exact Hh|]. intros j Hj.
           destruct (Nat.eq_dec j k) as [-> | Hne]; [exact Miss | apply Hnone; lia].
Qed.

(** The whole loop, in house numbers. *)
Lemma placidus_search_spec houses planet_long :
  List.length houses = 12%nat ->
  exists h,
    placidus_search houses planet_long (range 0 12) = Some h
    /\ (((1 <= h <= 12)%Z
         /\ in_house houses h planet_long
         /\ forall n : Z, (1 <= n < h)%Z -> ~ in_house houses n planet_long)
        \/ (h = 1%Z
            /\ forall n : Z, (1 <= n <= 12)%Z -> ~ in_house houses n planet_long)).
Proof.
  intros Hlen.
  destruct (placidus_search_from houses planet_long 12 0 Hlen eq_refl)
    as (h & Hsearch & Hspec).
  exists h. split; [exact Hsearch|].
  destruct Hspec as [(i & Hi & Hh & Hhit & Hfirst) | (Hh & Hnone)].
  - left. subst h. split; [lia|]. split; [exact Hhit|].
    intros n Hn. replace n with (Z.of_nat (Z.to_nat (n - 1)) + 1)%Z by lia.
    apply Hfirst. lia.
  - right. split; [exact Hh|].
    intros n Hn. replace n with (Z.of_nat (Z.to_nat (n - 1)) + 1)%Z by lia.
    apply Hnone. lia.
Qed.

(** In any mode other than ['whole_sign'], with 12 cusps, a planet gets
    the first house, in the order 1..12, whose interval test it passes;
    when it passes none it gets house 1. *)
Theorem placidus_first_matching_house :
  forall (houses : list house_cusp) (house_system : string) (p : planet),
    List.length houses = 12%nat ->
    String.eqb house_system "whole_sign" = false ->
    exists h,
      planet_house houses house_system p = Some h
      /\ (((1 <= h <= 12)%Z
           /\ in_house houses h (fullDegree p)
           /\ forall n : Z,
               (1 <= n < h)%Z -> ~ in_house houses n (fullDegree p))
          \/ (h = 1%Z
              /\ forall n : Z,
                  (1 <= n <= 12)%Z -> ~ in_house houses n (fullDegree p))).
Proof.
  intros houses house_system p Hlen Hsys.
  unfold planet_house. rewrite Hsys.
  apply placidus_search_spec. exact Hlen.
Qed.

(** The hypotheses of [placidus_first_matching_house] on the Sun of a
    chart and the Placidus cusps for ascendant 10 and midheaven 280. *)
Lemma placidus_first_matching_house_witness :
  List.length (calculate_houses_placidus 10 280 28) = 12%nat
  /\ String.eqb "placidus" "whole_sign" = false
  /\ exists h,
      planet_house (calculate_houses_placidus 10 280 28) "placidus"
                   (Samples.moon_at 193.777733) = Some h.
Proof.
  assert (H1 : List.length (calculate_houses_placidus 10 280 28) = 12%nat)
    by reflexivity.
  assert (H2 : String.eqb "placidus" "whole_sign" = false) by reflexivity.
  split; [exact H1|]. split; [exact H2|].
  destruct (placidus_first_matching_house
              (calculate_houses_placidus 10 280 28) "placidus"
              (Samples.moon_at 193.777733) H1 H2) as (h & Hh & _).
  exists h. exact Hh.
Defined.

End PlacidusSearchProps.

(* ================================================================= *)
(** ** Whole-sign cusps under both assignment modes *)

Section ModeAgreementProps.

Import Signs Houses Observe.

(** The cusp of house [n] in the whole-sign list. *)
Lemma whole_sign_cusp_at ascendant n :
  (1 <= n <= 12)%Z ->
  cusp_at (calculate_houses_whole_sign ascendant) n
  = inject_Z ((int_of_float (ascendant / 30) + n - 1) mod 12 * 30).
Proof.
  intros Hn. rewrite whole_sign_unfold.
  assert (C : (n = 1 \/ n = 2 \/ n = 3 \/ n = 4 \/ n = 5 \/ n = 6 \/ n = 7
               \/ n = 8 \/ n = 9 \/ n = 10 \/ n = 11 \/ n = 12)%Z) by lia.
  repeat (destruct C as [-> | C]); [.. | subst n]; reflexivity.
Qed.

(** A longitude of [0, 360) lies in sign [k] exactly when it lies between
    the start of that sign and the start of the next. *)
Lemma sign_index_iff L k :
  0 <= L < 360 ->
  int_of_float (L / 30) = k
  <-> inject_Z (k * 30) <= L < inject_Z (k * 30) + 30.
Proof.
  intros [Hlo Hhi].
  assert (E30 : L / 30 == L * (1 # 30)) by field.
  rewrite int_of_float_floor by (rewrite E30; lra).
  rewrite inject_Z_mult. change (inject_Z 30) with 30.
  split.
  - intros <-. destruct (Qfloor_bounds (L / 30)) as [A B].
    set (f := Qfloor (L / 30)) in *. rewrite E30 in A, B. lra.
  - intros [A B]. apply Qfloor_unique. rewrite E30. lra.
Qed.

(** On whole-sign cusps the interval test of house [n] succeeds exactly
    for the longitudes of the sign on its cusp. *)
Lemma whole_sign_interval_iff ascendant L n :
  0 <= L < 360 -> (1 <= n <= 12)%Z ->
  in_house (calculate_houses_whole_sign ascendant) n L
  <-> int_of_float (L / 30) = ((int_of_float (ascendant / 30) + n - 1) mod 12)%Z.
Proof.
  intros HL Hn. unfold in_house, in_cusp_interval.
  assert (Hn' : (1 <= n mod 12 + 1 <= 12)%Z)
    by (pose proof (Z.mod_pos_bound n 12); lia).
  rewrite (whole_sign_cusp_at ascendant n Hn).
  rewrite (whole_sign_cusp_at ascendant (n mod 12 + 1) Hn').
  set (a := int_of_float (ascendant / 30)).
  set (k := ((a + n - 1) mod 12)%Z).
  assert (Hk : (0 <= k < 12)%Z) by (apply Z.mod_pos_bound; lia).
  assert (Enext : ((a + (n mod 12 + 1) - 1) mod 12 = (k + 1) mod 12)%Z).
  { transitivity ((a + n) mod 12)%Z.
    - replace (a + (n mod 12 + 1) - 1)%Z with (a + n mod 12)%Z by lia.
      apply Z.add_mod_idemp_r. lia.
    - subst k. rewrite Z.add_mod_idemp_l by lia. f_equal. lia. }
  rewrite Enext. rewrite (sign_index_iff L k HL).
  destruct HL as [Hlo Hhi].
  destruct (Z.eq_dec k 11) as [-> | Hne].
  - change ((11 + 1) mod 12 * 30)%Z with 0%Z. change (11 * 30)%Z with 330%Z.
    change (inject_Z 0) with 0. change (inject_Z 330) with 330.
    split.
    + intros [[_ [H | H]] | [C _]]; lra.
    + intros [A B]. left. split; [reflexivity | left; exact A].
  - rewrite (Z.mod_small (k + 1) 12) by lia.
    assert (Ek : inject_Z ((k + 1) * 30) == inject_Z (k * 30) + 30).
    { rewrite !inject_Z_mult, inject_Z_plus. change (inject_Z 30) with 30.
      change (inject_Z 1) with 1. ring. }
    rewrite Ek.
    assert (K0 : 0 <= inject_Z (k * 30))
      by (change 0 with (inject_Z 0); rewrite <- Zle_Qle; lia).
    split.
    + intros [[C _] | [_ H]]; [lra | exact H].
    + intros H. right. split; [lra | exact H].
Qed.

(** For one planet on whole-sign cusps, the Placidus search finds the
    house that whole-sign counting gives. *)
Lemma whole_sign_search ascendant L :
  0 <= ascendant < 360 -> 0 <= L < 360 ->
  placidus_search (calculate_houses_whole_sign ascendant) L (range 0 12)
  = Some ((int_of_float (L / 30) - int_of_float (ascendant / 30)) mod 12 + 1)%Z.
Proof.
  intros Hasc HL.
  pose proof (sign_index_range ascendant Hasc) as Ha.
  pose proof (sign_index_range L HL) as Hs.
  set (a := int_of_float (ascendant / 30)) in *.
  set (s := int_of_float (L / 30)) in *.
  set (target := ((s - a) mod 12 + 1)%Z).
  assert (Ht : (1 <= target <= 12)%Z)
    by (subst target; pose proof (Z.mod_pos_bound (s - a) 12); lia).
  assert (Hit : forall n, (1 <= n <= 12)%Z ->
                          in_house (calculate_houses_whole_sign ascendant) n L
                          <-> n = target).
  { intros n Hn. rewrite (whole_sign_interval_iff ascendant L n HL Hn).
    fold a. fold s. subst target. split.
    - intros E. rewrite E.
      rewrite Zminus_mod_idemp_l.
      replace (a + n - 1 - a)%Z with (n - 1)%Z by lia.
      rewrite Z.mod_small by lia. lia.
    - intros ->.
      replace (a + ((s - a) mod 12 + 1) - 1)%Z with (a + (s - a) mod 12)%Z by lia.
      rewrite Z.add_mod_idemp_r by lia.
      replace (a + (s - a))%Z with s by lia.
      symmetry. apply Z.mod_small. exact Hs. }
  destruct (placidus_search_spec (calculate_houses_whole_sign ascendant) L
                                 eq_refl)
    as (h & Hsearch & [(Hh & Hhit & _) | (_ & Hnone)]).
  - rewrite Hsearch. f_equal. apply (Hit h Hh). exact Hhit.
  - exfalso. apply (Hnone target Ht). apply (Hit target Ht). reflexivity.
Qed.

(** On the cusps produced by [calculate_houses_whole_sign], assignment in
    any other mode (the Placidus search) gives every planet whose
    longitude lies in [0,360) the same house as the ['whole_sign'] mode. *)
Theorem placidus_mode_agrees_on_whole_sign_cusps :
  forall (ascendant : Q) (planets : list planet) (house_system : string),
    0 <= ascendant < 360 ->
    Forall (fun p => 0 <= fullDegree p < 360) planets ->
    assign_planets_to_houses planets (calculate_houses_whole_sign ascendant)
                             house_system
    = assign_planets_to_houses planets (calculate_houses_whole_sign ascendant)
                               "whole_sign".
Proof.
  intros ascendant planets house_system Hasc Hall.
  assert (One : forall p,
             0 <= fullDegree p < 360 ->
             planet_house (calculate_houses_whole_sign ascendant) house_system p
             = planet_house (calculate_houses_whole_sign ascendant)
                            "whole_sign" p).
  { intros p Hp. unfold planet_house at 1.
    destruct (String.eqb house_system "whole_sign") eqn:E.
    - unfold planet_house. cbn [String.eqb Ascii.eqb Bool.eqb]. reflexivity.
    - rewrite (whole_sign_search ascendant (fullDegree p) Hasc Hp).
      unfold planet_house. cbn [String.eqb Ascii.eqb Bool.eqb].
      rewrite whole_sign_unfold.
      cbn [houses_get Z.to_nat nth_error map degree].
      replace (int_of_float (ascendant / 30) + 1 - 1)%Z
        with (int_of_float (ascendant / 30)) by lia.
      rewrite sign_of_cusp_start.
      rewrite (Z.mod_small (int_of_float (ascendant / 30)) 12)
        by (apply sign_index_range; exact Hasc).
      reflexivity. }
  induction Hall as [| p rest Hp Hrest IH]; [reflexivity|].
  cbn [assign_planets_to_houses]. rewrite (One p Hp), IH. reflexivity.
Qed.

(** The hypotheses of [placidus_mode_agrees_on_whole_sign_cusps] on the
    planets of a chart and the ascendant 95.5. *)
Lemma placidus_mode_agrees_on_whole_sign_cusps_witness :
  0 <= 95.5 < 360
  /\ Forall (fun p => 0 <= fullDegree p < 360) Samples.delhi_planets
  /\ assign_planets_to_houses Samples.delhi_planets
                              (calculate_houses_whole_sign 95.5) "placidus"
     = assign_planets_to_houses Samples.delhi_planets
                                (calculate_houses_whole_sign 95.5) "whole_sign".
Proof.
  assert (H1 : 0 <= 95.5 < 360) by closed_range.
  assert (H2 : Forall (fun p => 0 <= fullDegree p < 360) Samples.delhi_planets)
    by (repeat constructor; vm_compute; discriminate || reflexivity).
  split; [exact H1|]. split; [exact H2|].
  exact (placidus_mode_agrees_on_whole_sign_cusps
           95.5 Samples.delhi_planets "placidus" H1 H2).
Defined.

(** At the longitude 360, which rounding can produce, the two modes part:
    whole-sign counting wraps to the sign of Aries while the Placidus
    search keeps the planet in the house of Pisces. *)
Lemma modes_differ_at_360 :
  planet_house (calculate_houses_whole_sign 10) "whole_sign" (Samples.moon_at 360)
  = Some 1%Z
  /\ planet_house (calculate_houses_whole_sign 10) "placidus" (Samples.moon_at 360)
     = Some 12%Z.
Proof. split; vm_compute; reflexivity. Qed.

(** Assignment reads only [fullDegree], so running it again on its own
    result changes nothing. *)
Theorem assign_planets_idempotent :
  forall (planets planets' : list planet) (houses : list house_cusp)
         (house_system : string),
    assign_planets_to_houses planets houses house_system = Some planets' ->
    assign_planets_to_houses planets' houses house_system = Some planets'.
Proof.
  intros planets planets' houses house_system.
  revert planets'. induction planets as [| p rest IH]; intros planets' H.
  - cbn in H. injection H as <-. reflexivity.
  - cbn [assign_planets_to_houses] in H.
    destruct (planet_house houses house_system p) as [h|] eqn:Hh; [| discriminate].
    destruct (assign_planets_to_houses rest houses house_system) as [rest'|] eqn:Hr;
      [| discriminate].
    injection H as <-. cbn [assign_planets_to_houses].
    assert (Same : planet_house houses house_system (set_house p h) = Some h)
      by (rewrite <- Hh; reflexivity).
    rewrite Same, (IH rest' eq_refl). reflexivity.
Qed.

Lemma assign_planets_idempotent_witness :
  exists planets',
    assign_planets_to_houses Samples.delhi_planets
                             (calculate_houses_whole_sign 95.5) "whole_sign"
    = Some planets'
    /\ assign_planets_to_houses planets' (calculate_houses_whole_sign 95.5)
                                "whole_sign"
       = Some planets'.
Proof.
  destruct (assign_planets_total Samples.delhi_planets
                                 (calculate_houses_whole_sign 95.5) "whole_sign"
                                 eq_refl) as [planets' H].
  exists planets'. split; [exact H|].
  exact (assign_planets_idempotent _ _ _ _ H).
Defined.

Lemma NoDup_app_disjoint {A : Type} (l1 l2 : list A) :
  NoDup (l1 ++ l2) -> forall x, In x l1 -> ~ In x l2.
Proof.
  induction l1 as [| y l1 IH]; intros N x Hx Hy; [contradiction|].
  cbn [app] in N. apply NoDup_cons_iff in N as [Hnot Hrest].
  destruct Hx as [-> | Hx].
  - apply Hnot, in_or_app. right. exact Hy.
  - exact (IH Hrest x Hx Hy).
Qed.

Lemma NoDup_app_swap {A : Type} (l1 l2 : list A) :
  NoDup (l1 ++ l2) -> NoDup (l2 ++ l1).
Proof.
  intros N. apply NoDup_app.
  - exact (NoDup_app_remove_l _ _ N).
  - exact (NoDup_app_remove_r _ _ N).
  - intros x H2 H1. exact (NoDup_app_disjoint l1 l2 N x H1 H2).
Qed.

(** The twelve whole-sign houses carry the twelve signs in zodiacal
    order, starting from the sign of the ascendant: no sign is repeated
    and none is left out. *)
Theorem whole_sign_houses_rotate_the_zodiac :
  forall ascendant : Q,
    0 <= ascendant < 360 ->
    let a := Z.to_nat (sign_num (longitude_to_sign ascendant)) in
    map cusp_sign (calculate_houses_whole_sign ascendant)
    = skipn a SIGNS ++ firstn a SIGNS
    /\ NoDup (map cusp_sign (calculate_houses_whole_sign ascendant)).
Proof.
  intros ascendant Hasc a.
  assert (E : map cusp_sign (calculate_houses_whole_sign ascendant)
              = skipn a SIGNS ++ firstn a SIGNS).
  { subst a. rewrite (sign_num_unreduced _ Hasc), whole_sign_unfold.
    pose proof (sign_index_range ascendant Hasc) as Ha.
    set (k := int_of_float (ascendant / 30)) in *.
    assert (C : (k = 0 \/ k = 1 \/ k = 2 \/ k = 3 \/ k = 4 \/ k = 5 \/ k = 6
                 \/ k = 7 \/ k = 8 \/ k = 9 \/ k = 10 \/ k = 11)%Z) by lia.
    clearbody k.
    repeat (destruct C as [-> | C]); [.. | subst k]; reflexivity. }
  split; [exact E|]. rewrite E.
  apply NoDup_app_swap. rewrite firstn_skipn.
  unfold SIGNS. repeat constructor; cbn [In]; intuition discriminate.
Qed.

Lemma whole_sign_houses_rotate_the_zodiac_witness :
  0 <= 95.5 < 360
  /\ NoDup (map cusp_sign (calculate_houses_whole_sign 95.5)).
Proof.
  assert (H : 0 <= 95.5 < 360) by closed_range.
  split; [exact H|].
  exact (proj2 (whole_sign_houses_rotate_the_zodiac 95.5 H)).
Defined.

End ModeAgreementProps.

(* ================================================================= *)
(** ** Signs and houses of the lunar nodes *)

Section NodeSignProps.

Import Signs Planetary Houses.

(** Rounding to six decimals never crosses a whole number of degrees. *)
Lemma round_float_6_le_int x (k : Z) :
  x <= inject_Z k -> round_float x 6 <= inject_Z k.
Proof.
  intros H. rewrite round_float_6.
  pose proof (round_half_even_bounds (x * 1000000)) as [_ B].
  assert (R : (round_half_even (x * 1000000) <= k * 1000000)%Z).
  { assert (B' : inject_Z (round_half_even (x * 1000000))
                 < inject_Z (k * 1000000 + 1)).
    { rewrite inject_Z_plus, inject_Z_mult.
      change (inject_Z 1000000) with 1000000. change (inject_Z 1) with 1. lra. }
    rewrite <- Zlt_Qlt in B'. lia. }
  rewrite Zle_Qle, inject_Z_mult in R. change (inject_Z 1000000) with 1000000 in R.
  set (r := inject_Z (round_half_even (x * 1000000))) in *.
  assert (E : r / 1000000 == r * (1 # 1000000)) by field.
  rewrite E. lra.
Qed.

Lemma round_float_6_ge_int x (k : Z) :
  inject_Z k <= x -> inject_Z k <= round_float x 6.
Proof.
  intros H. rewrite round_float_6.
  pose proof (round_half_even_bounds (x * 1000000)) as [A _].
  assert (R : (k * 1000000 <= round_half_even (x * 1000000))%Z).
  { assert (A' : inject_Z (k * 1000000 + -1)
                 < inject_Z (round_half_even (x * 1000000))).
    { rewrite inject_Z_plus, inject_Z_mult.
      change (inject_Z 1000000) with 1000000. change (inject_Z (-1)) with (-1).
      lra. }
    rewrite <- Zlt_Qlt in A'. lia. }
  rewrite Zle_Qle, inject_Z_mult in R. change (inject_Z 1000000) with 1000000 in R.
  set (r := inject_Z (round_half_even (x * 1000000))) in *.
  assert (E : r / 1000000 == r * (1 # 1000000)) by field.
  rewrite E. lra.
Qed.

(** Half a turn is six signs. *)
Lemma sign_index_plus_180 x :
  0 <= x -> int_of_float ((x + 180) / 30) = (int_of_float (x / 30) + 6)%Z.
Proof.
  intros Hx.
  assert (E30 : x / 30 == x * (1 # 30)) by field.
  assert (E : (x + 180) / 30 == x / 30 + inject_Z 6) by field.
  rewrite E, !int_of_float_floor.
  - apply Qfloor_add_Z.
  - rewrite E30. lra.
  - change (inject_Z 6) with 6. rewrite E30. lra.
Qed.

Lemma sign_index_minus_180 x :
  180 <= x -> int_of_float ((x - 180) / 30) = (int_of_float (x / 30) - 6)%Z.
Proof.
  intros Hx.
  assert (E30 : x / 30 == x * (1 # 30)) by field.
  assert (E : (x - 180) / 30 == x / 30 + inject_Z (-6)) by field.
  rewrite E, !int_of_float_floor.
  - apply Qfloor_add_Z.
  - rewrite E30. lra.
  - change (inject_Z (-6)) with (-6). rewrite E30. lra.
Qed.

(** The signs of the nodes as computed from the Moon's longitude. *)
Lemma node_signs :
  forall moon_position : planet,
    0 <= fullDegree moon_position < 360 ->
    let rahu := fst (calculate_rahu_ketu moon_position) in
    let ketu := snd (calculate_rahu_ketu moon_position) in
    let s := sign_num (longitude_to_sign (fullDegree moon_position)) in
    sign ketu = get_sign_name s
    /\ signLord ketu = get_sign_lord s
    /\ sign rahu = get_sign_name ((s + 6) mod 12)
    /\ signLord rahu = get_sign_lord ((s + 6) mod 12)
    /\ normDegree rahu == normDegree ketu.
Proof.
  intros moon_position HL rahu ketu s.
  set (L := fullDegree moon_position) in *.
  pose proof (sign_index_range L HL) as Hs.
  assert (Es : s = int_of_float (L / 30)) by (apply sign_num_unreduced; exact HL).
  assert (Er : sign_num (longitude_to_sign (float_mod (L + 180) 360))
               = ((s + 6) mod 12)%Z).
  { unfold longitude_to_sign; cbn [sign_num]. rewrite Es.
    destruct (opposite_longitude L HL) as [[C M] | [C M]].
    - rewrite (int_of_float_comp _ ((L + 180) / 30)) by (rewrite M; reflexivity).
      rewrite sign_index_plus_180 by lra. reflexivity.
    - rewrite (int_of_float_comp _ ((L - 180) / 30)) by (rewrite M; reflexivity).
      rewrite sign_index_minus_180 by exact C.
      rewrite <- (Z_mod_plus_full (int_of_float (L / 30) - 6) 1 12).
      f_equal. lia. }
  assert (En : float_mod (float_mod (L + 180) 360) 30 == float_mod L 30).
  { destruct (opposite_longitude L HL) as [[C M] | [C M]]; rewrite M.
    - pose proof (float_mod_add_multiple L 30 6) as A.
      change (inject_Z 6) with 6 in A. rewrite <- A by reflexivity.
      assert (E : L + 180 == L + 6 * 30) by ring. rewrite E. reflexivity.
    - pose proof (float_mod_add_multiple L 30 (-6)) as A.
      change (inject_Z (-6)) with (-6) in A. rewrite <- A by reflexivity.
      assert (E : L - 180 == L + -6 * 30) by ring. rewrite E. reflexivity. }
  split; [reflexivity|]. split; [reflexivity|].
  split; [| split].
  - change (sign rahu)
      with (get_sign_name
              (sign_num (longitude_to_sign (float_mod (L + 180) 360)))).
    rewrite Er. reflexivity.
  - change (signLord rahu)
      with (get_sign_lord
              (sign_num (longitude_to_sign (float_mod (L + 180) 360)))).
    rewrite Er. reflexivity.
  - change (normDegree rahu)
      with (round_float (float_mod (float_mod (L + 180) 360) 30) 6).
    change (normDegree ketu) with (round_float (float_mod L 30) 6).
    rewrite En. reflexivity.
Qed.

(** For a Moon dictionary as the engine produces it when rounding has not
    moved the longitude into another sign (a six-decimal [fullDegree] in
    [0,360) and a [sign] that is the sign of that longitude), Ketu has the
    Moon's sign and the lord of that sign, Rahu has the sign six signs
    further and its lord, and both nodes carry the same [normDegree]. *)
Theorem rahu_ketu_signs_opposite :
  forall moon_position : planet,
    0 <= fullDegree moon_position < 360 ->
    round_float (fullDegree moon_position) 6 == fullDegree moon_position ->
    sign moon_position
    = sign_name (longitude_to_sign (fullDegree moon_position)) ->
    let rahu := fst (calculate_rahu_ketu moon_position) in
    let ketu := snd (calculate_rahu_ketu moon_position) in
    let s := sign_num (longitude_to_sign (fullDegree moon_position)) in
    sign ketu = sign moon_position
    /\ sign moon_position = get_sign_name s
    /\ signLord ketu = get_sign_lord s
    /\ sign rahu = get_sign_name ((s + 6) mod 12)
    /\ signLord rahu = get_sign_lord ((s + 6) mod 12)
    /\ normDegree rahu == normDegree ketu.
Proof.
  intros moon_position HL _ Hsign rahu ketu s.
  destruct (node_signs moon_position HL) as (Hk & Hkl & Hr & Hrl & Hn).
  split; [rewrite Hsign; exact Hk|].
  split; [rewrite Hsign; reflexivity|].
  split; [exact Hkl|]. split; [exact Hr|]. split; [exact Hrl | exact Hn].
Qed.

(** The hypotheses of [rahu_ketu_signs_opposite] at the Moon longitude
    193.777733. *)
Lemma rahu_ketu_signs_opposite_witness :
  0 <= fullDegree (Samples.moon_at 193.777733) < 360
  /\ round_float (fullDegree (Samples.moon_at 193.777733)) 6
     == fullDegree (Samples.moon_at 193.777733)
  /\ sign (Samples.moon_at 193.777733)
     = sign_name (longitude_to_sign (fullDegree (Samples.moon_at 193.777733)))
  /\ sign (snd (calculate_rahu_ketu (Samples.moon_at 193.777733)))
     = sign (Samples.moon_at 193.777733)
  /\ sign (fst (calculate_rahu_ketu (Samples.moon_at 193.777733)))
     = get_sign_name
         ((sign_num (longitude_to_sign (fullDegree (Samples.moon_at 193.777733)))
           + 6) mod 12).
Proof.
  assert (H : 0 <= fullDegree (Samples.moon_at 193.777733) < 360) by closed_range.
  assert (G : round_float (fullDegree (Samples.moon_at 193.777733)) 6
              == fullDegree (Samples.moon_at 193.777733)) by reflexivity.
  split; [exact H|]. split; [exact G|]. split; [reflexivity|].
  destruct (rahu_ketu_signs_opposite (Samples.moon_at 193.777733) H G eq_refl)
    as (Hk & _ & _ & Hr & _).
  split; [exact Hk | exact Hr].
Defined.

(** Under Whole Sign assignment the two nodes always fall in opposite
    houses: their house numbers differ by six modulo twelve, whatever the
    cusp list, as long as it has a first entry. *)
Theorem rahu_ketu_houses_opposite :
  forall (moon_position : planet) (houses : list house_cusp),
    0 <= fullDegree moon_position < 360 ->
    houses <> [] ->
    exists rahu' ketu',
      assign_planets_to_houses
        [fst (calculate_rahu_ketu moon_position);
         snd (calculate_rahu_ketu moon_position)] houses "whole_sign"
      = Some [rahu'; ketu']
      /\ ((house rahu' - house ketu') mod 12 = 6)%Z.
Proof.
  intros moon_position houses HL Hne.
  destruct houses as [| h0 rest]; [congruence|].
  set (L := fullDegree moon_position) in *.
  set (first := int_of_float (degree h0 / 30)).
  set (x := round_float L 6).
  assert (Hx : 0 <= x <= 360) by (apply round_float_6_range; exact HL).
  assert (Signs :
            int_of_float (round_float (float_mod (L + 180) 360) 6 / 30)
            = (int_of_float (x / 30) + 6)%Z
            \/ int_of_float (round_float (float_mod (L + 180) 360) 6 / 30)
               = (int_of_float (x / 30) - 6)%Z).
  { destruct (opposite_longitude L HL) as [[C M] | [C M]].
    - left.
      assert (E : round_float (float_mod (L + 180) 360) 6 == x + 180)
        by (rewrite M; apply round_float_6_plus_180).
      rewrite (int_of_float_comp _ ((x + 180) / 30)) by (rewrite E; reflexivity).
      apply sign_index_plus_180. apply Hx.
    - right.
      assert (E : round_float (float_mod (L + 180) 360) 6 == x - 180)
        by (rewrite M; apply round_float_6_minus_180).
      rewrite (int_of_float_comp _ ((x - 180) / 30)) by (rewrite E; reflexivity).
      apply sign_index_minus_180.
      apply (round_float_6_ge_int L 180). exact C. }
  eexists. eexists. split; [reflexivity|].
  cbn [house set_house fullDegree fst snd calculate_rahu_ketu].
  fold L. fold x. fold first.
  destruct Signs as [-> | ->]; Z.div_mod_to_equations; lia.
Qed.

Lemma rahu_ketu_houses_opposite_witness :
  0 <= fullDegree (Samples.moon_at 193.777733) < 360
  /\ calculate_houses_whole_sign 95.5 <> []
  /\ exists rahu' ketu',
      assign_planets_to_houses
        [fst (calculate_rahu_ketu (Samples.moon_at 193.777733));
         snd (calculate_rahu_ketu (Samples.moon_at 193.777733))]
        (calculate_houses_whole_sign 95.5) "whole_sign"
      = Some [rahu'; ketu']
      /\ ((house rahu' - house ketu') mod 12 = 6)%Z.
Proof.
  assert (H1 : 0 <= fullDegree (Samples.moon_at 193.777733) < 360)
    by closed_range.
  assert (H2 : calculate_houses_whole_sign 95.5 <> []) by discriminate.
  split; [exact H1|]. split; [exact H2|].
  exact (rahu_ketu_houses_opposite (Samples.moon_at 193.777733)
                                   (calculate_houses_whole_sign 95.5) H1 H2).
Defined.

End NodeSignProps.


(* ================================================================= *)
(** ** Ranges of the planet dictionaries *)

Section PlanetRangeProps.

Import Signs Nakshatras Planetary.

Variable eph : ephemeris.

(** The seven planet dictionaries come in the order of [_planets_map];
    each reports a longitude in [0, 360] and a degree within its sign in
    [0, 30], both closed because of the rounding, names a sign, a
    nakshatra and their lords from the tables, and leaves [house] at the
    sentinel 0. *)
Theorem planet_positions_shape :
  forall (dt : datetime) (latitude longitude : Q) (ayanamsha : string),
    map name (calculate_planet_positions eph dt latitude longitude ayanamsha)
    = ["Sun"; "Moon"; "Mars"; "Mercury"; "Jupiter"; "Venus"; "Saturn"]%string
    /\ Forall
         (fun p =>
            0 <= fullDegree p <= 360
            /\ 0 <= normDegree p <= 30
            /\ house p = 0%Z
            /\ In (sign p) SIGNS
            /\ In (signLord p) SIGN_LORDS
            /\ In (nakshatra p) NAKSHATRAS
            /\ In (nakshatraLord p) NAKSHATRA_LORDS)
         (calculate_planet_positions eph dt latitude longitude ayanamsha).
Proof.
  intros dt latitude longitude ayanamsha.
  split; [reflexivity|].
  unfold calculate_planet_positions. apply Forall_map.
  apply Forall_forall. intros [planet_name planet_body] _.
  cbn [fullDegree normDegree house sign signLord nakshatra nakshatraLord].
  set (sidereal := float_mod _ 360).
  assert (Hs : 0 <= sidereal < 360) by (apply float_mod_bounds; reflexivity).
  split; [apply round_float_6_range; exact Hs|].
  split.
  { unfold longitude_to_sign; cbn [norm_degree].
    destruct (float_mod_bounds sidereal 30) as [A B]; [reflexivity|].
    split.
    - apply (round_float_6_ge_int _ 0). exact A.
    - apply (round_float_6_le_int _ 30). apply Qlt_le_weak. exact B. }
  split; [reflexivity|].
  unfold longitude_to_sign, longitude_to_nakshatra;
    cbn [sign_name sign_lord nakshatra_name nakshatra_lord].
  split; [apply (table_get_in SIGNS); discriminate|].
  split; [apply (table_get_in SIGN_LORDS); discriminate|].
  split; [apply (table_get_in NAKSHATRAS); discriminate|].
  apply (table_get_in NAKSHATRA_LORDS); discriminate.
Qed.

(** When the ephemeris reports longitudes in [0, 360), the speed is the
    representative of the daily change within [-180, 180]: it differs
    from the raw difference by a whole number of turns. *)
Theorem planet_speed_bounded :
  forall (b : body) (t : Q),
    0 <= ecliptic_lon eph Geocenter b t < 360 ->
    0 <= ecliptic_lon eph Geocenter b (t - 1) < 360 ->
    -180 <= calculate_planet_speed eph b t 1 <= 180
    /\ float_mod (calculate_planet_speed eph b t 1) 360
       == float_mod (ecliptic_lon eph Geocenter b t
                     - ecliptic_lon eph Geocenter b (t - 1)) 360.
Proof.
  intros b t Hnow Hprev.
  destruct (planet_speed_cases eph b t) as (C1 & C2 & C3).
  set (delta := ecliptic_lon eph Geocenter b t
                - ecliptic_lon eph Geocenter b (t - 1)) in *.
  assert (Hd : -360 < delta < 360) by (subst delta; lra).
  destruct (Qlt_le_dec 180 delta) as [Hi | Hi].
  - rewrite (C1 Hi). split; [lra|].
    pose proof (float_mod_add_multiple delta 360 (-1)) as A.
    change (inject_Z (-1)) with (-1) in A. rewrite <- A by reflexivity.
    assert (E : delta - 360 == delta + -1 * 360) by ring. rewrite E. reflexivity.
  - destruct (Qlt_le_dec delta (-180)) as [Lo | Lo].
    + rewrite (C2 Lo). split; [lra|].
      pose proof (float_mod_add_multiple delta 360 1) as A.
      change (inject_Z 1) with 1 in A. rewrite <- A by reflexivity.
      assert (E : delta + 360 == delta + 1 * 360) by ring. rewrite E. reflexivity.
    + rewrite (C3 (conj Lo Hi)). split; [lra | reflexivity].
Qed.

End PlanetRangeProps.

Section PlanetRangeWitnesses.

Import Planetary Samples.

Lemma planet_speed_bounded_witness :
  0 <= ecliptic_lon mean_motion Geocenter body_moon
                    (from_datetime mean_motion noon_2000) < 360
  /\ 0 <= ecliptic_lon mean_motion Geocenter body_moon
                       (from_datetime mean_motion noon_2000 - 1) < 360
  /\ -180 <= calculate_planet_speed mean_motion body_moon
                                    (from_datetime mean_motion noon_2000) 1
     <= 180.
Proof.
  assert (H1 : 0 <= ecliptic_lon mean_motion Geocenter body_moon
                                 (from_datetime mean_motion noon_2000) < 360)
    by (split; vm_compute; [discriminate | reflexivity]).
  assert (H2 : 0 <= ecliptic_lon mean_motion Geocenter body_moon
                                 (from_datetime mean_motion noon_2000 - 1) < 360)
    by (split; vm_compute; [discriminate | reflexivity]).
  split; [exact H1|]. split; [exact H2|].
  exact (proj1 (planet_speed_bounded mean_motion body_moon _ H1 H2)).
Defined.

End PlanetRangeWitnesses.

(* ================================================================= *)
(** ** Names and houses after assignment *)

Section RouteShapeProps.

Import Signs Planetary Houses Routes PyDatetime.

Variable math : math_module.
Variable eph : ephemeris.

(** With 12 cusps, assignment keeps the names in order and gives every
    planet a house in 1..12. *)
Lemma assign_planets_names planets houses house_system :
  List.length houses = 12%nat ->
  exists planets',
    assign_planets_to_houses planets houses house_system = Some planets'
    /\ map name planets' = map name planets
    /\ Forall (fun p => (1 <= house p <= 12)%Z) planets'.
Proof.
  intros Hlen. induction planets as [| p rest (rest' & Hrest & Hnames & Hall)].
  - exists []. repeat split. constructor.
  - destruct (planet_house_range houses house_system p Hlen) as (h & Hh & Hr).
    exists (set_house p h :: rest'). cbn [assign_planets_to_houses].
    rewrite Hh, Hrest. split; [reflexivity|]. split.
    + cbn [map name set_house]. rewrite Hnames. reflexivity.
    + constructor; [exact Hr | exact Hall].
Qed.

(** The Moon is found by name among the seven planets. *)
Lemma find_moon (planets : list planet) :
  map name planets
  = ["Sun"; "Moon"; "Mars"; "Mercury"; "Jupiter"; "Venus"; "Saturn"]%string ->
  exists moon, find (fun p => String.eqb (name p) "Moon") planets = Some moon.
Proof.
  intros H. destruct planets as [| p1 [| p2 rest]]; try discriminate.
  cbn [map] in H. injection H as H1 H2 _.
  exists p2. cbn [find]. rewrite H1, H2. reflexivity.
Qed.

End RouteShapeProps.



(* ================================================================= *)
(** ** The lazily loaded ephemeris *)

Section LoaderProps.

Import Loader.

Variables Eph Ts Body : Type.

Lemma build_planets_map_names (api : skyfield_api Eph Ts Body) eph keys entries :
  build_planets_map api eph keys = Ok entries ->
  map fst entries = map fst keys
  /\ Forall2 (fun key entry => getitem api eph (snd key) = Ok (snd entry))
             keys entries.
Proof.
  revert entries. induction keys as [| [planet_name key] rest IH]; intros entries H.
  - cbn in H. injection H as <-. split; [reflexivity | constructor].
  - cbn [build_planets_map] in H.
    destruct (getitem api eph key) as [b | e] eqn:G; [| discriminate].
    destruct (build_planets_map api eph rest) as [tail | e]; [| discriminate].
    injection H as <-. destruct (IH tail eq_refl) as [N F].
    split; [cbn [map fst]; rewrite N; reflexivity|].
    constructor; [exact G | exact F].
Qed.

(** A call that returns normally leaves the ephemeris handle set, and
    from then on every call returns at once with the globals unchanged,
    whatever the library would do: the data is loaded at most once.  When
    the call started from a fresh process, all four globals are set, the
    file loaded is de421.bsp and the planet map has the seven names in
    order. *)
Theorem ensure_ephemeris_loads_once :
  forall (api : skyfield_api Eph Ts Body) (g g' : globals Eph Ts Body),
    _ensure_ephemeris api g = (Ok tt, g') ->
    (exists eph, _eph g' = Some eph)
    /\ (forall api' : skyfield_api Eph Ts Body,
           _ensure_ephemeris api' g' = (Ok tt, g'))
    /\ (g = unloaded ->
        exists eph ts earth entries,
          g' = {| _eph := Some eph; _ts := Some ts; _earth := Some earth;
                  _planets_map := Some entries |}
          /\ load api "de421.bsp" = Ok eph
          /\ getitem api eph "earth" = Ok earth
          /\ map fst entries
             = ["Sun"; "Moon"; "Mars"; "Mercury"; "Jupiter"; "Venus";
                "Saturn"]%string).
Proof.
  intros api g g' H. unfold _ensure_ephemeris in H.
  destruct (_eph g) as [eph0 |] eqn:E0.
  - injection H as <-.
    split; [exists eph0; exact E0|].
    split; [intros api'; unfold _ensure_ephemeris; rewrite E0; reflexivity|].
    intros ->. discriminate.
  - destruct (import_load api) as [[] | e]; [| discriminate].
    destruct (load api "de421.bsp") as [eph | e] eqn:L; [| discriminate].
    destruct (load_timescale api) as [ts | e]; [| discriminate].
    destruct (getitem api eph "earth") as [earth | e] eqn:G; [| discriminate].
    destruct (build_planets_map api eph planet_keys) as [entries | e] eqn:B;
      [| discriminate].
    injection H as <-.
    split; [exists eph; reflexivity|].
    split; [intros api'; reflexivity|].
    intros _. exists eph, ts, earth, entries.
    split; [reflexivity|]. split; [reflexivity|]. split; [exact G|].
    exact (proj1 (build_planets_map_names api eph planet_keys entries B)).
Qed.

(** A failure after the first statement is never retried: when the file
    loads but the time scale raises, the call from a fresh process raises
    with the ephemeris handle already set and the other three globals
    still [None], and every later call returns normally without loading
    anything, leaving them [None]. *)
Theorem ensure_ephemeris_partial_state :
  forall (api : skyfield_api Eph Ts Body) (eph : Eph) (e : raised),
    import_load api = Ok tt ->
    load api "de421.bsp" = Ok eph ->
    load_timescale api = Raise e ->
    let stuck := {| _eph := Some eph; _ts := None; _earth := None;
                    _planets_map := None |} in
    _ensure_ephemeris api unloaded = (Raise e, stuck)
    /\ forall api' : skyfield_api Eph Ts Body,
        _ensure_ephemeris api' stuck = (Ok tt, stuck).
Proof.
  intros api eph e Hi Hl Ht stuck. split.
  - unfold _ensure_ephemeris. cbn [_eph unloaded]. rewrite Hi, Hl, Ht.
    reflexivity.
  - intros api'. reflexivity.
Qed.

End LoaderProps.

Section LoaderWitnesses.

Import Loader Samples.

(** With a library in which every call succeeds, the first call loads
    and the state it leaves is final. *)
Lemma ensure_ephemeris_loads_once_witness :
  _ensure_ephemeris skyfield_ok unloaded
  = (Ok tt,
     {| _eph := Some tt; _ts := Some tt; _earth := Some "earth"%string;
        _planets_map := Some (map (fun k => (fst k, snd k)) planet_keys) |})
  /\ exists eph,
      _eph (snd (_ensure_ephemeris skyfield_ok unloaded)) = Some eph.
Proof.
  assert (H : _ensure_ephemeris skyfield_ok unloaded
              = (Ok tt,
                 {| _eph := Some tt; _ts := Some tt;
                    _earth := Some "earth"%string;
                    _planets_map :=
                      Some (map (fun k => (fst k, snd k)) planet_keys) |}))
    by reflexivity.
  split; [exact H|].
  exact (proj1 (ensure_ephemeris_loads_once unit unit string _ _ _ H)).
Defined.

(** With a library whose time scale raises, the process is left with the
    handle set and nothing else. *)
Lemma ensure_ephemeris_partial_state_witness :
  load_timescale skyfield_no_timescale = Raise OtherError
  /\ _ensure_ephemeris skyfield_no_timescale unloaded
     = (Raise OtherError,
        {| _eph := Some tt; _ts := None; _earth := None;
           _planets_map := None |}).
Proof.
  split; [reflexivity|].
  exact (proj1 (ensure_ephemeris_partial_state unit unit string
                  skyfield_no_timescale tt OtherError
                  eq_refl eq_refl eq_refl)).
Defined.

End LoaderWitnesses.

(* ================================================================= *)
(** ** The route with its failures *)

Section ServiceProps.

Import Signs Nakshatras Planetary Houses PyDatetime Routes Loader Service Observe.

Variables Eph Ts Body : Type.
Variable math : math_module.
Variable api : skyfield_api Eph Ts Body.
Variable sky : skyfield_objects Ts Body.

(** Once the handle is set, loading is skipped. *)
Lemma ensure_idle (g : globals Eph Ts Body) eph :
  _eph g = Some eph -> _ensure_ephemeris api g = (Ok tt, g).
Proof. intros H. unfold _ensure_ephemeris. rewrite H. reflexivity. Qed.

(** A call that returns leaves the handle set. *)
Lemma ensure_sets_handle (g g' : globals Eph Ts Body) u :
  _ensure_ephemeris api g = (Ok u, g') -> exists eph, _eph g' = Some eph.
Proof.
  unfold _ensure_ephemeris. intros H.
  destruct (_eph g) as [eph0 |] eqn:E0.
  - injection H as _ <-. exists eph0. exact E0.
  - destruct (import_load api) as [[] | e]; [| discriminate].
    destruct (load api "de421.bsp") as [eph | e]; [| discriminate].
    destruct (load_timescale api) as [ts | e]; [| discriminate].
    destruct (getitem api eph "earth") as [earth | e]; [| discriminate].
    destruct (build_planets_map api eph planet_keys) as [entries | e];
      [| discriminate].
    injection H as _ <-. exists eph. reflexivity.
Qed.

(** Loading keeps a well-loaded state and turns a fresh one into a
    well-loaded one. *)
Lemma ensure_well_loaded (g g' : globals Eph Ts Body) u :
  g = unloaded \/ well_loaded g ->
  _ensure_ephemeris api g = (Ok u, g') -> well_loaded g'.
Proof.
  intros [-> | W] H.
  - unfold _ensure_ephemeris in H. cbn [_eph unloaded] in H.
    destruct (import_load api) as [[] | e]; [| discriminate].
    destruct (load api "de421.bsp") as [eph | e]; [| discriminate].
    destruct (load_timescale api) as [ts | e]; [| discriminate].
    destruct (getitem api eph "earth") as [earth | e]; [| discriminate].
    destruct (build_planets_map api eph planet_keys) as [entries | e] eqn:B;
      [| discriminate].
    injection H as _ <-. exists eph, ts, earth, entries.
    split; [reflexivity|].
    exact (proj1 (build_planets_map_names _ _ _ api eph planet_keys entries B)).
  - destruct W as (eph & ts & earth & entries & -> & N).
    cbn in H. injection H as _ <-.
    exists eph, ts, earth, entries. split; [reflexivity | exact N].
Qed.

Lemma speed_run (g : globals Eph Ts Body) eph earth b t :
  _eph g = Some eph -> _earth g = Some earth ->
  calculate_planet_speed api sky b t 1 g
  = match sky_ecliptic_lon sky earth Geocenter b t with
    | Raise e => (Raise e, g)
    | Ok pos_now =>
      match sky_ecliptic_lon sky earth Geocenter b (t - 1) with
      | Raise e => (Raise e, g)
      | Ok pos_prev =>
        let speed := (pos_now - pos_prev) / 1 in
        (Ok (if Qlt_bool 180 speed then speed - 360
             else if Qlt_bool speed (-180) then speed + 360
             else speed), g)
      end
    end.
Proof.
  intros He Hearth. unfold calculate_planet_speed, bind, global, lift, ret.
  rewrite (ensure_idle g eph He), Hearth.
  destruct (sky_ecliptic_lon sky earth Geocenter b t); [| reflexivity].
  destruct (sky_ecliptic_lon sky earth Geocenter b (t - 1)); reflexivity.
Qed.

Lemma planet_position_cases (g : globals Eph Ts Body) eph earth lat lon t ay entry :
  _eph g = Some eph -> _earth g = Some earth ->
  (body_available sky earth lat lon t (snd entry)
   /\ exists p,
       planet_position api sky earth (Topos lat lon) t ay entry g = (Ok p, g)
       /\ name p = fst entry
       /\ house p = 0%Z
       /\ 0 <= fullDegree p <= 360)
  \/ (~ body_available sky earth lat lon t (snd entry)
      /\ exists e,
          planet_position api sky earth (Topos lat lon) t ay entry g
          = (Raise e, g)).
Proof.
  intros He Hearth. destruct entry as [planet_name planet_body].
  unfold planet_position, body_available. cbn [fst snd].
  unfold bind, lift, ret.
  destruct (sky_ecliptic_lon sky earth (Topos lat lon) planet_body t)
    as [tropical | e] eqn:E1.
  2:{ right. split; [| exists e; reflexivity].
      intros [[x Hx] _]. discriminate. }
  rewrite (speed_run g eph earth planet_body t He Hearth).
  destruct (sky_ecliptic_lon sky earth Geocenter planet_body t)
    as [pos_now | e] eqn:E2.
  2:{ right. split; [| exists e; reflexivity].
      intros (_ & [x Hx] & _). discriminate. }
  destruct (sky_ecliptic_lon sky earth Geocenter planet_body (t - 1))
    as [pos_prev | e] eqn:E3.
  2:{ right. split; [| exists e; reflexivity].
      intros (_ & _ & [x Hx]). discriminate. }
  left. split; [repeat split; eexists; reflexivity|].
  eexists. split; [reflexivity|]. cbn [name]. split; [reflexivity|].
  split; [reflexivity|]. cbn [fullDegree].
  apply round_float_6_range. apply float_mod_bounds. reflexivity.
Qed.

Lemma for_each_positions (g : globals Eph Ts Body) eph earth lat lon t ay entries :
  _eph g = Some eph -> _earth g = Some earth ->
  (Forall (fun entry => body_available sky earth lat lon t (snd entry)) entries
   /\ exists ps,
       for_each entries (planet_position api sky earth (Topos lat lon) t ay) g
       = (Ok ps, g)
       /\ map name ps = map fst entries
       /\ Forall (fun p => house p = 0%Z /\ 0 <= fullDegree p <= 360) ps)
  \/ (~ Forall (fun entry => body_available sky earth lat lon t (snd entry))
               entries
      /\ exists e,
          for_each entries (planet_position api sky earth (Topos lat lon) t ay) g
          = (Raise e, g)).
Proof.
  intros He Hearth. induction entries as [| entry rest IH].
  - left. split; [constructor|]. exists []. repeat split. constructor.
  - destruct (planet_position_cases g eph earth lat lon t ay entry He Hearth)
      as [(Ha & p & Hp & Hn & Hr) | (Hna & e & Hp)].
    2:{ right. split.
        - intros F. apply Hna. inversion F. assumption.
        - exists e. cbn [for_each]. unfold bind. rewrite Hp. reflexivity. }
    destruct IH as [(Hall & ps & Hps & Hns & Hrs) | (Hnall & e & Hps)].
    2:{ right. split.
        - intros F. apply Hnall. inversion F. assumption.
        - exists e. cbn [for_each]. unfold bind. rewrite Hp, Hps. reflexivity. }
    left. split; [constructor; assumption|].
    exists (p :: ps). split.
    + cbn [for_each]. unfold bind. rewrite Hp, Hps. reflexivity.
    + cbn [map]. rewrite Hn, Hns. split; [reflexivity|]. constructor; assumption.
Qed.

Lemma positions_unfold dt lat lon ay (g : globals Eph Ts Body) :
  calculate_planet_positions api sky dt lat lon ay g
  = match _ensure_ephemeris api g with
    | (Raise e, g1) => (Raise e, g1)
    | (Ok _, g1) =>
      match _earth g1 with
      | None => (Raise OtherError, g1)
      | Some earth =>
        match _ts g1 with
        | None => (Raise OtherError, g1)
        | Some ts =>
          match _planets_map g1 with
          | None => (Raise OtherError, g1)
          | Some entries =>
            for_each entries
                     (planet_position api sky earth (Topos lat lon)
                                      (sky_from_datetime sky ts dt)
                                  (calculate_lahiri_ayanamsha
                                     (sky_from_datetime sky ts dt)))
                     g1
          end
        end
      end
    end.
Proof.
  unfold calculate_planet_positions, bind, global.
  destruct (_ensure_ephemeris api g) as [[u | e] g1]; [| reflexivity].
  destruct (_earth g1) as [earth |]; [| reflexivity].
  destruct (_ts g1) as [ts |]; [| reflexivity].
  destruct (_planets_map g1) as [entries |]; [| reflexivity].
  destruct (String.eqb (lower ay) "lahiri"); reflexivity.
Qed.

(** [calculate_planet_positions] returns exactly when the provider is
    ready, with one dictionary per entry of the planet map; otherwise it
    raises.  Either way the globals are those that loading left. *)
Lemma positions_cases dt lat lon ay (g : globals Eph Ts Body) :
  (provider_ready api sky g dt lat lon
   /\ exists ps g1 entries,
       calculate_planet_positions api sky dt lat lon ay g = (Ok ps, g1)
       /\ _ensure_ephemeris api g = (Ok tt, g1)
       /\ _planets_map g1 = Some entries
       /\ map name ps = map fst entries
       /\ Forall (fun p => house p = 0%Z /\ 0 <= fullDegree p <= 360) ps)
  \/ (~ provider_ready api sky g dt lat lon
      /\ exists e g1, calculate_planet_positions api sky dt lat lon ay g
                      = (Raise e, g1)).
Proof.
  rewrite positions_unfold. unfold provider_ready.
  destruct (_ensure_ephemeris api g) as [[[] | e] g1] eqn:En.
  2:{ right. split; [| exists e, g1; reflexivity].
      intros (g1' & _ & _ & _ & H & _). discriminate. }
  destruct (ensure_sets_handle g g1 tt En) as [eph He].
  destruct (_earth g1) as [earth |] eqn:Hearth.
  2:{ right. split; [| exists OtherError, g1; reflexivity].
      intros (g1' & earth & _ & _ & H & H2 & _).
      injection H as <-. congruence. }
  destruct (_ts g1) as [ts |] eqn:Hts.
  2:{ right. split; [| exists OtherError, g1; reflexivity].
      intros (g1' & _ & ts & _ & H & _ & H2 & _).
      injection H as <-. congruence. }
  destruct (_planets_map g1) as [entries |] eqn:Hmap.
  2:{ right. split; [| exists OtherError, g1; reflexivity].
      intros (g1' & _ & _ & m & H & _ & _ & H2 & _).
      injection H as <-. congruence. }
  destruct (for_each_positions g1 eph earth lat lon (sky_from_datetime sky ts dt)
              (calculate_lahiri_ayanamsha (sky_from_datetime sky ts dt))
              entries He Hearth)
    as [(Hall & ps & Hps & Hn & Hr) | (Hnall & e & Hps)]; rewrite Hps.
  - left. split.
    + exists g1, earth, ts, entries. repeat split; assumption.
    + exists ps, g1, entries. repeat split; assumption.
  - right. split; [| exists e, g1; reflexivity].
    intros (g1' & earth' & ts' & m & H & H1 & H2 & H3 & H4).
    injection H as <-.
    assert (earth' = earth) by congruence.
    assert (ts' = ts) by congruence.
    assert (m = entries) by congruence. subst. exact (Hnall H4).
Qed.


(** Under the field constraints the only way [datetime(...)] can raise is
    a day that its month does not have. *)
Lemma date_exists_iff (request : AstrologyRequest) :
  validate request = true ->
  (utc_of_request request = None
   <-> (days_in_month (year request) (month request) < date request)%Z).
Proof.
  intros V. unfold validate in V. repeat rewrite andb_true_iff in V.
  destruct V as ((((((((((Vy & Vm) & Vd) & Vh) & Vmi) & Vs) & _) & _) & _) & _) & _).
  unfold in_range_Z in Vy, Vm, Vd, Vh, Vmi, Vs.
  rewrite andb_true_iff, !Z.leb_le in Vy, Vm, Vd, Vh, Vmi, Vs.
  unfold utc_of_request, datetime_new.
  assert (T1 : (1 <=? year request)%Z = true) by (apply Z.leb_le; lia).
  assert (T2 : (year request <=? 9999)%Z = true) by (apply Z.leb_le; lia).
  assert (T3 : (1 <=? month request)%Z = true) by (apply Z.leb_le; lia).
  assert (T4 : (month request <=? 12)%Z = true) by (apply Z.leb_le; lia).
  assert (T5 : (1 <=? date request)%Z = true) by (apply Z.leb_le; lia).
  assert (T6 : (0 <=? hours request)%Z = true) by (apply Z.leb_le; lia).
  assert (T7 : (hours request <=? 23)%Z = true) by (apply Z.leb_le; lia).
  assert (T8 : (0 <=? minutes request)%Z = true) by (apply Z.leb_le; lia).
  assert (T9 : (minutes request <=? 59)%Z = true) by (apply Z.leb_le; lia).
  assert (T10 : (0 <=? seconds request)%Z = true) by (apply Z.leb_le; lia).
  assert (T11 : (seconds request <=? 59)%Z = true) by (apply Z.leb_le; lia).
  rewrite T1, T2, T3, T4, T5, T6, T7, T8, T9, T10, T11.
  cbn [andb].
  destruct (date request <=? days_in_month (year request) (month request))%Z eqn:Hd.
  - apply Z.leb_le in Hd. split; [discriminate | lia].
  - apply Z.leb_gt in Hd. split; [intros _; exact Hd | reflexivity].
Qed.

(** A request whose day does not exist raises before anything is
    loaded. *)
Lemma birth_chart_no_date request (g : globals Eph Ts Body) :
  utc_of_request request = None ->
  birth_chart_body math api sky request g = (Raise OtherError, g).
Proof.
  unfold utc_of_request, birth_chart_body, bind, or_raise, lift. intros H.
  destruct (datetime_new (year request) (month request) (date request)
                         (hours request) (minutes request) (seconds request));
    [discriminate | reflexivity].
Qed.

(** An exception of [calculate_planet_positions] ends the body of the
    handler. *)
Lemma birth_chart_raise request (g g1 : globals Eph Ts Body) utc_dt e :
  utc_of_request request = Some utc_dt ->
  calculate_planet_positions api sky utc_dt (latitude request)
                             (longitude request) (ayanamsha request) g
  = (Raise e, g1) ->
  birth_chart_body math api sky request g = (Raise e, g1).
Proof.
  unfold utc_of_request, birth_chart_body, bind, or_raise, lift. intros H Hpos.
  destruct (datetime_new (year request) (month request) (date request)
                         (hours request) (minutes request) (seconds request))
    as [local_dt |]; [| discriminate].
  injection H as <-. rewrite Hpos. reflexivity.
Qed.

(** Once the positions are there, the rest of the handler cannot raise. *)
Lemma birth_chart_run request (g g1 : globals Eph Ts Body) utc_dt ps :
  utc_of_request request = Some utc_dt ->
  calculate_planet_positions api sky utc_dt (latitude request)
                             (longitude request) (ayanamsha request) g
  = (Ok ps, g1) ->
  exists response,
    birth_chart_body math api sky request g = (Ok response, g1)
    /\ input response = request
    /\ ascendant response
       = calculate_ascendant math utc_dt (latitude request) (longitude request)
           (calculate_lahiri_ayanamsha (datetime_to_julian_date utc_dt))
    /\ houses response = calculate_houses_whole_sign (ascendant response)
    /\ Forall (fun p => (1 <= house p <= 12)%Z) (planets response)
    /\ (map name ps = seven_names ->
        map name (planets response)
        = seven_names ++ ["Rahu"%string; "Ketu"%string]).
Proof.
  unfold utc_of_request, birth_chart_body, bind, or_raise, lift, ret.
  intros H Hpos.
  destruct (datetime_new (year request) (month request) (date request)
                         (hours request) (minutes request) (seconds request))
    as [local_dt |]; [| discriminate].
  injection H as <-. rewrite Hpos.
  set (utc_dt := datetime_sub local_dt _).
  set (asc := calculate_ascendant math utc_dt _ _ _).
  destruct (assign_planets_names ps (calculate_houses_whole_sign asc)
                                 "whole_sign" (whole_sign_length asc))
    as (assigned & -> & Hnames & Hhouses).
  destruct (find (fun p => String.eqb (name p) "Moon") assigned) as [moon |] eqn:Hmoon.
  - destruct (calculate_rahu_ketu moon) as [rahu ketu] eqn:Enodes.
    assert (Hrk : name rahu = "Rahu"%string /\ name ketu = "Ketu"%string).
    { unfold calculate_rahu_ketu in Enodes. injection Enodes as <- <-.
      split; reflexivity. }
    destruct (assign_planets_names [rahu; ketu] (calculate_houses_whole_sign asc)
                                   "whole_sign" (whole_sign_length asc))
      as (nodes & -> & Hnode_names & Hnode_houses).
    eexists. split; [reflexivity|]. cbn [input ascendant planets houses].
    split; [reflexivity|]. split; [reflexivity|]. split; [reflexivity|].
    split; [apply Forall_app; split; assumption|].
    intros Hseven. rewrite map_app, Hnames, Hseven, Hnode_names. cbn [map].
    destruct Hrk as [-> ->]. reflexivity.
  - eexists. split; [reflexivity|]. cbn [input ascendant planets houses].
    split; [reflexivity|]. split; [reflexivity|]. split; [reflexivity|].
    split; [exact Hhouses|].
    intros Hseven. exfalso.
    destruct (find_moon assigned) as [moon Hm];
      [rewrite Hnames; exact Hseven | congruence].
Qed.


(** The status of the answer and the globals afterwards, case by case. *)
Lemma post_planets_cases request (g : globals Eph Ts Body) :
  (validate request = false
   /\ post_planets math api sky request g = (Http422, g))
  \/ (validate request = true
      /\ (days_in_month (year request) (month request) < date request)%Z
      /\ post_planets math api sky request g = (Http500, g))
  \/ (validate request = true
      /\ exists utc_dt,
          utc_of_request request = Some utc_dt
          /\ ((~ provider_ready api sky g utc_dt (latitude request) (longitude request)
               /\ exists g1, post_planets math api sky request g = (Http500, g1))
              \/ (provider_ready api sky g utc_dt (latitude request) (longitude request)
                  /\ exists response g1 ps entries,
                      post_planets math api sky request g = (Http200 response, g1)
                      /\ _ensure_ephemeris api g = (Ok tt, g1)
                      /\ _planets_map g1 = Some entries
                      /\ map name ps = map fst entries
                      /\ input response = request
                      /\ ascendant response
                         = calculate_ascendant
                             math utc_dt (latitude request) (longitude request)
                             (calculate_lahiri_ayanamsha
                                (datetime_to_julian_date utc_dt))
                      /\ houses response
                         = calculate_houses_whole_sign (ascendant response)
                      /\ Forall (fun p => (1 <= house p <= 12)%Z)
                                (planets response)
                      /\ (map name ps = seven_names ->
                          map name (planets response)
                          = seven_names ++ ["Rahu"%string; "Ketu"%string])))).
Proof.
  unfold post_planets, get_birth_chart.
  destruct (validate request) eqn:V; [right | left; split; reflexivity].
  destruct (utc_of_request request) as [utc_dt |] eqn:U.
  - right. split; [reflexivity|]. exists utc_dt. split; [reflexivity|].
    destruct (positions_cases utc_dt (latitude request) (longitude request)
                              (ayanamsha request) g)
      as [(R & ps & g1 & entries & Hpos & Hen & Hmap & Hnames & _)
         | (NR & e & g1 & Hpos)].
    + right. split; [exact R|].
      destruct (birth_chart_run request g g1 utc_dt ps U Hpos)
        as (response & -> & H1 & H2 & H3 & H4 & H5).
      exists response, g1, ps, entries. repeat split; assumption.
    + left. split; [exact NR|]. exists g1.
      rewrite (birth_chart_raise request g g1 utc_dt e U Hpos). reflexivity.
  - left. split; [reflexivity|]. split.
    + apply (date_exists_iff request V). exact U.
    + rewrite (birth_chart_no_date request g U). reflexivity.
Qed.

(** The status of POST /planets: 422 exactly when a field
    constraint is violated; and for a request that satisfies them, 500
    exactly when the day does not exist in its month or the ephemeris
    provider cannot serve the chart (loading fails or has left a handle
    unset, or the library raises for a body at the instant or one day
    before).  No other step of the handler raises. *)
Theorem route_status :
  forall (request : AstrologyRequest) (g : globals Eph Ts Body),
    (fst (post_planets math api sky request g) = Http422
     <-> validate request = false)
    /\ (validate request = true ->
        (fst (post_planets math api sky request g) = Http500
         <-> ((days_in_month (year request) (month request) < date request)%Z
              \/ exists utc_dt,
                  utc_of_request request = Some utc_dt
                  /\ ~ provider_ready api sky g utc_dt
                                      (latitude request) (longitude request)))).
Proof.
  intros request g.
  destruct (post_planets_cases request g)
    as [(V & ->) | [(V & D & ->) | (V & utc_dt & U & C)]]; cbn [fst].
  - split; [split; [intros _; exact V | reflexivity] | congruence].
  - split; [split; [discriminate | congruence]|].
    intros _. split; [intros _; left; exact D | reflexivity].
  - assert (ND : ~ (days_in_month (year request) (month request) < date request)%Z).
    { intros D. apply (date_exists_iff request V) in D. congruence. }
    destruct C as [(NR & g1 & ->) | (R & response & g1 & ps & entries & -> & _)];
      cbn [fst].
    + split; [split; [discriminate | congruence]|].
      intros _. split; [| reflexivity].
      intros _. right. exists utc_dt. split; [exact U | exact NR].
    + split; [split; [discriminate | congruence]|].
      intros _. split; [discriminate|].
      intros [D | (utc' & U' & NR)]; [contradiction|].
      assert (utc' = utc_dt) by congruence. subst. contradiction.
Qed.

(** A request that satisfies the field constraints and whose day
    exists, received in a fresh process or after a complete load, with a
    provider that can serve it, is answered with status 200 and a complete
    chart: the request echoed, an ascendant in [0,360], the nine bodies in
    the order Sun, Moon, Mars, Mercury, Jupiter, Venus, Saturn, Rahu, Ketu,
    each with a house in 1..12, and the twelve whole-sign houses of that
    ascendant; and it leaves the module loaded. *)
Theorem birth_chart_is_complete :
  forall (request : AstrologyRequest) (utc_dt : datetime)
         (g : globals Eph Ts Body),
    validate request = true ->
    utc_of_request request = Some utc_dt ->
    g = unloaded \/ well_loaded g ->
    provider_ready api sky g utc_dt (latitude request) (longitude request) ->
    exists response g',
      post_planets math api sky request g = (Http200 response, g')
      /\ well_loaded g'
      /\ input response = request
      /\ 0 <= ascendant response <= 360
      /\ map name (planets response)
         = ["Sun"; "Moon"; "Mars"; "Mercury"; "Jupiter"; "Venus"; "Saturn";
            "Rahu"; "Ketu"]%string
      /\ Forall (fun p => (1 <= house p <= 12)%Z) (planets response)
      /\ houses response = calculate_houses_whole_sign (ascendant response)
      /\ map house_no (houses response)
         = [1; 2; 3; 4; 5; 6; 7; 8; 9; 10; 11; 12]%Z.
Proof.
  intros request utc_dt g V U Hg R.
  destruct (post_planets_cases request g)
    as [(V' & _) | [(_ & D & _) | (_ & utc' & U' & C)]].
  - congruence.
  - apply (date_exists_iff request V) in D. congruence.
  - assert (utc' = utc_dt) by congruence. subst utc'.
    destruct C as [(NR & _) | (_ & response & g1 & ps & entries & Hpost & Hen
                                & Hmap & Hnames & Hin & Hasc & Hh & Hall & Hnine)];
      [contradiction|].
    pose proof (ensure_well_loaded g g1 tt Hg Hen) as W.
    assert (Hseven : map name ps = seven_names).
    { destruct W as (e0 & t0 & b0 & m0 & -> & N). cbn in Hmap.
      injection Hmap as <-. rewrite Hnames. exact N. }
    exists response, g1. split; [exact Hpost|]. split; [exact W|].
    split; [exact Hin|]. split.
    { rewrite Hasc.
      destruct (ascendant_range math utc_dt (latitude request) (longitude request)
                  (calculate_lahiri_ayanamsha (datetime_to_julian_date utc_dt)))
        as [Lo Hi].
      split; [exact Lo | apply Qlt_le_weak; exact Hi]. }
    split; [exact (Hnine Hseven)|]. split; [exact Hall|].
    split; [exact Hh|]. rewrite Hh. reflexivity.
Qed.

(** C9, as the code has it.  A request at latitude exactly +90 or -90
    passes validation whenever its other fields satisfy their constraints;
    it is never answered with a validation error; it fails with status 500
    only for a day that does not exist or a provider that cannot serve the
    chart; and whenever the day exists and the provider can serve it, it is
    answered with status 200 and the ascendant that [calculate_ascendant]
    computes at that latitude. *)
Theorem pole_latitude_not_rejected :
  forall (request : AstrologyRequest) (g : globals Eph Ts Body),
    latitude request == 90 \/ latitude request == -90 ->
    validate (with_latitude request 0) = true ->
    validate request = true
    /\ fst (post_planets math api sky request g) <> Http422
    /\ (fst (post_planets math api sky request g) = Http500 ->
        (days_in_month (year request) (month request) < date request)%Z
        \/ exists utc_dt,
            utc_of_request request = Some utc_dt
            /\ ~ provider_ready api sky g utc_dt
                                (latitude request) (longitude request))
    /\ (forall utc_dt : datetime,
           utc_of_request request = Some utc_dt ->
           provider_ready api sky g utc_dt (latitude request) (longitude request) ->
           exists response g',
             post_planets math api sky request g = (Http200 response, g')
             /\ input response = request
             /\ ascendant response
                = calculate_ascendant
                    math utc_dt (latitude request) (longitude request)
                    (calculate_lahiri_ayanamsha (datetime_to_julian_date utc_dt))).
Proof.
  intros request g Hpole Hother.
  assert (V : validate request = true).
  { unfold validate in *. cbn [with_latitude year month date hours minutes seconds
                                latitude longitude timezone observation_point
                                ayanamsha] in Hother.
    repeat rewrite andb_true_iff in Hother. repeat rewrite andb_true_iff.
    destruct Hother as ((((((((((Vy & Vm) & Vd) & Vh) & Vmi) & Vs) & _) & Vlo)
                           & Vtz) & Vobs) & Vay).
    repeat split; try assumption. apply pole_latitude_in_range. exact Hpole. }
  split; [exact V|].
  destruct (post_planets_cases request g)
    as [(V' & _) | [(_ & D & ->) | (_ & utc' & U' & C)]]; [congruence | |];
    cbn [fst].
  - split; [discriminate|]. split; [intros _; left; exact D|].
    intros utc_dt U. apply (date_exists_iff request V) in D. congruence.
  - destruct C as [(NR & g1 & ->) | (R & response & g1 & ps & entries & -> & _ & _
                                     & _ & Hin & Hasc & _)]; cbn [fst].
    + split; [discriminate|]. split.
      * intros _. right. exists utc'. split; [exact U' | exact NR].
      * intros utc_dt U Rdy. assert (utc_dt = utc') by congruence. subst.
        contradiction.
    + split; [discriminate|]. split; [discriminate|].
      intros utc_dt U _. assert (utc_dt = utc') by congruence. subst.
      exists response, g1. repeat split; assumption.
Qed.

End ServiceProps.

Section ServiceWitnesses.

Import Routes Loader Service Samples PyDatetime Observe.

(** The sample library serves noon of 2000-01-01 at every place. *)
Lemma sample_provider_ready lat lon :
  provider_ready skyfield_ok sky_mean unloaded noon_2000 lat lon.
Proof.
  eexists. eexists. eexists. eexists.
  split; [reflexivity|]. split; [reflexivity|]. split; [reflexivity|].
  split; [reflexivity|].
  repeat constructor; eexists; reflexivity.
Qed.

(** The provider limited to the span of de421.bsp cannot serve noon of
    1850-01-01. *)
Lemma request_1850_not_served :
  ~ provider_ready skyfield_ok sky_covered unloaded
      (mk_datetime 1850 1 1 12 0 0 0) 28.6139 77.2090.
Proof.
  intros (g1 & earth & ts & m & Hen & He & Ht & Hm & Hall).
  vm_compute in Hen. injection Hen as <-.
  cbn in Hm. injection Hm as <-.
  inversion Hall as [| entry rest [[x Hx] _] _]. 
  vm_compute in Hx. discriminate.
Qed.

(** The hypotheses of [birth_chart_is_complete] at the Delhi request in
    a fresh process. *)
Lemma birth_chart_is_complete_witness :
  validate delhi_request = true
  /\ utc_of_request delhi_request = Some noon_2000
  /\ provider_ready skyfield_ok sky_mean unloaded noon_2000
                    (latitude delhi_request) (longitude delhi_request)
  /\ exists response g',
      post_planets math_q skyfield_ok sky_mean delhi_request unloaded
      = (Http200 response, g')
      /\ input response = delhi_request.
Proof.
  assert (V : validate delhi_request = true) by reflexivity.
  assert (U : utc_of_request delhi_request = Some noon_2000) by reflexivity.
  split; [exact V|]. split; [exact U|].
  split; [apply sample_provider_ready|].
  destruct (birth_chart_is_complete unit unit string math_q skyfield_ok sky_mean
              delhi_request noon_2000 unloaded V U (or_introl eq_refl)
              (sample_provider_ready _ _))
    as (response & g' & Hr & _ & Hin & _).
  exists response, g'. split; [exact Hr | exact Hin].
Defined.

(** A request for noon of 1850-01-01 satisfies every field constraint and
    is answered with status 500 when the provider covers only the span of
    de421.bsp. *)
Lemma route_status_witness :
  validate request_1850 = true
  /\ fst (post_planets math_q skyfield_ok sky_covered request_1850 unloaded)
     = Http500.
Proof.
  assert (V : validate request_1850 = true) by reflexivity.
  split; [exact V|].
  apply (proj2 (route_status unit unit string math_q skyfield_ok sky_covered
                             request_1850 unloaded) V).
  right. exists (mk_datetime 1850 1 1 12 0 0 0).
  split; [reflexivity | exact request_1850_not_served].
Defined.

(** The hypotheses of C9 at the north-pole request. *)
Lemma pole_latitude_not_rejected_witness :
  (latitude north_pole_request == 90 \/ latitude north_pole_request == -90)
  /\ validate (with_latitude north_pole_request 0) = true
  /\ validate north_pole_request = true
  /\ fst (post_planets math_q skyfield_ok sky_mean north_pole_request unloaded)
     <> Http422.
Proof.
  assert (H1 : latitude north_pole_request == 90
               \/ latitude north_pole_request == -90) by (left; reflexivity).
  assert (H2 : validate (with_latitude north_pole_request 0) = true)
    by reflexivity.
  split; [exact H1|]. split; [exact H2|].
  destruct (pole_latitude_not_rejected unit unit string math_q skyfield_ok
              sky_mean north_pole_request unloaded H1 H2)
    as (V & N & _).
  split; [exact V | exact N].
Defined.

(** C9 as stated fails at the north pole: the request for 2000-01-01
    12:00 at latitude 90 passes validation and is answered with status
    200, a numeric ascendant and the nine bodies. *)
Lemma north_pole_request_is_answered :
  validate north_pole_request = true
  /\ latitude north_pole_request == 90
  /\ exists response g',
      post_planets math_q skyfield_ok sky_mean north_pole_request unloaded
      = (Http200 response, g')
      /\ 0 <= ascendant response <= 360
      /\ List.length (planets response) = 9%nat.
Proof.
  split; [reflexivity|]. split; [reflexivity|].
  eexists. eexists. split; [vm_compute; reflexivity|].
  split; [split; vm_compute; discriminate | reflexivity].
Qed.

End ServiceWitnesses.

Section HalfLoaded.

Import Signs Nakshatras Planetary Houses PyDatetime Routes Loader Service Observe.

Variables Eph Ts Body : Type.
Variable math : math_module.
Variable api : skyfield_api Eph Ts Body.
Variable sky : skyfield_objects Ts Body.

(** A process in which the handle is set and one of the other globals
    is not: every request that passes validation is answered with status
    500, whatever the library would now do, and the globals stay as they
    are, so the next request fares the same. *)
Theorem half_loaded_service_answers_500 :
  forall (request : AstrologyRequest) (g : globals Eph Ts Body) (eph : Eph),
    validate request = true ->
    _eph g = Some eph ->
    _earth g = None \/ _ts g = None \/ _planets_map g = None ->
    post_planets math api sky request g = (Http500, g).
Proof.
  intros request g eph V He Hnone.
  unfold post_planets, get_birth_chart. rewrite V.
  destruct (utc_of_request request) as [utc_dt |] eqn:U.
  - assert (P : exists e,
               calculate_planet_positions api sky utc_dt (latitude request)
                 (longitude request) (ayanamsha request) g
               = (Raise e, g)).
    { rewrite (positions_unfold _ _ _ api sky), (ensure_idle _ _ _ api g eph He).
      destruct (_earth g) as [earth |]; [| exists OtherError; reflexivity].
      destruct (_ts g) as [ts |]; [| exists OtherError; reflexivity].
      destruct (_planets_map g) as [entries |]; [| exists OtherError; reflexivity].
      destruct Hnone as [H | [H | H]]; discriminate. }
    destruct P as [e P].
    rewrite (birth_chart_raise _ _ _ math api sky request g g utc_dt e U P).
    reflexivity.
  - rewrite (birth_chart_no_date _ _ _ math api sky request g U). reflexivity.
Qed.

End HalfLoaded.

Section HalfLoadedWitness.

Import Routes Loader Service Samples Observe.

(** After a load in which the time scale raised, the Delhi request is
    answered with status 500 even by a library in which every call
    succeeds. *)
Lemma half_loaded_service_answers_500_witness :
  validate delhi_request = true
  /\ snd (_ensure_ephemeris skyfield_no_timescale (@unloaded unit unit string))
     = {| _eph := Some tt; _ts := None; _earth := None; _planets_map := None |}
  /\ post_planets math_q skyfield_ok sky_mean delhi_request
                  (snd (_ensure_ephemeris skyfield_no_timescale unloaded))
     = (Http500, snd (_ensure_ephemeris skyfield_no_timescale unloaded)).
Proof.
  assert (V : validate delhi_request = true) by reflexivity.
  split; [exact V|]. split; [reflexivity|].
  apply (half_loaded_service_answers_500 unit unit string math_q skyfield_ok
           sky_mean delhi_request _ tt V); [reflexivity | left; reflexivity].
Defined.

End HalfLoadedWitness.
